(** * GPU telemetry agent: nvidia-smi query decoding, normalisation,
      anomaly scans and the NVML device monitor.

    A shallow embedding of
      - components/accelerator/nvidia/query/nvidia_smi_query_gpu.go
      - components/accelerator/nvidia/query/nvidia_smi_query.go
      - the NVML instance (package nvml: instance, Start, pollXidEvents,
        Shutdown, Get)
    with the properties the specification states about them. *)

From Stdlib Require Import ZArith List Bool Ascii String Lia SpecFloat.
From Stdlib Require Import DecimalString Sorted Permutation.
From stdpp Require Import base gmap strings.
Import ListNotations.

Local Open Scope string_scope.
Local Open Scope Z_scope.

(* ===================================================================== *)
(** ** Go strings and byte slices

    Go strings and [[]byte] are byte sequences; both are modelled by
    [string] (a list of 8-bit characters).  The functions below are the
    ones of packages [strings] and [bytes] that the sources call. *)
(* ===================================================================== *)

Module GoStrings.

Definition LF : string := String (ascii_of_nat 10) EmptyString.

  (** len(s) *)
Definition len (s : string) : nat := String.length s.

  (** strings.HasPrefix / bytes.HasPrefix *)
Definition HasPrefix (s p : string) : bool := String.prefix p s.

  (** drop the first n bytes *)
Fixpoint skip (n : nat) (s : string) : string :=
    match n, s with
    | O, _ => s
    | S n', String _ s' => skip n' s'
    | S _, EmptyString => EmptyString
    end.

  (** strings.HasSuffix / bytes.HasSuffix:
      len(s) >= len(suffix) && s[len(s)-len(suffix):] == suffix *)
Definition HasSuffix (s suffix : string) : bool :=
    (len suffix <=? len s)%nat &&
    String.eqb (skip (len s - len suffix) s) suffix.

  (** strings.TrimSuffix: s without the trailing suffix, s itself when
      it does not end with it *)
Definition TrimSuffix (s suffix : string) : string :=
    if HasSuffix s suffix
    then String.substring 0 (len s - len suffix) s
    else s.

  (** strings.Index for a non-empty separator: position of the first
      occurrence *)
Fixpoint Index (s sub : string) : option nat :=
    if String.prefix sub s then Some O
    else match s with
         | EmptyString => None
         | String _ s' => option_map S (Index s' sub)
         end.

  (** strings.Contains / bytes.Contains *)
Definition Contains (s sub : string) : bool :=
    match Index s sub with Some _ => true | None => false end.

  (** The text before the first occurrence of [sep] and the text after
      it; [None] when [sep] does not occur.  (strings.Cut) *)
Definition Cut (s sep : string) : option (string * string) :=
    match Index s sep with
    | Some i => Some (String.substring 0 i s, skip (i + len sep) s)
    | None => None
    end.

  (** strings.Split / bytes.Split for a non-empty separator: the pieces
      between the occurrences of [sep], always at least one piece. *)
Fixpoint SplitN (fuel : nat) (s sep : string) : list string :=
    match fuel with
    | O => [s]
    | S fuel' =>
        match Cut s sep with
        | Some (before, after) => before :: SplitN fuel' after sep
        | None => [s]
        end
    end.

Definition Split (s sep : string) : list string := SplitN (len s) s sep.

  (** bytes.Join *)
Definition Join (l : list string) (sep : string) : string :=
    String.concat sep l.

  (** strings.Repeat / bytes.Repeat *)
Fixpoint Repeat (s : string) (n : nat) : string :=
    match n with
    | O => EmptyString
    | S n' => s ++ Repeat s n'
    end.

  (** The ASCII white space of unicode.IsSpace: '\t' '\n' '\v' '\f' '\r'
      and ' '.  (The tool's output is ASCII; the two-byte encodings of
      U+0085 and U+00A0 are not treated.) *)
Definition isSpace (c : ascii) : bool :=
    let n := nat_of_ascii c in
    ((9 <=? n)%nat && (n <=? 13)%nat) || (n =? 32)%nat.

Fixpoint TrimLeft (s : string) : string :=
    match s with
    | String c s' => if isSpace c then TrimLeft s' else s
    | EmptyString => EmptyString
    end.

Fixpoint TrimRight (s : string) : string :=
    match s with
    | EmptyString => EmptyString
    | String c s' =>
        match TrimRight s' with
        | EmptyString => if isSpace c then EmptyString else String c EmptyString
        | t => String c t
        end
    end.

  (** strings.TrimSpace / bytes.TrimSpace *)
Definition TrimSpace (s : string) : string := TrimRight (TrimLeft s).

  (** bytes.Replace(s, old, new, 1): the first occurrence replaced *)
Definition Replace1 (s old new : string) : string :=
    match Cut s old with
    | Some (before, after) => before ++ new ++ after
    | None => s
    end.

  (** fmt's %d of an int *)
Definition Itoa (z : Z) : string := NilZero.string_of_int (Z.to_int z).

End GoStrings.
Import GoStrings.

(* ===================================================================== *)
(** ** Go errors

    [errors.New] and [fmt.Errorf] (without %w) both build a value that
    carries its message only.  Errors that come back from a library
    (strconv's NumError, the YAML decoder's errors) are kept apart. *)
(* ===================================================================== *)

Inductive error : Type :=
| errorString (text : string)
| libError (pkg text : string).

Definition Error (e : error) : string :=
  match e with
  | errorString t => t
  | libError pkg t => pkg ++ ": " ++ t
  end.

Definition errors_New (text : string) : error := errorString text.
Definition fmt_Errorf (text : string) : error := errorString text.

(* ===================================================================== *)
(** ** float64

    IEEE 754 binary64 through the Standard Library's specification of
    floating-point numbers (precision 53, maximal exponent 1024). *)
(* ===================================================================== *)

Module Float64.

Definition float64 : Type := spec_float.

Definition prec : Z := 53.
Definition emax : Z := 1024.

Definition zero : float64 := S754_zero false.
Definition ofZ (z : Z) : float64 := binary_normalize prec emax z 0 false.

Definition div (x y : float64) : float64 := SFdiv prec emax x y.
Definition mul (x y : float64) : float64 := SFmul prec emax x y.
Definition ltb (x y : float64) : bool := SFltb x y.
Definition eqb (x y : float64) : bool := SFeqb x y.

  (** x > 0 *)
Definition gt0 (x : float64) : bool := ltb zero x.
  (** x == 0 *)
Definition eq0 (x : float64) : bool := eqb x zero.

  (** Round the rational n / 2^k (n >= 0) to the nearest integer, ties
      to even. *)
Definition roundHalfEvenShift (n : Z) (k : Z) : Z :=
    let d := 2 ^ k in
    let q := n / d in
    let r := n mod d in
    match (2 * r ?= d) with
    | Lt => q
    | Gt => q + 1
    | Eq => if Z.even q then q else q + 1
    end.

  (** The exact value of the finite magnitude m * 2^e, times 100, rounded
      to an integer (ties to even): the digits %.2f prints. *)
Definition hundredths (m : positive) (e : Z) : Z :=
    if 0 <=? e then Z.pos m * 2 ^ e * 100
    else roundHalfEvenShift (Z.pos m * 100) (- e).

Definition twoDigits (z : Z) : string :=
    if z <? 10 then "0" ++ Itoa z else Itoa z.

Definition fixed2 (sign : bool) (h : Z) : string :=
    (if sign then "-" else "") ++ Itoa (h / 100) ++ "." ++ twoDigits (h mod 100).

  (** fmt.Sprintf("%.2f", x): the exact binary value converted to
      decimal and rounded to two fractional digits, ties to even. *)
Definition Sprintf_2f (x : float64) : string :=
    match x with
    | S754_zero s => fixed2 s 0
    | S754_infinity s => if s then "-Inf" else "+Inf"
    | S754_nan => "NaN"
    | S754_finite s m e => fixed2 s (hundredths m e)
    end.

End Float64.
Import Float64.

(* ===================================================================== *)
(** ** strconv

    [strconv.ParseFloat(s, 64)] belongs to Go's library, not to this
    repository: the development is parametric in it.  It returns the
    parsed number together with an optional error. *)
(* ===================================================================== *)

Class Strconv : Type :=
  ParseFloat : string -> float64 * option error.

(* ===================================================================== *)
(** ** nvidia_smi_query_gpu.go: temperature readings *)
(* ===================================================================== *)

(** A Go slice of strings: [None] is the nil slice, [Some l] a non-nil
    slice holding [l] (so [Some []] is empty and not nil). *)
Definition slice (A : Type) : Type := option (list A).

Definition slice_len {A} (s : slice A) : nat :=
  match s with None => O | Some l => List.length l end.

(** append(s, x) *)
Definition append1 {A} (s : slice A) (x : A) : slice A :=
  match s with None => Some [x] | Some l => Some (l ++ [x])%list end.

(** append(s, xs...) : appending nothing to nil leaves nil *)
Definition append {A} (s : slice A) (xs : slice A) : slice A :=
  match s, xs with
  | None, None => None
  | None, Some [] => None
  | None, Some l => Some l
  | Some l, None => Some l
  | Some l, Some l' => Some (l ++ l')%list
  end.

Module ParsedTemperature.
Record t : Type := mk {
    ID : string;
    CurrentHumanized : string;
    CurrentCelsius : string;
    LimitHumanized : string;
    LimitCelsius : string;
    UsedPercent : string;
    ShutdownHumanized : string;
    ShutdownLimit : string;
    ShutdownCelsius : string;
    SlowdownHumanized : string;
    SlowdownLimit : string;
    SlowdownCelsius : string;
    MaxOperatingLimit : string;
    Target : string;
    MemoryCurrent : string;
    MemoryMaxOperatingLimit : string
  }.

  (** ParsedTemperature{} *)
Definition empty : t := mk "" "" "" "" "" "" "" "" "" "" "" "" "" "" "" "".
End ParsedTemperature.

Module SMIGPUTemperature.
Record t : Type := mk {
    ID : string;
    Current : string;
    Limit : string;
    Shutdown : string;
    ShutdownLimit : string;
    Slowdown : string;
    SlowdownLimit : string;
    MaxOperatingLimit : string;
    Target : string;
    MemoryCurrent : string;
    MemoryMaxOperatingLimit : string
  }.

Section Getters.
Context `{Strconv}.

    (** parsed, err := strconv.ParseFloat(v, 64)
        if err != nil { return 0, err }
        return parsed, nil *)
Definition parsed (v : string) : float64 * option error :=
      match ParseFloat v with
      | (_, Some err) => (zero, Some err)
      | (p, None) => (p, None)
      end.

Definition GetCurrentCelsius (tm : t) : float64 * option error :=
      let v := Current tm in
      if String.eqb v "N/A" then (zero, Some (errors_New "N/A"))
      else if HasSuffix v " C" then parsed (TrimSuffix v " C")
      else (zero, Some (fmt_Errorf
             ("invalid GPU current temperature: " ++ Current tm ++ " (expected celsius)"))).

Definition GetLimitCelsius (tm : t) : float64 * option error :=
      let v := Limit tm in
      if String.eqb v "N/A" then (zero, Some (errors_New "N/A"))
      else if HasSuffix v " C" then parsed (TrimSuffix v " C")
      else (zero, Some (fmt_Errorf
             ("invalid GPU t.limit temperature: " ++ Limit tm ++ " (expected celsius)"))).

Definition GetShutdownCelsius (tm : t) : float64 * option error :=
      let v := Shutdown tm in
      if String.eqb v "N/A" then (zero, Some (errors_New "N/A"))
      else if HasSuffix v " C" then parsed (TrimSuffix v " C")
      else (zero, Some (fmt_Errorf
             ("invalid GPU t.shutdown temperature: " ++ Limit tm ++ " (expected celsius)"))).

Definition GetShutdownLimitCelsius (tm : t) : float64 * option error :=
      let v := ShutdownLimit tm in
      if String.eqb v "N/A" then (zero, Some (errors_New "N/A"))
      else if HasSuffix v " C" then parsed (TrimSuffix v " C")
      else (zero, Some (fmt_Errorf
             ("invalid GPU t.shutdown limit temperature: " ++ Limit tm ++ " (expected celsius)"))).

Definition GetSlowdownCelsius (tm : t) : float64 * option error :=
      let v := Slowdown tm in
      if String.eqb v "N/A" then (zero, Some (errors_New "N/A"))
      else if HasSuffix v " C" then parsed (TrimSuffix v " C")
      else (zero, Some (fmt_Errorf
             ("invalid GPU t.slowdown temperature: " ++ Limit tm ++ " (expected celsius)"))).

Definition GetSlowdownLimitCelsius (tm : t) : float64 * option error :=
      let v := SlowdownLimit tm in
      if String.eqb v "N/A" then (zero, Some (errors_New "N/A"))
      else if HasSuffix v " C" then parsed (TrimSuffix v " C")
      else (zero, Some (fmt_Errorf
             ("invalid GPU t.slowdown limit temperature: " ++ Limit tm ++ " (expected celsius)"))).

    (** err == nil *)
Definition isNil (err : option error) : bool :=
      match err with None => true | Some _ => false end.

Definition Parse (tm : t) : ParsedTemperature.t * option error :=
      let '(cur, err) := GetCurrentCelsius tm in
      match err with
      | Some e => (ParsedTemperature.empty, Some e)
      | None =>
          let CurrentCelsius := Sprintf_2f cur in

          let '(shutdownLimit, err) := GetShutdownCelsius tm in
          let '(shutdownLimit, err) :=
            if isNil err then (shutdownLimit, err)
            else GetShutdownLimitCelsius tm in
          let ShutdownCelsius :=
            if isNil err then Sprintf_2f shutdownLimit else "" in

          let '(slowdown, err) := GetSlowdownCelsius tm in
          let '(slowdown, err) :=
            if isNil err then (slowdown, err)
            else GetSlowdownLimitCelsius tm in
          let SlowdownCelsius :=
            if isNil err then Sprintf_2f slowdown else "" in

          let '(limit, err) := GetLimitCelsius tm in
          let LimitCelsius :=
            if isNil err then Sprintf_2f limit else "" in
          let limit :=
            if isNil err then limit
            else
              let limit := if gt0 shutdownLimit then shutdownLimit else limit in
              if eq0 limit && gt0 slowdown then slowdown else limit in

          let UsedPercent :=
            if gt0 limit
            then Sprintf_2f (mul (div cur limit) (ofZ 100))
            else "0.0" in

          ({| ParsedTemperature.ID := ID tm;
              ParsedTemperature.CurrentHumanized := Current tm;
              ParsedTemperature.CurrentCelsius := CurrentCelsius;
              ParsedTemperature.LimitHumanized := Limit tm;
              ParsedTemperature.LimitCelsius := LimitCelsius;
              ParsedTemperature.UsedPercent := UsedPercent;
              ParsedTemperature.ShutdownHumanized := Shutdown tm;
              ParsedTemperature.ShutdownLimit := ShutdownLimit tm;
              ParsedTemperature.ShutdownCelsius := ShutdownCelsius;
              ParsedTemperature.SlowdownHumanized := Slowdown tm;
              ParsedTemperature.SlowdownLimit := SlowdownLimit tm;
              ParsedTemperature.SlowdownCelsius := SlowdownCelsius;
              ParsedTemperature.MaxOperatingLimit := MaxOperatingLimit tm;
              ParsedTemperature.Target := Target tm;
              ParsedTemperature.MemoryCurrent := MemoryCurrent tm;
              ParsedTemperature.MemoryMaxOperatingLimit := MemoryMaxOperatingLimit tm |},
           None)
      end.
End Getters.
End SMIGPUTemperature.

(* ===================================================================== *)
(** ** nvidia_smi_query_gpu.go: power readings *)
(* ===================================================================== *)

Module SMIGPUPowerReadings.
Record t : Type := mk {
    ID : string;
    PowerDraw : string;
    CurrentPowerLimit : string;
    RequestedPowerLimit : string;
    DefaultPowerLimit : string;
    MinPowerLimit : string;
    MaxPowerLimit : string
  }.

Section Getters.
Context `{Strconv}.

Definition parsed (v : string) : float64 * option error :=
      match ParseFloat v with
      | (_, Some err) => (zero, Some err)
      | (p, None) => (p, None)
      end.

Definition GetPowerDrawW (g : t) : float64 * option error :=
      let v := PowerDraw g in
      if String.eqb v "N/A" then (zero, Some (errors_New "N/A"))
      else if HasSuffix v " W" then parsed (TrimSuffix v " W")
      else (zero, Some (fmt_Errorf
             ("invalid power draw: " ++ PowerDraw g ++ " (expected watts)"))).

Definition GetCurrentPowerLimitW (g : t) : float64 * option error :=
      let v := CurrentPowerLimit g in
      if String.eqb v "N/A" then (zero, Some (errors_New "N/A"))
      else if HasSuffix v " W" then parsed (TrimSuffix v " W")
      else (zero, Some (fmt_Errorf
             ("invalid current power limit: " ++ CurrentPowerLimit g ++ " (expected watts)"))).

Definition GetRequestedPowerLimitW (g : t) : float64 * option error :=
      let v := RequestedPowerLimit g in
      if String.eqb v "N/A" then (zero, Some (errors_New "N/A"))
      else if HasSuffix v " W" then parsed (TrimSuffix v " W")
      else (zero, Some (fmt_Errorf
             ("invalid current power limit: " ++ RequestedPowerLimit g ++ " (expected watts)"))).

Definition GetDefaultPowerLimitW (g : t) : float64 * option error :=
      let v := DefaultPowerLimit g in
      if String.eqb v "N/A" then (zero, Some (errors_New "N/A"))
      else if HasSuffix v " W" then parsed (TrimSuffix v " W")
      else (zero, Some (fmt_Errorf
             ("invalid current power limit: " ++ DefaultPowerLimit g ++ " (expected watts)"))).

Definition GetMinPowerLimitW (g : t) : float64 * option error :=
      let v := MinPowerLimit g in
      if String.eqb v "N/A" then (zero, Some (errors_New "N/A"))
      else if HasSuffix v " W" then parsed (TrimSuffix v " W")
      else (zero, Some (fmt_Errorf
             ("invalid current power limit: " ++ MinPowerLimit g ++ " (expected watts)"))).

Definition GetMaxPowerLimitW (g : t) : float64 * option error :=
      let v := MaxPowerLimit g in
      if String.eqb v "N/A" then (zero, Some (errors_New "N/A"))
      else if HasSuffix v " W" then parsed (TrimSuffix v " W")
      else (zero, Some (fmt_Errorf
             ("invalid current power limit: " ++ MaxPowerLimit g ++ " (expected watts)"))).
End Getters.
End SMIGPUPowerReadings.

(* ===================================================================== *)
(** ** nvidia_smi_query_gpu.go: the per-GPU record and its scans *)
(* ===================================================================== *)

Module SMIGPUResetStatus.
Record t : Type := mk {
  ResetRequired : string;
  DrainAndResetRecommended : string
}.
End SMIGPUResetStatus.

Module SMIClockEventReasons.
Record t : Type := mk {
  SWPowerCap : string;
  SWThermalSlowdown : string;
  HWSlowdown : string;
  HWThermalSlowdown : string;
  HWPowerBrakeSlowdown : string
}.
End SMIClockEventReasons.

Module SMIECCErrorAggregate.
Record t : Type := mk {
  DRAMCorrectable : string;
  DRAMUncorrectable : string;
  SRAMCorrectable : string;
  SRAMThresholdExceeded : string;
  SRAMUncorrectable : string;
  SRAMUncorrectableParity : string;
  SRAMUncorrectableSECDED : string
}.
End SMIECCErrorAggregate.

Module SMIECCErrorAggregateUncorrectableSRAMSources.
Record t : Type := mk {
  SRAML2 : string;
  SRAMMicrocontroller : string;
  SRAMOther : string;
  SRAMPCIE : string;
  SRAMSM : string
}.
End SMIECCErrorAggregateUncorrectableSRAMSources.

Module SMIECCErrorVolatile.
Record t : Type := mk {
  DRAMCorrectable : string;
  DRAMUncorrectable : string;
  SRAMCorrectable : string;
  SRAMUncorrectable : string;
  SRAMUncorrectableParity : string;
  SRAMUncorrectableSECDED : string
}.
End SMIECCErrorVolatile.

(** if cond { errs = append(errs, msg) } *)
Definition appendIf (cond : bool) (errs : slice string) (msg : string) : slice string :=
  if cond then append1 errs msg else errs.

(** if len(errs) == 0 { return nil }; return errs *)
Definition nilIfEmpty (errs : slice string) : slice string :=
  if (slice_len errs =? 0)%nat then None else errs.

Module SMIECCErrors.
Record t : Type := mk {
  ID : string;
  Aggregate : option SMIECCErrorAggregate.t;
  AggregateUncorrectableSRAMSources : option SMIECCErrorAggregateUncorrectableSRAMSources.t;
  Volatile : option SMIECCErrorVolatile.t
}.

Definition setID (e : t) (id : string) : t :=
  mk id (Aggregate e) (AggregateUncorrectableSRAMSources e) (Volatile e).

(** v != "" && v != "0" *)
Definition nonZero (v : string) : bool :=
  negb (String.eqb v "") && negb (String.eqb v "0").

Definition FindVolatileUncorrectableErrs (eccErrs : t) : slice string :=
  let errs : slice string := Some [] in
  let errs :=
    match Volatile eccErrs with
    | Some v =>
        let errs := appendIf (nonZero (SMIECCErrorVolatile.DRAMUncorrectable v)) errs
          ("GPU " ++ ID eccErrs ++ ": Volatile DRAMUncorrectable: "
                  ++ SMIECCErrorVolatile.DRAMUncorrectable v) in
        let errs := appendIf (nonZero (SMIECCErrorVolatile.SRAMUncorrectable v)) errs
          ("GPU " ++ ID eccErrs ++ ": Volatile SRAMUncorrectable: "
                  ++ SMIECCErrorVolatile.SRAMUncorrectable v) in
        let errs := appendIf (nonZero (SMIECCErrorVolatile.SRAMUncorrectableParity v)) errs
          ("GPU " ++ ID eccErrs ++ ": Volatile SRAMUncorrectableParity: "
                  ++ SMIECCErrorVolatile.SRAMUncorrectable v) in
        let errs := appendIf (nonZero (SMIECCErrorVolatile.SRAMUncorrectableSECDED v)) errs
          ("GPU " ++ ID eccErrs ++ ": Volatile SRAMUncorrectableSECDED: "
                  ++ SMIECCErrorVolatile.SRAMUncorrectable v) in
        errs
    | None => errs
    end in
  nilIfEmpty errs.
End SMIECCErrors.

Module SMIProcesses.
Record t : Type := mk {
  GPUInstanceID : string;
  ComputeInstanceID : string;
  ProcessID : Z;
  ProcessType : string;
  ProcessName : string;
  ProcessUsedGPUMemory : string
}.
End SMIProcesses.

Module SMIFBMemoryUsage.
Record t : Type := mk {
  ID : string;
  Total : string;
  Reserved : string;
  Used : string;
  Free : string
}.

Definition setID (f : t) (id : string) : t :=
  mk id (Total f) (Reserved f) (Used f) (Free f).
End SMIFBMemoryUsage.

Definition SMIGPUTemperature_setID (tm : SMIGPUTemperature.t) (id : string)
  : SMIGPUTemperature.t :=
  let (_, a, b, c, d, e, f, g, h, i, j) := tm in
  SMIGPUTemperature.mk id a b c d e f g h i j.

Definition SMIGPUPowerReadings_setID (p : SMIGPUPowerReadings.t) (id : string)
  : SMIGPUPowerReadings.t :=
  let (_, a, b, c, d, e, f) := p in
  SMIGPUPowerReadings.mk id a b c d e f.

Definition ClockEventsActive : string := "Active".
Definition ClockEventsNotActive : string := "Not Active".
Definition AddressingModeNone : string := "None".

Module NvidiaSMIGPU.
Record t : Type := mk {
  ID : string;
  ProductName : string;
  ProductBrand : string;
  ProductArchitecture : string;
  PersistenceMode : string;
  AddressingMode : string;
  GPUResetStatus : option SMIGPUResetStatus.t;
  ClockEventReasons : option SMIClockEventReasons.t;
  ECCErrors : option SMIECCErrors.t;
  Temperature : option SMIGPUTemperature.t;
  GPUPowerReadings : option SMIGPUPowerReadings.t;
  Processes : option SMIProcesses.t;
  FBMemoryUsage : option SMIFBMemoryUsage.t;
  FanSpeed : string
}.

Definition FindAddressingModeErr (g : t) : option error :=
  if Contains (AddressingMode g) "Unknown Error"
  then Some (fmt_Errorf (ID g ++ ": AddressingMode " ++ AddressingMode g))
  else None.

Definition FindErrs (g : t) : slice string :=
  let errs : slice string := Some [] in
  let errs :=
    match Temperature g with
    | Some tm =>
        let errs := appendIf (Contains (SMIGPUTemperature.Current tm) "Unknown Error") errs
                      (ID g ++ ": Temperature.Current Unknown Error") in
        let errs := appendIf (Contains (SMIGPUTemperature.Limit tm) "Unknown Error") errs
                      (ID g ++ ": Temperature.Limit Unknown Error") in
        let errs := appendIf (Contains (SMIGPUTemperature.ShutdownLimit tm) "Unknown Error") errs
                      (ID g ++ ": Temperature.ShutdownLimit Unknown Error") in
        let errs := appendIf (Contains (SMIGPUTemperature.SlowdownLimit tm) "Unknown Error") errs
                      (ID g ++ ": Temperature.SlowdownLimit Unknown Error") in
        let errs := appendIf (Contains (SMIGPUTemperature.MaxOperatingLimit tm) "Unknown Error") errs
                      (ID g ++ ": Temperature.MaxOperatingLimit Unknown Error") in
        let errs := appendIf (Contains (SMIGPUTemperature.Target tm) "Unknown Error") errs
                      (ID g ++ ": Temperature.Target Unknown Error") in
        let errs := appendIf (Contains (SMIGPUTemperature.MemoryCurrent tm) "Unknown Error") errs
                      (ID g ++ ": Temperature.MemoryCurrent Unknown Error") in
        let errs := appendIf (Contains (SMIGPUTemperature.MemoryMaxOperatingLimit tm) "Unknown Error") errs
                      (ID g ++ ": Temperature.MemoryMaxOperatingLimit Unknown Error") in
        errs
    | None => errs
    end in
  let errs :=
    match FindAddressingModeErr g with
    | Some err => append1 errs (Error err)
    | None => errs
    end in
  let errs := appendIf (Contains (FanSpeed g) "Unknown Error") errs
                (ID g ++ ": FanSpeed Unknown Error") in
  nilIfEmpty errs.

Definition FindHWSlowdownErrs (g : t) : slice string :=
  let errs : slice string := Some [] in
  let errs :=
    match ClockEventReasons g with
    | Some cer =>
        if String.eqb (SMIClockEventReasons.HWSlowdown cer) ClockEventsActive then
          let errs :=
            appendIf (String.eqb (SMIClockEventReasons.HWThermalSlowdown cer) ClockEventsActive)
              errs
              (ID g ++ ": ClockEventReasons.HWSlowdown.ThermalSlowdown " ++ ClockEventsActive) in
          let errs :=
            appendIf (String.eqb (SMIClockEventReasons.HWPowerBrakeSlowdown cer) ClockEventsActive)
              errs
              (ID g ++ ": ClockEventReasons.HWSlowdown.PowerBrakeSlowdown " ++ ClockEventsActive) in
          errs
        else errs
    | None => errs
    end in
  nilIfEmpty errs.

(** The loop body of ParseSMIQueryOutput that copies the device
    identifier into the sub-records that are present. *)
Definition propagateID (g : t) : t :=
  let id := ID g in
  mk (ID g) (ProductName g) (ProductBrand g) (ProductArchitecture g)
     (PersistenceMode g) (AddressingMode g)
     (GPUResetStatus g) (ClockEventReasons g)
     (option_map (fun e => SMIECCErrors.setID e id) (ECCErrors g))
     (option_map (fun tm => SMIGPUTemperature_setID tm id) (Temperature g))
     (option_map (fun p => SMIGPUPowerReadings_setID p id) (GPUPowerReadings g))
     (Processes g)
     (option_map (fun f => SMIFBMemoryUsage.setID f id) (FBMemoryUsage g))
     (FanSpeed g).
End NvidiaSMIGPU.

(* ===================================================================== *)
(** ** nvidia_smi_query.go: the document *)
(* ===================================================================== *)

(** The loop of FindSummaryErr: [prev] is lines[i-1], absent for i = 0. *)
Fixpoint summaryLoop (prev : option string) (lines : list string)
                     (errs : slice string) : slice string :=
  match lines with
  | [] => errs
  | line :: rest =>
      let errs :=
        if negb (Contains line "ERR!") then errs
        else match prev with
             | Some p => append1 errs (p ++ LF ++ line)
             | None => append1 errs line
             end in
      summaryLoop (Some line) rest errs
  end.

Definition FindSummaryErr (s : string) : slice string :=
  let errs : slice string := Some [] in
  let lines := Split s LF in
  summaryLoop None lines errs.

(** for _, g := range o.GPUs { errs := scan(g); if len(errs) == 0 { continue };
      rs = append(rs, errs...) } *)
Definition collect (scan : NvidiaSMIGPU.t -> slice string)
                   (gpus : list NvidiaSMIGPU.t) (rs : slice string) : slice string :=
  fold_left (fun rs g =>
               let errs := scan g in
               if (slice_len errs =? 0)%nat then rs else append rs errs)
            gpus rs.

Module SMIOutput.
Record t : Type := mk {
  Timestamp : string;
  DriverVersion : string;
  CUDAVersion : string;
  AttachedGPUs : Z;
  GPUs : list NvidiaSMIGPU.t;
  Raw : string;
  Summary : string;
  SummaryFailure : option error
}.

Definition FindGPUErrs (o : t) : slice string :=
  let rs : slice string := Some [] in
  let rs := collect NvidiaSMIGPU.FindErrs (GPUs o) rs in
  let rs :=
    match SummaryFailure o with
    | Some failure => append1 rs (Error failure)
    | None =>
        let serrs := FindSummaryErr (Summary o) in
        if (0 <? slice_len serrs)%nat then append rs serrs else rs
    end in
  let rs :=
    appendIf (negb (AttachedGPUs o =? Z.of_nat (List.length (GPUs o))))
      rs
      ("AttachedGPUs " ++ Itoa (AttachedGPUs o) ++ " != GPUs "
         ++ Itoa (Z.of_nat (List.length (GPUs o)))) in
  nilIfEmpty rs.

Definition FindHWSlowdownErrs (o : t) : slice string :=
  let errs : slice string := Some [] in
  let errs :=
    collect (fun g =>
               match NvidiaSMIGPU.ClockEventReasons g with
               | None => None
               | Some _ => NvidiaSMIGPU.FindHWSlowdownErrs g
               end)
            (GPUs o) errs in
  nilIfEmpty errs.
End SMIOutput.

Module rawSMIQueryOutput.
Record t : Type := mk {
  Timestamp : string;
  DriverVersion : string;
  CUDAVersion : string;
  AttachedGPUs : Z;
  GPU0 : option NvidiaSMIGPU.t;
  GPU1 : option NvidiaSMIGPU.t;
  GPU2 : option NvidiaSMIGPU.t;
  GPU3 : option NvidiaSMIGPU.t;
  GPU4 : option NvidiaSMIGPU.t;
  GPU5 : option NvidiaSMIGPU.t;
  GPU6 : option NvidiaSMIGPU.t;
  GPU7 : option NvidiaSMIGPU.t
}.
End rawSMIQueryOutput.

Module smiQueryOutputFallback.
Record t : Type := mk {
  Timestamp : string;
  DriverVersion : string;
  CUDAVersion : string;
  AttachedGPUs : Z
}.
End smiQueryOutputFallback.

(** [yaml.Unmarshal] of sigs.k8s.io/yaml is an external library; the two
    uses in ParseSMIQueryOutput decode into the full schema and into the
    reduced (header-only) schema.  Each returns the decoded struct and an
    optional error. *)
Class YAML : Type := {
  Unmarshal_raw : string -> rawSMIQueryOutput.t * option error;
  Unmarshal_fallback : string -> smiQueryOutputFallback.t * option error
}.

Definition getKey (line : string) : string :=
  let k := hd "" (Split line ":") in
  TrimSpace k.

(** len(line) - len(bytes.TrimSpace(line)) *)
Definition indentOf (line : string) : nat :=
  (len line - len (TrimSpace line))%nat.

(** The variables the line loop of ParseSMIQueryOutput carries. *)
Record rewriteState : Type := mkRewrite {
  processedLines : list string;
  lastIndent : nat;
  gpuCursor : Z;
  prevGPUID : string
}.

Definition isProcessKey (lastKey : string) : bool :=
  HasPrefix lastKey "Process ID" ||
  HasPrefix lastKey "Process Type" ||
  HasPrefix lastKey "Process Name".

(** One iteration of the loop over the input lines. *)
Definition rewriteLine (st : rewriteState) (currentLine : string) : rewriteState :=
  if (len currentLine =? 0)%nat then st
  else if Contains currentLine "===" || Contains currentLine "NVSMI LOG" then st
  else
    let lastLine := List.last (processedLines st) "" in
    let indentLevel := indentOf currentLine in
    let gpuIDLine :=
      if negb (String.eqb (prevGPUID st) "")
      then Repeat " " indentLevel ++ "ID: " ++ prevGPUID st
      else "" in
    let prevGPUID0 := "" in
    let lastKey := getKey lastLine in
    let '(currentLine', prevGPUID', gpuCursor') :=
      if HasPrefix currentLine "GPU 00000" then
        ("GPU" ++ Itoa (gpuCursor st) ++ ":", currentLine, gpuCursor st + 1)
      else if negb (HasSuffix currentLine ":") && negb (Contains currentLine ":") then
        (currentLine ++ ":", prevGPUID0, gpuCursor st)
      else if HasSuffix (TrimSpace currentLine) "None" then
        (Replace1 currentLine "None" "null", prevGPUID0, gpuCursor st)
      else if HasPrefix lastKey "HW Slowdown" ||
              HasPrefix lastKey "HW Thermal Slowdown" ||
              isProcessKey lastKey then
        let trimmed := TrimSpace currentLine in
        let line := Repeat " " (lastIndent st) in
        let line := if isProcessKey lastKey then line ++ "Process " else line in
        (line ++ trimmed, prevGPUID0, gpuCursor st)
      else (currentLine, prevGPUID0, gpuCursor st) in
    let lines := processedLines st in
    let lines :=
      if negb (String.eqb gpuIDLine "") then (lines ++ [gpuIDLine])%list else lines in
    {| processedLines := (lines ++ [currentLine'])%list;
       lastIndent := indentOf currentLine';
       gpuCursor := gpuCursor';
       prevGPUID := prevGPUID' |}.

(** The rewritten text: processedOutput. *)
Definition processedOutput (b : string) : string :=
  let splits := Split b LF in
  let st := fold_left rewriteLine splits (mkRewrite [] 0 0 "") in
  Join (processedLines st) LF.

(** bytes.Split(processedOutput, []byte("\nGPU"))[0] *)
Definition headerText (processed : string) : string :=
  hd "" (Split processed (LF ++ "GPU")).

(** The non-nil slots, in order. *)
Definition flattenSlots (raw : rawSMIQueryOutput.t) : list NvidiaSMIGPU.t :=
  let gpuFields := [ rawSMIQueryOutput.GPU0 raw; rawSMIQueryOutput.GPU1 raw;
                     rawSMIQueryOutput.GPU2 raw; rawSMIQueryOutput.GPU3 raw;
                     rawSMIQueryOutput.GPU4 raw; rawSMIQueryOutput.GPU5 raw;
                     rawSMIQueryOutput.GPU6 raw; rawSMIQueryOutput.GPU7 raw ] in
  omap (fun gpu => gpu) gpuFields.

Section Decoder.
Context `{YAML}.

Definition ParseSMIQueryOutput (b : string) : option SMIOutput.t * option error :=
  let processed := processedOutput b in
  match Unmarshal_raw processed with
  | (_, Some err) =>
      let newOutput := headerText processed in
      match Unmarshal_fallback newOutput with
      | (_, Some rerr) => (None, Some rerr)
      | (fallback, None) =>
          (Some {| SMIOutput.Timestamp := smiQueryOutputFallback.Timestamp fallback;
                   SMIOutput.DriverVersion := smiQueryOutputFallback.DriverVersion fallback;
                   SMIOutput.CUDAVersion := smiQueryOutputFallback.CUDAVersion fallback;
                   SMIOutput.AttachedGPUs := smiQueryOutputFallback.AttachedGPUs fallback;
                   SMIOutput.GPUs := [];
                   SMIOutput.Raw := "";
                   SMIOutput.Summary := "";
                   SMIOutput.SummaryFailure := None |},
           Some err)
      end
  | (raw, None) =>
      let gpus := flattenSlots raw in
      let gpus := List.map NvidiaSMIGPU.propagateID gpus in
      (Some {| SMIOutput.Timestamp := rawSMIQueryOutput.Timestamp raw;
               SMIOutput.DriverVersion := rawSMIQueryOutput.DriverVersion raw;
               SMIOutput.CUDAVersion := rawSMIQueryOutput.CUDAVersion raw;
               SMIOutput.AttachedGPUs := rawSMIQueryOutput.AttachedGPUs raw;
               SMIOutput.GPUs := gpus;
               SMIOutput.Raw := b;
               SMIOutput.Summary := "";
               SMIOutput.SummaryFailure := None |},
       None)
  end.

End Decoder.

(* ===================================================================== *)
(** ** package nvml: the device monitor (instance) *)
(* ===================================================================== *)

Module nvml.

(** nvml.Return, the status code of the device-management library. *)
Definition Return : Type := Z.
Definition SUCCESS : Return := 0.
Definition ERROR_NOT_SUPPORTED : Return := 3.
Definition ERROR_TIMEOUT : Return := 10.

Definition EventTypeSingleBitEccError : Z := 1.
Definition EventTypeDoubleBitEccError : Z := 2.
Definition EventTypeXidCriticalError : Z := 8.

Definition defaultEventMask : Z :=
  Z.lor (Z.lor EventTypeXidCriticalError EventTypeDoubleBitEccError)
        EventTypeSingleBitEccError.

(** device.Device: a live device handle, given by what its methods
    return. *)
Record Device : Type := mkDevice {
  GetUUID : string * Return;
  GetMinorNumber : Z * Return;
  GetPciInfo : (Z * Z) * Return;           (* (Bus, Device) *)
  GetName : string * Return;
  GetNumGpuCores : Z * Return;
  GetSupportedEventTypes : Z * Return;
  RegisterEvents : Z -> Return
}.

(** What the monitor uses from the rest of the package and from the
    vendor library: the per-metric records with their zero values and
    queries, nvml.ErrorString, and the fault-code table
    (nvidia_query_xid.GetDetail). *)
Class Library : Type := {
  ClockEvents : Type;  ClockSpeed : Type;  Memory : Type;
  NVLink : Type;       Power : Type;       Temperature : Type;
  Utilization : Type;  Processes : Type;   ECCErrors : Type;
  Detail : Type;

  zeroClockEvents : ClockEvents;  zeroClockSpeed : ClockSpeed;
  zeroMemory : Memory;            zeroNVLink : NVLink;
  zeroPower : Power;              zeroTemperature : Temperature;
  zeroUtilization : Utilization;  zeroProcesses : Processes;
  zeroECCErrors : ECCErrors;

  GetClockEvents : string -> Device -> ClockEvents * option error;
  GetClockSpeed : string -> Device -> ClockSpeed * option error;
  GetMemory : string -> Device -> Memory * option error;
  GetNVLink : string -> Device -> NVLink * option error;
  GetPower : string -> Device -> Power * option error;
  GetTemperature : string -> Device -> Temperature * option error;
  GetUtilization : string -> Device -> Utilization * option error;
  GetProcesses : string -> Device -> Processes * option error;
  GetECCErrors : string -> Device -> ECCErrors * option error;

  ErrorString : Return -> string;
  GetDetail : Z -> option Detail * bool
}.

Section Monitor.
Context `{Library}.

Record DeviceInfo : Type := mkDeviceInfo {
  UUID : string;
  MinorNumber : Z;
  Bus : Z;
  DeviceID : Z;                 (* field Device *)
  Name : string;
  GPUCores : Z;
  SupportedEvents : Z;
  ErrorSupported : bool;
  infoClockEvents : ClockEvents;
  infoClockSpeed : ClockSpeed;
  infoMemory : Memory;
  infoNVLink : NVLink;
  infoPower : Power;
  infoTemperature : Temperature;
  infoUtilization : Utilization;
  infoProcesses : Processes;
  infoECCErrors : ECCErrors;
  device : Device
}.

Record Output : Type := mkOutput {
  Exists_ : bool;               (* field Exists *)
  Message : string;
  DeviceInfos : list DeviceInfo
}.

Record XidEvent : Type := mkXidEvent {
  EventType : Z;
  Xid : Z;
  XidCriticalError : bool;
  EventDetail : option Detail;  (* field Detail *)
  EventMessage : string;        (* field Message *)
  EventError : option error     (* field Error *)
}.

(** A non-nil interface value or handle. *)
Inductive handle : Type := Handle.

Record instance : Type := mkInstance {
  rootCtxDone : bool;           (* rootCancel has been called *)
  nvmlExists : bool;
  nvmlExistsMsg : string;
  nvmlLib : option handle;
  devices : gmap string DeviceInfo;
  eventSet : option handle;
  eventMask : Z;
  pollers : nat                 (* background loops launched *)
}.

Definition isSet {A} (o : option A) : bool :=
  match o with Some _ => true | None => false end.

(** NewInstance, given what nvmlLib.Init, infoLib.HasNvml and
    nvmlLib.EventSetCreate return. *)
Definition NewInstance (initRet : Return) (hasNvml : bool * string)
                       (createRet : Return) : option instance * option error :=
  if negb (initRet =? SUCCESS) then
    (None, Some (fmt_Errorf ("failed to initialize NVML: " ++ ErrorString initRet)))
  else if negb (createRet =? SUCCESS) then
    (None, Some (fmt_Errorf ("failed to create event set: " ++ ErrorString createRet)))
  else
    (Some {| rootCtxDone := false;
             nvmlExists := fst hasNvml;
             nvmlExistsMsg := snd hasNvml;
             nvmlLib := Some Handle;
             devices := ∅;
             eventSet := Some Handle;
             eventMask := defaultEventMask;
             pollers := 0 |},
     None).

Definition NVMLExists (inst : instance) : bool := nvmlExists inst.

Definition withDevices (inst : instance) (m : gmap string DeviceInfo) : instance :=
  mkInstance (rootCtxDone inst) (nvmlExists inst) (nvmlExistsMsg inst) (nvmlLib inst)
             m (eventSet inst) (eventMask inst) (pollers inst).

(** The body of the loop of Start for one device: the entry to store, or
    the error to return. *)
Definition probe (inst : instance) (d : Device) : DeviceInfo + error :=
  let '(uuid, ret) := GetUUID d in
  if negb (ret =? SUCCESS) then
    inr (fmt_Errorf ("failed to get device uuid: " ++ ErrorString ret))
  else if String.eqb uuid "" then inr (errors_New "device uuid is empty")
  else
  let '(minorNumber, ret) := GetMinorNumber d in
  if negb (ret =? SUCCESS) then
    inr (fmt_Errorf ("failed to get device minor number: " ++ ErrorString ret))
  else
  let '(pciInfo, ret) := GetPciInfo d in
  if negb (ret =? SUCCESS) then
    inr (fmt_Errorf ("failed to get device PCI info: " ++ ErrorString ret))
  else
  let '(name, ret) := GetName d in
  if negb (ret =? SUCCESS) then
    inr (fmt_Errorf ("failed to get device name: " ++ ErrorString ret))
  else
  let '(cores, ret) := GetNumGpuCores d in
  if negb (ret =? SUCCESS) then
    inr (fmt_Errorf ("failed to get device cores: " ++ ErrorString ret))
  else
  let '(supportedEvents, ret) := GetSupportedEventTypes d in
  if negb (ret =? SUCCESS) then
    inr (fmt_Errorf ("failed to get supported event types: " ++ ErrorString ret))
  else
  let ret := RegisterEvents d (Z.land (eventMask inst) supportedEvents) in
  if negb (ret =? SUCCESS) then
    inr (fmt_Errorf ("failed to register events: " ++ ErrorString ret))
  else
  let errorSupported := if ret =? ERROR_NOT_SUPPORTED then false else true in
  inl {| UUID := uuid; MinorNumber := minorNumber;
         Bus := fst pciInfo; DeviceID := snd pciInfo;
         Name := name; GPUCores := cores; SupportedEvents := supportedEvents;
         ErrorSupported := errorSupported;
         infoClockEvents := zeroClockEvents; infoClockSpeed := zeroClockSpeed;
         infoMemory := zeroMemory; infoNVLink := zeroNVLink;
         infoPower := zeroPower; infoTemperature := zeroTemperature;
         infoUtilization := zeroUtilization; infoProcesses := zeroProcesses;
         infoECCErrors := zeroECCErrors;
         device := d |}.

Fixpoint enumerate (inst : instance) (ds : list Device)
                   (m : gmap string DeviceInfo)
  : gmap string DeviceInfo * option error :=
  match ds with
  | [] => (m, None)
  | d :: rest =>
      match probe inst d with
      | inr err => (m, Some err)
      | inl devInfo => enumerate inst rest (<[UUID devInfo := devInfo]> m)
      end
  end.

(** Start, given what deviceLib.GetDevices returns. *)
Definition Start (inst : instance) (getDevices : list Device * option error)
  : instance * option error :=
  if negb (isSet (nvmlLib inst)) then (inst, Some (errors_New "nvml not initialized"))
  else if negb (nvmlExists inst) then (inst, Some (errors_New "nvml not found"))
  else
    match getDevices with
    | (_, Some err) => (inst, Some err)
    | (ds, None) =>
        let '(m, err) := enumerate inst ds ∅ in
        let inst := withDevices inst m in
        match err with
        | Some e => (inst, Some e)
        | None =>
            (mkInstance (rootCtxDone inst) (nvmlExists inst) (nvmlExistsMsg inst)
                        (nvmlLib inst) (devices inst) (eventSet inst)
                        (eventMask inst) (S (pollers inst)),
             None)
        end
    end.

(** *** pollXidEvents

    The background loop interacts with its environment at three points
    of an iteration: the cancellation check before the wait, the wait
    itself, and the select that publishes an event (which either sends
    on the queue or observes the cancellation).  An [iteration] records
    what the environment answers at these points. *)

Record EventData : Type := mkEventData {
  evType : Z;                   (* e.EventType *)
  evData : Z                    (* e.EventData, a uint64 *)
}.

Inductive selected : Type :=
| SelDone                       (* case <-inst.rootCtx.Done() *)
| SelSend.                      (* case inst.eventCh <- event *)

Record iteration : Type := mkIteration {
  doneBeforeWait : bool;
  waitEvent : EventData;
  waitRet : Return;
  publish : selected
}.

(** int(xid) for a uint64 on a 64-bit platform *)
Definition toInt (x : Z) : Z :=
  if x <? 2 ^ 63 then x else x - 2 ^ 64.

Inductive stepResult : Type :=
| Exit                          (* return *)
| Continue (sent : option XidEvent).

(** The event built after a successful wait. *)
Definition decodeEvent (e : EventData) : XidEvent :=
  let xid := evData e in
  let '(xidDetail, msg) :=
    if 0 <? xid then
      let '(d, ok) := GetDetail (toInt xid) in
      (d, if ok then "received event with a known xid"
          else "received event but xid unknown")
    else (None, "received event but xid unknown") in
  {| EventType := evType e;
     Xid := xid;
     XidCriticalError := (evType e =? EventTypeXidCriticalError);
     EventDetail := xidDetail;
     EventMessage := msg;
     EventError := None |}.

(** The event built after a failed wait. *)
Definition failureEvent (ret : Return) : XidEvent :=
  {| EventType := 0;
     Xid := 0;
     XidCriticalError := false;
     EventDetail := None;
     EventMessage := "event set wait returned non-success";
     EventError := Some (fmt_Errorf ("event set wait failed: " ++ ErrorString ret)) |}.

(** One iteration of the loop. *)
Definition pollStep (it : iteration) : stepResult :=
  if doneBeforeWait it then Exit
  else
    let e := waitEvent it in
    let ret := waitRet it in
    if ret =? ERROR_TIMEOUT then Continue None
    else if negb (ret =? SUCCESS) then
      match publish it with
      | SelDone => Exit
      | SelSend => Continue (Some (failureEvent ret))
      end
    else
      match publish it with
      | SelDone => Exit
      | SelSend => Continue (Some (decodeEvent e))
      end.

(** The events the loop sends on the queue, in order, along a run of the
    environment; the flag tells whether the loop has returned. *)
Fixpoint pollXidEvents (run : list iteration) : list XidEvent * bool :=
  match run with
  | [] => ([], false)
  | it :: rest =>
      match pollStep it with
      | Exit => ([], true)
      | Continue sent =>
          let '(evs, exited) := pollXidEvents rest in
          (match sent with Some ev => ev :: evs | None => evs end, exited)
      end
  end.

(** RecvXidEvents: whether the returned channel is non-nil. *)
Definition RecvXidEvents (inst : instance) : bool := isSet (nvmlLib inst).

Definition Exists (inst : instance) : bool :=
  isSet (nvmlLib inst) && nvmlExists inst.

(** Shutdown, given what eventSet.Free and nvmlLib.Shutdown return. *)
Definition Shutdown (inst : instance) (freeRet shutdownRet : Return)
  : instance * option error :=
  match nvmlLib inst with
  | None => (inst, None)
  | Some lib =>
      (* inst.rootCancel() *)
      let inst := mkInstance true (nvmlExists inst) (nvmlExistsMsg inst)
                    (nvmlLib inst) (devices inst) (eventSet inst)
                    (eventMask inst) (pollers inst) in
      if isSet (eventSet inst) && negb (freeRet =? SUCCESS) then
        (inst, Some (fmt_Errorf ("failed to free event set: " ++ ErrorString freeRet)))
      else
        (* inst.eventSet = nil *)
        let inst := mkInstance (rootCtxDone inst) (nvmlExists inst) (nvmlExistsMsg inst)
                      (nvmlLib inst) (devices inst) None
                      (eventMask inst) (pollers inst) in
        if negb (shutdownRet =? SUCCESS) then
          (inst, Some (fmt_Errorf ("failed to shutdown NVML: " ++ ErrorString shutdownRet)))
        else
          (* inst.nvmlLib = nil *)
          (mkInstance (rootCtxDone inst) (nvmlExists inst) (nvmlExistsMsg inst)
                      None (devices inst) (eventSet inst)
                      (eventMask inst) (pollers inst),
           None)
  end.

(** *** Get *)

(** latestInfo as first built: the static attributes copied, the metrics
    at their zero values. *)
Definition latestOf (devInfo : DeviceInfo) : DeviceInfo :=
  {| UUID := UUID devInfo; MinorNumber := MinorNumber devInfo;
     Bus := Bus devInfo; DeviceID := DeviceID devInfo;
     Name := Name devInfo; GPUCores := GPUCores devInfo;
     SupportedEvents := SupportedEvents devInfo;
     ErrorSupported := ErrorSupported devInfo;
     infoClockEvents := zeroClockEvents; infoClockSpeed := zeroClockSpeed;
     infoMemory := zeroMemory; infoNVLink := zeroNVLink;
     infoPower := zeroPower; infoTemperature := zeroTemperature;
     infoUtilization := zeroUtilization; infoProcesses := zeroProcesses;
     infoECCErrors := zeroECCErrors;
     device := device devInfo |}.

(** latestInfo.<Metric> = v *)
Definition setClockEvents (l : DeviceInfo) (v : ClockEvents) : DeviceInfo :=
  mkDeviceInfo (UUID l) (MinorNumber l) (Bus l) (DeviceID l) (Name l) (GPUCores l)
    (SupportedEvents l) (ErrorSupported l)
    v (infoClockSpeed l) (infoMemory l) (infoNVLink l) (infoPower l)
    (infoTemperature l) (infoUtilization l) (infoProcesses l) (infoECCErrors l)
    (device l).

Definition setClockSpeed (l : DeviceInfo) (v : ClockSpeed) : DeviceInfo :=
  mkDeviceInfo (UUID l) (MinorNumber l) (Bus l) (DeviceID l) (Name l) (GPUCores l)
    (SupportedEvents l) (ErrorSupported l)
    (infoClockEvents l) v (infoMemory l) (infoNVLink l) (infoPower l)
    (infoTemperature l) (infoUtilization l) (infoProcesses l) (infoECCErrors l)
    (device l).

Definition setMemory (l : DeviceInfo) (v : Memory) : DeviceInfo :=
  mkDeviceInfo (UUID l) (MinorNumber l) (Bus l) (DeviceID l) (Name l) (GPUCores l)
    (SupportedEvents l) (ErrorSupported l)
    (infoClockEvents l) (infoClockSpeed l) v (infoNVLink l) (infoPower l)
    (infoTemperature l) (infoUtilization l) (infoProcesses l) (infoECCErrors l)
    (device l).

Definition setNVLink (l : DeviceInfo) (v : NVLink) : DeviceInfo :=
  mkDeviceInfo (UUID l) (MinorNumber l) (Bus l) (DeviceID l) (Name l) (GPUCores l)
    (SupportedEvents l) (ErrorSupported l)
    (infoClockEvents l) (infoClockSpeed l) (infoMemory l) v (infoPower l)
    (infoTemperature l) (infoUtilization l) (infoProcesses l) (infoECCErrors l)
    (device l).

Definition setPower (l : DeviceInfo) (v : Power) : DeviceInfo :=
  mkDeviceInfo (UUID l) (MinorNumber l) (Bus l) (DeviceID l) (Name l) (GPUCores l)
    (SupportedEvents l) (ErrorSupported l)
    (infoClockEvents l) (infoClockSpeed l) (infoMemory l) (infoNVLink l) v
    (infoTemperature l) (infoUtilization l) (infoProcesses l) (infoECCErrors l)
    (device l).

Definition setTemperature (l : DeviceInfo) (v : Temperature) : DeviceInfo :=
  mkDeviceInfo (UUID l) (MinorNumber l) (Bus l) (DeviceID l) (Name l) (GPUCores l)
    (SupportedEvents l) (ErrorSupported l)
    (infoClockEvents l) (infoClockSpeed l) (infoMemory l) (infoNVLink l) (infoPower l)
    v (infoUtilization l) (infoProcesses l) (infoECCErrors l)
    (device l).

Definition setUtilization (l : DeviceInfo) (v : Utilization) : DeviceInfo :=
  mkDeviceInfo (UUID l) (MinorNumber l) (Bus l) (DeviceID l) (Name l) (GPUCores l)
    (SupportedEvents l) (ErrorSupported l)
    (infoClockEvents l) (infoClockSpeed l) (infoMemory l) (infoNVLink l) (infoPower l)
    (infoTemperature l) v (infoProcesses l) (infoECCErrors l)
    (device l).

Definition setProcesses (l : DeviceInfo) (v : Processes) : DeviceInfo :=
  mkDeviceInfo (UUID l) (MinorNumber l) (Bus l) (DeviceID l) (Name l) (GPUCores l)
    (SupportedEvents l) (ErrorSupported l)
    (infoClockEvents l) (infoClockSpeed l) (infoMemory l) (infoNVLink l) (infoPower l)
    (infoTemperature l) (infoUtilization l) v (infoECCErrors l)
    (device l).

Definition setECCErrors (l : DeviceInfo) (v : ECCErrors) : DeviceInfo :=
  mkDeviceInfo (UUID l) (MinorNumber l) (Bus l) (DeviceID l) (Name l) (GPUCores l)
    (SupportedEvents l) (ErrorSupported l)
    (infoClockEvents l) (infoClockSpeed l) (infoMemory l) (infoNVLink l) (infoPower l)
    (infoTemperature l) (infoUtilization l) (infoProcesses l) v
    (device l).

(** The nine queries of one device, in order; each result is stored in
    latestInfo before its error is looked at, and the first error ends
    the snapshot. *)
Definition queryDevice (devInfo : DeviceInfo) : DeviceInfo * option error :=
  let uuid := UUID devInfo in
  let dev := device devInfo in
  let l := latestOf devInfo in
  let '(v, err) := GetClockEvents uuid dev in
  let l := setClockEvents l v in
  match err with Some e => (l, Some e) | None =>
  let '(v, err) := GetClockSpeed uuid dev in
  let l := setClockSpeed l v in
  match err with Some e => (l, Some e) | None =>
  let '(v, err) := GetMemory uuid dev in
  let l := setMemory l v in
  match err with Some e => (l, Some e) | None =>
  let '(v, err) := GetNVLink uuid dev in
  let l := setNVLink l v in
  match err with Some e => (l, Some e) | None =>
  let '(v, err) := GetPower uuid dev in
  let l := setPower l v in
  match err with Some e => (l, Some e) | None =>
  let '(v, err) := GetTemperature uuid dev in
  let l := setTemperature l v in
  match err with Some e => (l, Some e) | None =>
  let '(v, err) := GetUtilization uuid dev in
  let l := setUtilization l v in
  match err with Some e => (l, Some e) | None =>
  let '(v, err) := GetProcesses uuid dev in
  let l := setProcesses l v in
  match err with Some e => (l, Some e) | None =>
  let '(v, err) := GetECCErrors uuid dev in
  let l := setECCErrors l v in
  (l, err)
  end end end end end end end end.

(** for _, devInfo := range inst.devices { ... }: [order] is the
    sequence in which the runtime yields the entries of the map. *)
Fixpoint snapshot (order : list DeviceInfo) (acc : list DeviceInfo)
  : list DeviceInfo * option error :=
  match order with
  | [] => (acc, None)
  | devInfo :: rest =>
      let '(latestInfo, err) := queryDevice devInfo in
      let acc := (acc ++ [latestInfo])%list in
      match err with
      | Some e => (acc, Some e)
      | None => snapshot rest acc
      end
  end.

(** st.DeviceInfos[i].UUID < st.DeviceInfos[j].UUID *)
Definition less (a b : DeviceInfo) : bool := String.ltb (UUID a) (UUID b).

(** sort.Slice(st.DeviceInfos, less): the library's sort, here by
    insertion.  (sort.Slice is not stable; the identifiers of the
    entries of one map differ, so the order of equal keys does not
    arise.) *)
Fixpoint insertSorted (x : DeviceInfo) (l : list DeviceInfo) : list DeviceInfo :=
  match l with
  | [] => [x]
  | y :: l' => if less y x then y :: insertSorted x l' else x :: l
  end.

Definition sort_Slice (l : list DeviceInfo) : list DeviceInfo :=
  fold_right insertSorted [] l.


Definition Get (inst : instance) (order : list DeviceInfo)
  : option Output * option error :=
  if negb (isSet (nvmlLib inst)) then (None, Some (errors_New "nvml not initialized"))
  else
    let '(infos, err) := snapshot order [] in
    match err with
    | Some e =>
        (Some {| Exists_ := nvmlExists inst; Message := nvmlExistsMsg inst;
                 DeviceInfos := infos |},
         Some e)
    | None =>
        (Some {| Exists_ := nvmlExists inst; Message := nvmlExistsMsg inst;
                 DeviceInfos := sort_Slice infos |},
         None)
    end.

(** The device list is in ascending order of identifier. *)
Definition sortedByUUID (l : list DeviceInfo) : Prop :=
  Sorted (fun a b => less b a = false) l.

(** *** The calls of the Instance interface, for runs of the monitor *)

Inductive call : Type :=
| CallStart (getDevices : list Device * option error)
| CallShutdown (freeRet shutdownRet : Return)
| CallGet (order : list DeviceInfo)
| CallExists
| CallNVMLExists
| CallRecvXidEvents.

Inductive reply : Type :=
| ReplyError (err : option error)
| ReplyGet (out : option Output) (err : option error)
| ReplyBool (b : bool).

Definition perform (inst : instance) (c : call) : instance * reply :=
  match c with
  | CallStart gd => let '(i, e) := Start inst gd in (i, ReplyError e)
  | CallShutdown f s => let '(i, e) := Shutdown inst f s in (i, ReplyError e)
  | CallGet order => let '(o, e) := Get inst order in (inst, ReplyGet o e)
  | CallExists => (inst, ReplyBool (Exists inst))
  | CallNVMLExists => (inst, ReplyBool (NVMLExists inst))
  | CallRecvXidEvents => (inst, ReplyBool (RecvXidEvents inst))
  end.

Fixpoint performAll (inst : instance) (cs : list call) : instance * list reply :=
  match cs with
  | [] => (inst, [])
  | c :: rest =>
      let '(inst', r) := perform inst c in
      let '(inst'', rs) := performAll inst' rest in
      (inst'', r :: rs)
  end.

(** What the specification asks of a call made after Shutdown. *)
Definition afterShutdownReply (c : call) (r : reply) : Prop :=
  match c with
  | CallShutdown _ _ => r = ReplyError None
  | CallGet _ => r = ReplyGet None (Some (errors_New "nvml not initialized"))
  | _ => True
  end.

End Monitor.
End nvml.

(* ===================================================================== *)
(** ** Instances of the library interfaces, for concrete runs *)
(* ===================================================================== *)

Definition quote : string := String (ascii_of_nat 34) EmptyString.

(** The value of a string of decimal digits. *)
Fixpoint digitsValue (s : string) (acc : Z) : option Z :=
  match s with
  | EmptyString => Some acc
  | String c s' =>
      let n := nat_of_ascii c in
      if ((48 <=? n)%nat && (n <=? 57)%nat)%bool
      then digitsValue s' (10 * acc + Z.of_nat (n - 48))
      else None
  end.

(** The binary64 number nearest to p / q (p >= 0, q > 0), ties to even:
    the quotient is taken with two guard bits and a sticky bit and then
    rounded once. *)
Definition ofRational (sign : bool) (p q : Z) : float64 :=
  if p =? 0 then S754_zero sign
  else
    let s := Z.max 0 (56 + Z.log2 q - Z.log2 p) in
    let n := p * 2 ^ s in
    let m := n / q in
    let sticky := if n mod q =? 0 then 0 else 1 in
    let f := binary_normalize prec emax (2 * m + sticky) (- s - 1) false in
    if sign then SFopp f else f.

Definition syntaxError (s : string) : error :=
  libError "strconv.ParseFloat" ("parsing " ++ quote ++ s ++ quote ++ ": invalid syntax").

Definition rangeError (s : string) : error :=
  libError "strconv.ParseFloat" ("parsing " ++ quote ++ s ++ quote ++ ": value out of range").

(** strconv.ParseFloat on decimal literals [+-]digits[.digits].
    Literals with an exponent, hexadecimal literals, infinities and NaN
    are not covered by this instance (it reports them as syntax
    errors). *)
Definition decimalParseFloat (s : string) : float64 * option error :=
  let '(sign, body) :=
    match s with
    | String c s' =>
        if Ascii.eqb c "-"%char then (true, s')
        else if Ascii.eqb c "+"%char then (false, s')
        else (false, s)
    | EmptyString => (false, s)
    end in
  let '(ip, fp) :=
    match Cut body "." with
    | Some (a, b) => (a, b)
    | None => (body, "")
    end in
  if (len ip + len fp =? 0)%nat then (zero, Some (syntaxError s))
  else
    match digitsValue (ip ++ fp) 0 with
    | None => (zero, Some (syntaxError s))
    | Some n =>
        let f := ofRational sign n (10 ^ Z.of_nat (len fp)) in
        match f with
        | S754_infinity _ => (f, Some (rangeError s))
        | _ => (f, None)
        end
    end.

#[local] Instance decimalStrconv : Strconv := decimalParseFloat.

(** A decoder for flat documents of [key : value] lines, as the header
    of the query output is.  Like the library it works in two passes:
    the text is first read as a mapping (an indented line or a line
    without a colon is a syntax error), then the known keys are stored
    in the struct (a device count that is not a number is a type
    error); unknown keys are ignored. *)
Definition flatSyntax (acc : option error) (line : string) : option error :=
  match acc with
  | Some _ => acc
  | None =>
      if (len (TrimSpace line) =? 0)%nat then None
      else if (0 <? len line - len (TrimLeft line))%nat
      then Some (libError "yaml" "did not find expected key")
      else if negb (Contains line ":")
      then Some (libError "yaml" "could not find expected ':'")
      else None
  end.

Definition flatField (acc : smiQueryOutputFallback.t * option error) (line : string)
  : smiQueryOutputFallback.t * option error :=
  match acc with
  | (_, Some _) => acc
  | (doc, None) =>
      match Cut line ":" with
      | None => acc
      | Some (k, v) =>
          let k := TrimSpace k in
          let v := TrimSpace v in
          let '(smiQueryOutputFallback.mk ts dv cv n) := doc in
          if String.eqb k "Timestamp" then (smiQueryOutputFallback.mk v dv cv n, None)
          else if String.eqb k "Driver Version" then (smiQueryOutputFallback.mk ts v cv n, None)
          else if String.eqb k "CUDA Version" then (smiQueryOutputFallback.mk ts dv v n, None)
          else if String.eqb k "Attached GPUs" then
            match digitsValue v 0 with
            | Some z => (smiQueryOutputFallback.mk ts dv cv z, None)
            | None => (doc, Some (libError "json" "cannot unmarshal string into int"))
            end
          else acc
      end
  end.

Definition flatDecode (text : string) : smiQueryOutputFallback.t * option error :=
  let lines := Split text LF in
  let empty := smiQueryOutputFallback.mk "" "" "" 0 in
  match fold_left flatSyntax lines None with
  | Some err => (empty, Some err)
  | None => fold_left flatField lines (empty, None)
  end.

#[local] Instance flatYAML : YAML := {|
  Unmarshal_raw text :=
    let '(h, err) := flatDecode text in
    (rawSMIQueryOutput.mk (smiQueryOutputFallback.Timestamp h)
       (smiQueryOutputFallback.DriverVersion h)
       (smiQueryOutputFallback.CUDAVersion h)
       (smiQueryOutputFallback.AttachedGPUs h)
       None None None None None None None None, err);
  Unmarshal_fallback := flatDecode
|}.

(** A query output with one device block. *)
Definition sampleQuery : string :=
  "==============NVSMI LOG==============" ++ LF ++
  LF ++
  "Timestamp                                 : Thu Mar 14 09:00:03 2024" ++ LF ++
  "Driver Version                            : 535.129.03" ++ LF ++
  "CUDA Version                              : 12.2" ++ LF ++
  LF ++
  "Attached GPUs                             : 1" ++ LF ++
  "GPU 00000000:53:00.0" ++ LF ++
  "    Product Name                          : NVIDIA H100 80GB HBM3" ++ LF ++
  "    Temperature" ++ LF ++
  "        GPU Current Temp                  : 75 C" ++ LF ++
  "        GPU T.Limit Temp                  : N/A" ++ LF ++
  "        GPU Shutdown Temp                 : 95 C" ++ LF ++
  "    Processes                             : None" ++ LF.

(** A query output whose header itself is damaged: the device count is
    not a number. *)
Definition damagedQuery : string :=
  "Timestamp                                 : Thu Mar 14 09:00:03 2024" ++ LF ++
  "Driver Version                            : 535.129.03" ++ LF ++
  "CUDA Version                              : 12.2" ++ LF ++
  "Attached GPUs                             : ERR!" ++ LF ++
  "GPU 00000000:53:00.0" ++ LF ++
  "    Product Name                          : NVIDIA H100 80GB HBM3" ++ LF.

(** Concrete readings for the examples. *)
Definition tempSample (current limit shutdown : string) : SMIGPUTemperature.t :=
  SMIGPUTemperature.mk "GPU 00000000:53:00.0" current limit shutdown "N/A" "N/A" "N/A"
                       "N/A" "N/A" "N/A" "N/A".

Definition powerSample (draw requested : string) : SMIGPUPowerReadings.t :=
  SMIGPUPowerReadings.mk "GPU 00000000:53:00.0" draw "700.00 W" requested
                         "700.00 W" "200.00 W" "700.00 W".

(** A device whose top-level HW Slowdown flag is "Not Active" while both
    sub-flags read "Active". *)
Definition gpuSlowdownSample : NvidiaSMIGPU.t :=
  NvidiaSMIGPU.mk "GPU 00000000:53:00.0" "NVIDIA H100 80GB HBM3" "NVIDIA" "Hopper"
    "Enabled" "None" None
    (Some (SMIClockEventReasons.mk "Not Active" "Not Active" "Not Active"
                                   "Active" "Active"))
    None (Some (tempSample "75 C" "N/A" "95 C")) None None None "N/A".

(** An instance of the monitor's library whose metric records carry no
    data and whose memory query fails for the device [failing]. *)
Definition stubLibrary (failing : string) : nvml.Library := {|
  nvml.ClockEvents := unit;  nvml.ClockSpeed := unit;  nvml.Memory := unit;
  nvml.NVLink := unit;       nvml.Power := unit;       nvml.Temperature := unit;
  nvml.Utilization := unit;  nvml.Processes := unit;   nvml.ECCErrors := unit;
  nvml.Detail := unit;
  nvml.zeroClockEvents := tt;  nvml.zeroClockSpeed := tt;  nvml.zeroMemory := tt;
  nvml.zeroNVLink := tt;       nvml.zeroPower := tt;       nvml.zeroTemperature := tt;
  nvml.zeroUtilization := tt;  nvml.zeroProcesses := tt;   nvml.zeroECCErrors := tt;
  nvml.GetClockEvents := fun _ _ => (tt, None);
  nvml.GetClockSpeed := fun _ _ => (tt, None);
  nvml.GetMemory := fun uuid _ =>
    if String.eqb uuid failing
    then (tt, Some (fmt_Errorf "failed to get device memory: Unknown Error"))
    else (tt, None);
  nvml.GetNVLink := fun _ _ => (tt, None);
  nvml.GetPower := fun _ _ => (tt, None);
  nvml.GetTemperature := fun _ _ => (tt, None);
  nvml.GetUtilization := fun _ _ => (tt, None);
  nvml.GetProcesses := fun _ _ => (tt, None);
  nvml.GetECCErrors := fun _ _ => (tt, None);
  nvml.ErrorString := fun ret => "error " ++ Itoa ret;
  nvml.GetDetail := fun _ => (None, false)
|}.

(** A device handle whose attribute queries all succeed. *)
Definition sampleDevice (uuid : string) : nvml.Device :=
  nvml.mkDevice (uuid, nvml.SUCCESS) (0, nvml.SUCCESS) ((83, 0), nvml.SUCCESS)
                ("NVIDIA H100 80GB HBM3", nvml.SUCCESS) (16896, nvml.SUCCESS)
                (11, nvml.SUCCESS) (fun _ => nvml.SUCCESS).



(** The monitor of the examples: two devices, the memory query of
    "GPU-a" failing. *)
#[local] Instance monitorLibrary : nvml.Library := stubLibrary "GPU-a".

Definition freshMonitor : nvml.instance :=
  nvml.mkInstance false true "" (Some nvml.Handle) ∅ (Some nvml.Handle)
                  nvml.defaultEventMask 0.

Definition startedMonitor : nvml.instance :=
  fst (nvml.Start freshMonitor ([sampleDevice "GPU-b"; sampleDevice "GPU-a"], None)).

(** The entry Start stores for a sample device. *)
Definition infoOf (uuid : string) : nvml.DeviceInfo :=
  nvml.mkDeviceInfo uuid 0 83 0 "NVIDIA H100 80GB HBM3" 16896 11 true
                    tt tt tt tt tt tt tt tt tt (sampleDevice uuid).

(** A monitor all of whose devices answer every query. *)
Definition healthyMonitor : nvml.instance :=
  fst (nvml.Start freshMonitor ([sampleDevice "GPU-c"; sampleDevice "GPU-b"], None)).

(** Calls made after the monitor has been shut down. *)
Definition callsAfterShutdown : list nvml.call :=
  [ nvml.CallShutdown nvml.SUCCESS nvml.SUCCESS;
    nvml.CallGet [infoOf "GPU-b"; infoOf "GPU-a"];
    nvml.CallStart ([sampleDevice "GPU-b"], None);
    nvml.CallShutdown 999 999;
    nvml.CallGet [] ].

(** A run of the event loop: a timeout, a failed wait, a critical fault
    with code 79, and the cancellation. *)
Definition sampleRun : list nvml.iteration :=
  [ nvml.mkIteration false (nvml.mkEventData 0 0) nvml.ERROR_TIMEOUT nvml.SelSend;
    nvml.mkIteration false (nvml.mkEventData 0 0) 999 nvml.SelSend;
    nvml.mkIteration false (nvml.mkEventData 8 79) nvml.SUCCESS nvml.SelSend;
    nvml.mkIteration true (nvml.mkEventData 0 0) nvml.SUCCESS nvml.SelSend ].

(* ===================================================================== *)
(** ** Vocabulary of the properties *)
(* ===================================================================== *)

(** The unit-suffixed scalar fields and the getter of each. *)
Inductive tempField : Type :=
| TCurrent | TLimit | TShutdown | TShutdownLimit | TSlowdown | TSlowdownLimit.

Inductive powerField : Type :=
| PDraw | PCurrentLimit | PRequestedLimit | PDefaultLimit | PMinLimit | PMaxLimit.

Definition tempValue (f : tempField) (tm : SMIGPUTemperature.t) : string :=
  match f with
  | TCurrent => SMIGPUTemperature.Current tm
  | TLimit => SMIGPUTemperature.Limit tm
  | TShutdown => SMIGPUTemperature.Shutdown tm
  | TShutdownLimit => SMIGPUTemperature.ShutdownLimit tm
  | TSlowdown => SMIGPUTemperature.Slowdown tm
  | TSlowdownLimit => SMIGPUTemperature.SlowdownLimit tm
  end.

Definition tempGetter `{Strconv} (f : tempField) (tm : SMIGPUTemperature.t)
  : float64 * option error :=
  match f with
  | TCurrent => SMIGPUTemperature.GetCurrentCelsius tm
  | TLimit => SMIGPUTemperature.GetLimitCelsius tm
  | TShutdown => SMIGPUTemperature.GetShutdownCelsius tm
  | TShutdownLimit => SMIGPUTemperature.GetShutdownLimitCelsius tm
  | TSlowdown => SMIGPUTemperature.GetSlowdownCelsius tm
  | TSlowdownLimit => SMIGPUTemperature.GetSlowdownLimitCelsius tm
  end.

Definition powerValue (f : powerField) (g : SMIGPUPowerReadings.t) : string :=
  match f with
  | PDraw => SMIGPUPowerReadings.PowerDraw g
  | PCurrentLimit => SMIGPUPowerReadings.CurrentPowerLimit g
  | PRequestedLimit => SMIGPUPowerReadings.RequestedPowerLimit g
  | PDefaultLimit => SMIGPUPowerReadings.DefaultPowerLimit g
  | PMinLimit => SMIGPUPowerReadings.MinPowerLimit g
  | PMaxLimit => SMIGPUPowerReadings.MaxPowerLimit g
  end.

Definition powerGetter `{Strconv} (f : powerField) (g : SMIGPUPowerReadings.t)
  : float64 * option error :=
  match f with
  | PDraw => SMIGPUPowerReadings.GetPowerDrawW g
  | PCurrentLimit => SMIGPUPowerReadings.GetCurrentPowerLimitW g
  | PRequestedLimit => SMIGPUPowerReadings.GetRequestedPowerLimitW g
  | PDefaultLimit => SMIGPUPowerReadings.GetDefaultPowerLimitW g
  | PMinLimit => SMIGPUPowerReadings.GetMinPowerLimitW g
  | PMaxLimit => SMIGPUPowerReadings.GetMaxPowerLimitW g
  end.

(** The sentinel absence error. *)
Definition isAbsenceError (e : error) : bool :=
  match e with
  | errorString t => String.eqb t "N/A"
  | libError _ _ => false
  end.

(** A format error: "invalid <field>: <value> (expected <unit>)". *)
Definition isFormatError (unit : string) (e : error) : bool :=
  match e with
  | errorString t => HasPrefix t "invalid " && HasSuffix t (" (expected " ++ unit ++ ")")
  | libError _ _ => false
  end.

(** The format error that names the field [name] and reports [value]. *)
Definition formatError (name value unit : string) : error :=
  errorString ("invalid " ++ name ++ ": " ++ value ++ " (expected " ++ unit ++ ")").

(** How the documentation calls each field. *)
Definition tempName (f : tempField) : string :=
  match f with
  | TCurrent => "GPU current temperature"
  | TLimit => "GPU t.limit temperature"
  | TShutdown => "GPU t.shutdown temperature"
  | TShutdownLimit => "GPU t.shutdown limit temperature"
  | TSlowdown => "GPU t.slowdown temperature"
  | TSlowdownLimit => "GPU t.slowdown limit temperature"
  end.

(** Limit resolution in the words of the specification: the explicit
    limit field when it is available (its getter succeeds); otherwise
    the shutdown limit, then the slowdown limit, each taken when it is
    available as a reading greater than zero; otherwise no limit (0). *)
Section LimitResolution.
Context `{Strconv}.

(** The shutdown reading: "GPU Shutdown Temp", else "GPU Shutdown T.Limit
    Temp", else 0. *)
Definition shutdownReading (tm : SMIGPUTemperature.t) : float64 :=
  match SMIGPUTemperature.GetShutdownCelsius tm with
  | (v, None) => v
  | (_, Some _) =>
      match SMIGPUTemperature.GetShutdownLimitCelsius tm with
      | (v, None) => v
      | (_, Some _) => zero
      end
  end.

Definition slowdownReading (tm : SMIGPUTemperature.t) : float64 :=
  match SMIGPUTemperature.GetSlowdownCelsius tm with
  | (v, None) => v
  | (_, Some _) =>
      match SMIGPUTemperature.GetSlowdownLimitCelsius tm with
      | (v, None) => v
      | (_, Some _) => zero
      end
  end.

Definition resolvedLimit (tm : SMIGPUTemperature.t) : float64 :=
  match SMIGPUTemperature.GetLimitCelsius tm with
  | (limit, None) => limit
  | (_, Some _) =>
      if gt0 (shutdownReading tm) then shutdownReading tm
      else if gt0 (slowdownReading tm) then slowdownReading tm
      else zero
  end.

(** current / limit x 100 with two decimals, "0.0" without a limit
    greater than zero. *)
Definition usedPercentOf (cur limit : float64) : string :=
  if gt0 limit then Sprintf_2f (mul (div cur limit) (ofZ 100)) else "0.0".

End LimitResolution.

(** The fields the per-device scan looks at. *)
Definition scannedFields (g : NvidiaSMIGPU.t) : list string :=
  (match NvidiaSMIGPU.Temperature g with
   | Some tm => [ SMIGPUTemperature.Current tm; SMIGPUTemperature.Limit tm;
                  SMIGPUTemperature.ShutdownLimit tm; SMIGPUTemperature.SlowdownLimit tm;
                  SMIGPUTemperature.MaxOperatingLimit tm; SMIGPUTemperature.Target tm;
                  SMIGPUTemperature.MemoryCurrent tm;
                  SMIGPUTemperature.MemoryMaxOperatingLimit tm ]
   | None => []
   end ++ [ NvidiaSMIGPU.AddressingMode g; NvidiaSMIGPU.FanSpeed g ])%list.

(** A scan result is nil or holds at least one anomaly. *)
Definition nilOrNonEmpty (s : slice string) : Prop :=
  s = None \/ exists x l, s = Some (x :: l).

(** The header fields of a document. *)
Definition headerOf (o : SMIOutput.t) : smiQueryOutputFallback.t :=
  smiQueryOutputFallback.mk (SMIOutput.Timestamp o) (SMIOutput.DriverVersion o)
    (SMIOutput.CUDAVersion o) (SMIOutput.AttachedGPUs o).

(* ===================================================================== *)
(** ** The remaining functions of the query package and their callers *)
(* ===================================================================== *)

(** The elements of a slice. *)
Definition elems {A} (s : slice A) : list A :=
  match s with None => [] | Some l => l end.

(** *** nvidia_smi_query_gpu.go: SMIGPUPowerReadings.Parse *)

Module ParsedSMIPowerReading.
Record t : Type := mk {
  ID : string;
  PowerDrawW : string;
  PowerDrawHumanized : string;
  CurrentPowerLimitW : string;
  CurrentPowerLimitHumanized : string;
  UsedPercent : string;
  RequestedPowerLimitW : string;
  RequestedPowerLimitHumanized : string;
  DefaultPowerLimitW : string;
  DefaultPowerLimitHumanized : string;
  MinPowerLimitW : string;
  MinPowerLimitHumanized : string;
  MaxPowerLimitW : string;
  MaxPowerLimitHumanized : string
}.

(** ParsedSMIPowerReading{} *)
Definition empty : t := mk "" "" "" "" "" "" "" "" "" "" "" "" "" "".
End ParsedSMIPowerReading.

Section PowerParse.
Context `{Strconv}.

Definition SMIGPUPowerReadings_Parse (g : SMIGPUPowerReadings.t)
  : ParsedSMIPowerReading.t * option error :=
  let '(cur, err) := SMIGPUPowerReadings.GetPowerDrawW g in
  match err with Some e => (ParsedSMIPowerReading.empty, Some e) | None =>
  let PowerDrawW := Sprintf_2f cur in
  let '(limit, err) := SMIGPUPowerReadings.GetCurrentPowerLimitW g in
  match err with Some e => (ParsedSMIPowerReading.empty, Some e) | None =>
  let CurrentPowerLimitW := Sprintf_2f limit in
  let UsedPercent :=
    if gt0 limit then Sprintf_2f (mul (div cur limit) (ofZ 100)) else "0.0" in
  let '(v, err) := SMIGPUPowerReadings.GetRequestedPowerLimitW g in
  match err with Some e => (ParsedSMIPowerReading.empty, Some e) | None =>
  let RequestedPowerLimitW := Sprintf_2f v in
  let '(v, err) := SMIGPUPowerReadings.GetDefaultPowerLimitW g in
  match err with Some e => (ParsedSMIPowerReading.empty, Some e) | None =>
  let DefaultPowerLimitW := Sprintf_2f v in
  let '(v, err) := SMIGPUPowerReadings.GetMinPowerLimitW g in
  match err with Some e => (ParsedSMIPowerReading.empty, Some e) | None =>
  let MinPowerLimitW := Sprintf_2f v in
  let '(v, err) := SMIGPUPowerReadings.GetMaxPowerLimitW g in
  match err with Some e => (ParsedSMIPowerReading.empty, Some e) | None =>
  let MaxPowerLimitW := Sprintf_2f v in
  ({| ParsedSMIPowerReading.ID := SMIGPUPowerReadings.ID g;
      ParsedSMIPowerReading.PowerDrawW := PowerDrawW;
      ParsedSMIPowerReading.PowerDrawHumanized := SMIGPUPowerReadings.PowerDraw g;
      ParsedSMIPowerReading.CurrentPowerLimitW := CurrentPowerLimitW;
      ParsedSMIPowerReading.CurrentPowerLimitHumanized :=
        SMIGPUPowerReadings.CurrentPowerLimit g;
      ParsedSMIPowerReading.UsedPercent := UsedPercent;
      ParsedSMIPowerReading.RequestedPowerLimitW := RequestedPowerLimitW;
      ParsedSMIPowerReading.RequestedPowerLimitHumanized :=
        SMIGPUPowerReadings.RequestedPowerLimit g;
      ParsedSMIPowerReading.DefaultPowerLimitW := DefaultPowerLimitW;
      ParsedSMIPowerReading.DefaultPowerLimitHumanized :=
        SMIGPUPowerReadings.DefaultPowerLimit g;
      ParsedSMIPowerReading.MinPowerLimitW := MinPowerLimitW;
      ParsedSMIPowerReading.MinPowerLimitHumanized := SMIGPUPowerReadings.MinPowerLimit g;
      ParsedSMIPowerReading.MaxPowerLimitW := MaxPowerLimitW;
      ParsedSMIPowerReading.MaxPowerLimitHumanized := SMIGPUPowerReadings.MaxPowerLimit g |},
   None)
  end end end end end end.

(** The getters of Parse, in the order it calls them. *)
Definition powerFields : list powerField :=
  [PDraw; PCurrentLimit; PRequestedLimit; PDefaultLimit; PMinLimit; PMaxLimit].

(** The error of the first getter that fails, if any. *)
Fixpoint firstPowerError (fs : list powerField) (g : SMIGPUPowerReadings.t)
  : option error :=
  match fs with
  | [] => None
  | f :: rest =>
      match snd (powerGetter f g) with
      | Some e => Some e
      | None => firstPowerError rest g
      end
  end.

End PowerParse.

(** *** nvidia_smi_query_gpu.go: SMIFBMemoryUsage.Parse

    [humanize.ParseBytes] and [humanize.Bytes] (github.com/dustin/go-humanize)
    are external; the byte counts are uint64. *)

Class Humanize : Type := {
  ParseBytes : string -> Z * option error;
  Bytes : Z -> string
}.

Module ParsedMemoryUsage.
Record t : Type := mk {
  ID : string;
  TotalBytes : Z;
  TotalHumanized : string;
  ReservedBytes : Z;
  ReservedHumanized : string;
  UsedBytes : Z;
  UsedHumanized : string;
  UsedPercent : string;
  FreeBytes : Z;
  FreeHumanized : string
}.

(** ParsedMemoryUsage{} *)
Definition empty : t := mk "" 0 "" 0 "" 0 "" "" 0 "".
End ParsedMemoryUsage.

Section MemoryParse.
Context `{Humanize}.

Definition GetTotalBytes (f : SMIFBMemoryUsage.t) : Z * option error :=
  ParseBytes (SMIFBMemoryUsage.Total f).
Definition GetReservedBytes (f : SMIFBMemoryUsage.t) : Z * option error :=
  ParseBytes (SMIFBMemoryUsage.Reserved f).
Definition GetUsedBytes (f : SMIFBMemoryUsage.t) : Z * option error :=
  ParseBytes (SMIFBMemoryUsage.Used f).
Definition GetFreeBytes (f : SMIFBMemoryUsage.t) : Z * option error :=
  ParseBytes (SMIFBMemoryUsage.Free f).

Definition SMIFBMemoryUsage_Parse (f : SMIFBMemoryUsage.t)
  : ParsedMemoryUsage.t * option error :=
  let '(b, err) := ParseBytes (SMIFBMemoryUsage.Total f) in
  match err with Some e => (ParsedMemoryUsage.empty, Some e) | None =>
  let TotalBytes := b in
  let TotalHumanized := Bytes TotalBytes in
  let '(b, err) := ParseBytes (SMIFBMemoryUsage.Reserved f) in
  match err with Some e => (ParsedMemoryUsage.empty, Some e) | None =>
  let ReservedBytes := b in
  let ReservedHumanized := Bytes ReservedBytes in
  let '(b, err) := ParseBytes (SMIFBMemoryUsage.Used f) in
  match err with Some e => (ParsedMemoryUsage.empty, Some e) | None =>
  let UsedBytes := b in
  let UsedHumanized := Bytes UsedBytes in
  let UsedPercent :=
    if 0 <? TotalBytes
    then Sprintf_2f (mul (div (ofZ UsedBytes) (ofZ TotalBytes)) (ofZ 100))
    else "0.0" in
  let '(b, err) := ParseBytes (SMIFBMemoryUsage.Free f) in
  match err with Some e => (ParsedMemoryUsage.empty, Some e) | None =>
  let FreeBytes := b in
  let FreeHumanized := Bytes FreeBytes in
  ({| ParsedMemoryUsage.ID := SMIFBMemoryUsage.ID f;
      ParsedMemoryUsage.TotalBytes := TotalBytes;
      ParsedMemoryUsage.TotalHumanized := TotalHumanized;
      ParsedMemoryUsage.ReservedBytes := ReservedBytes;
      ParsedMemoryUsage.ReservedHumanized := ReservedHumanized;
      ParsedMemoryUsage.UsedBytes := UsedBytes;
      ParsedMemoryUsage.UsedHumanized := UsedHumanized;
      ParsedMemoryUsage.UsedPercent := UsedPercent;
      ParsedMemoryUsage.FreeBytes := FreeBytes;
      ParsedMemoryUsage.FreeHumanized := FreeHumanized |},
   None)
  end end end end.

End MemoryParse.

(** *** nvidia_smi_query.go: GetSMIOutput

    RunSMI executes the tool; GetSMIOutput is given what the two runs
    return ("nvidia-smi --query" and "nvidia-smi").  A result of [None]
    stands for the nil-pointer dereference the Go code would run into if
    ParseSMIQueryOutput returned neither a document nor an error. *)

Definition withSummary (o : SMIOutput.t) (summary : string)
                       (failure : option error) : SMIOutput.t :=
  SMIOutput.mk (SMIOutput.Timestamp o) (SMIOutput.DriverVersion o)
               (SMIOutput.CUDAVersion o) (SMIOutput.AttachedGPUs o)
               (SMIOutput.GPUs o) (SMIOutput.Raw o) summary failure.

Section Command.
Context `{YAML}.

Definition GetSMIOutput (queryRun summaryRun : string * option error)
  : option (option SMIOutput.t * option error) :=
  let '(qb, err) := queryRun in
  match err with
  | Some e => Some (None, Some e)
  | None =>
      let '(o, err) := ParseSMIQueryOutput qb in
      match err with
      | Some e => Some (None, Some e)
      | None =>
          let '(sb, err) := summaryRun in
          match err with
          | Some e =>
              if Contains (Error e) "Unknown Error" then
                match o with
                | Some o => Some (Some (withSummary o (SMIOutput.Summary o) (Some e)), None)
                | None => None
                end
              else Some (None, Some e)
          | None =>
              match o with
              | Some o =>
                  if Contains sb "Unknown Error"
                  then Some (Some (withSummary o (SMIOutput.Summary o)
                                     (Some (errors_New sb))), None)
                  else Some (Some (withSummary o sb (SMIOutput.SummaryFailure o)), None)
              | None => None
              end
          end
      end
  end.

End Command.

(** The lines of the input that the rewriting loop keeps (neither empty
    nor a banner). *)
Definition kept (line : string) : bool :=
  negb (len line =? 0)%nat &&
  negb (Contains line "===" || Contains line "NVSMI LOG").

(** The lines that open a device block. *)
Definition deviceLine (line : string) : bool :=
  kept line && HasPrefix line "GPU 00000".

(** *** components/accelerator/nvidia/temperature: ToOutput

    The argument type nvidia_query.Output is declared outside the files
    at hand; ToOutput reads its fields SMI and NVML.  The document
    reached through i.SMI is taken as present, i.NVML may be nil. *)

Section TemperatureOutput.
Context `{Strconv} `{nvml.Library}.





End TemperatureOutput.

(** *** package nvml: the default instance

    The package-level variables defaultInstance and
    defaultInstanceReadyc (closed or not).  [None] as a result stands for
    calling Start on a nil instance. *)

Section DefaultInstance.
Context `{nvml.Library}.

Record defaults : Type := mkDefaults {
  defaultInstance : option nvml.instance;
  readyClosed : bool
}.

Definition StartDefaultInstance (d : defaults)
           (initRet : nvml.Return) (hasNvml : bool * string) (createRet : nvml.Return)
           (getDevices : list nvml.Device * option error)
  : option (defaults * option error) :=
  match defaultInstance d with
  | Some _ => Some (d, None)
  | None =>
      match nvml.NewInstance initRet hasNvml createRet with
      | (inst, Some err) => Some (mkDefaults inst (readyClosed d), Some err)
      | (Some inst, None) =>
          let '(inst', err) := nvml.Start inst getDevices in
          Some (mkDefaults (Some inst') true, err)
      | (None, None) => None
      end
  end.

Definition DefaultInstance (d : defaults) : option nvml.instance := defaultInstance d.

End DefaultInstance.

(** An instance of the byte-size library that reads "<n> MiB" only and
    prints a byte count with the unit "B". *)
#[local] Instance mibHumanize : Humanize := {|
  ParseBytes s :=
    if HasSuffix s " MiB" then
      match digitsValue (TrimSuffix s " MiB") 0 with
      | Some n => (n * 2 ^ 20, None)
      | None => (0, Some (libError "humanize" ("unhandled size name: " ++ s)))
      end
    else (0, Some (libError "humanize" ("unhandled size name: " ++ s)));
  Bytes z := Itoa z ++ " B"
|}.

Definition memorySample (total used : string) : SMIFBMemoryUsage.t :=
  SMIFBMemoryUsage.mk "GPU 00000000:53:00.0" total "551 MiB" used "39717 MiB".

(** The four volatile counters FindVolatileUncorrectableErrs looks at. *)
Definition volatileCounters (v : SMIECCErrorVolatile.t) : list string :=
  [ SMIECCErrorVolatile.DRAMUncorrectable v; SMIECCErrorVolatile.SRAMUncorrectable v;
    SMIECCErrorVolatile.SRAMUncorrectableParity v;
    SMIECCErrorVolatile.SRAMUncorrectableSECDED v ].

(** strings.Contains(v, "Unknown Error") *)
Definition unknownError (v : string) : bool := Contains v "Unknown Error".

(** The anomaly reported when [found] holds. *)
Definition report (found : bool) (msg : string) : list string :=
  if found then [msg] else [].


(** The anomaly FindGPUErrs adds for a device-count mismatch. *)
Definition countMismatch (o : SMIOutput.t) : list string :=
  if SMIOutput.AttachedGPUs o =? Z.of_nat (List.length (SMIOutput.GPUs o)) then []
  else [ "AttachedGPUs " ++ Itoa (SMIOutput.AttachedGPUs o) ++ " != GPUs "
           ++ Itoa (Z.of_nat (List.length (SMIOutput.GPUs o))) ].

(** A device whose addressing mode and fan speed could not be read. *)
Definition gpuFaultySample : NvidiaSMIGPU.t :=
  NvidiaSMIGPU.mk "GPU 00000000:53:00.0" "NVIDIA H100 80GB HBM3" "NVIDIA" "Hopper"
    "Enabled" "Unknown Error" None None None
    (Some (tempSample "75 C" "N/A" "95 C")) None None None "Unknown Error".

(** A device slowed down by the power brake. *)
Definition gpuBrakeSample : NvidiaSMIGPU.t :=
  NvidiaSMIGPU.mk "GPU 00000000:53:00.0" "NVIDIA H100 80GB HBM3" "NVIDIA" "Hopper"
    "Enabled" "None" None
    (Some (SMIClockEventReasons.mk "Not Active" "Not Active" "Active"
                                   "Not Active" "Active"))
    None None None None None "N/A".

(** A decoder that answers every text with the same full-schema struct. *)
Definition cannedYAML (raw : rawSMIQueryOutput.t) : YAML := {|
  Unmarshal_raw _ := (raw, None);
  Unmarshal_fallback := flatDecode
|}.

(** The struct decoded from [sampleQuery]: one device in slot GPU0 whose
    temperature block does not know its device yet. *)
Definition sampleRaw : rawSMIQueryOutput.t :=
  rawSMIQueryOutput.mk "Thu Mar 14 09:00:03 2024" "535.129.03" "12.2" 1
    (Some (NvidiaSMIGPU.mk "GPU 00000000:53:00.0" "NVIDIA H100 80GB HBM3" "" ""
             "" "" None None None
             (Some (SMIGPUTemperature.mk "" "75 C" "N/A" "95 C" "" "" "" "" "" "" ""))
             None None None ""))
    None None None None None None None.

(** The document decoded from [sampleQuery] through [cannedYAML sampleRaw]. *)
Definition sampleDoc : SMIOutput.t :=
  SMIOutput.mk "Thu Mar 14 09:00:03 2024" "535.129.03" "12.2" 1
    [NvidiaSMIGPU.mk "GPU 00000000:53:00.0" "NVIDIA H100 80GB HBM3" "" ""
       "" "" None None None
       (Some (SMIGPUTemperature.mk "GPU 00000000:53:00.0" "75 C" "N/A" "95 C"
                "" "" "" "" "" "" ""))
       None None None ""]
    sampleQuery "" None.

(** Neighbours in a list sorted by identifier: the second is not below
    the first. *)
Definition uuidOrdered `{nvml.Library} (a b : nvml.DeviceInfo) : Prop :=
  nvml.less b a = false.

(** Whether the byte [c] occurs in [s]. *)
Fixpoint hasByte (c : ascii) (s : string) : bool :=
  match s with
  | EmptyString => false
  | String x s' => Ascii.eqb x c || hasByte c s'
  end.

(** The state the rewriting loop starts from. *)
Definition rewriteStart : rewriteState := mkRewrite [] 0 0 "".

(* ===================================================================== *)
(** * Properties *)
(* ===================================================================== *)

(** ** Strings *)

Lemma len_app (a b : string) : len (a ++ b) = (len a + len b)%nat.
Proof.
  unfold len. induction a as [|c a IH]; [reflexivity|].
  exact (f_equal S IH).
Qed.

Lemma skip_app (a b : string) : skip (len a) (a ++ b) = b.
Proof. induction a as [|c a IH]; [reflexivity | exact IH]. Qed.

Lemma HasSuffix_app (a b : string) : HasSuffix (a ++ b) b = true.
Proof.
  unfold HasSuffix. rewrite len_app.
  replace (len a + len b - len b)%nat with (len a) by lia.
  rewrite skip_app, String.eqb_refl.
  rewrite andb_true_r. apply Nat.leb_le. lia.
Qed.

Lemma app_assoc_str (a b c : string) : (a ++ b) ++ c = a ++ (b ++ c).
Proof.
  induction a as [|x a IH]; [reflexivity|].
  exact (f_equal (String x) IH).
Qed.

Lemma HasPrefix_app (a b : string) : HasPrefix (a ++ b) a = true.
Proof.
  unfold HasPrefix. induction a as [|x a IH]; [now destruct b|].
  change (String x a ++ b) with (String x (a ++ b)).
  cbn [String.prefix]. destruct (ascii_dec x x) as [_|Hne]; [exact IH | now elim Hne].
Qed.

Lemma formatError_is_format (name value unit : string) :
  isFormatError unit (formatError name value unit) = true.
Proof.
  unfold isFormatError, formatError.
  apply andb_true_intro. split.
  - apply HasPrefix_app.
  - replace ("invalid " ++ name ++ ": " ++ value ++ " (expected " ++ unit ++ ")")
      with (("invalid " ++ name ++ ": " ++ value) ++ " (expected " ++ unit ++ ")").
    + apply HasSuffix_app.
    + rewrite !app_assoc_str. reflexivity.
Qed.

Lemma formatError_not_absence (name value unit : string) :
  isAbsenceError (formatError name value unit) = false.
Proof. reflexivity. Qed.

Lemma absence_not_format (unit : string) :
  isFormatError unit (errors_New "N/A") = false.
Proof. reflexivity. Qed.

(** ** Unit-suffixed getters *)

Lemma tempGetter_absent `{Strconv} (f : tempField) (tm : SMIGPUTemperature.t) :
  tempValue f tm = "N/A" ->
  tempGetter f tm = (zero, Some (errors_New "N/A")).
Proof.
  intros Hv.
  destruct f; simpl in *;
    unfold SMIGPUTemperature.GetCurrentCelsius, SMIGPUTemperature.GetLimitCelsius,
      SMIGPUTemperature.GetShutdownCelsius, SMIGPUTemperature.GetShutdownLimitCelsius,
      SMIGPUTemperature.GetSlowdownCelsius, SMIGPUTemperature.GetSlowdownLimitCelsius;
    rewrite Hv; reflexivity.
Qed.

Lemma tempGetter_malformed `{Strconv} (f : tempField) (tm : SMIGPUTemperature.t) :
  tempValue f tm <> "N/A" ->
  HasSuffix (tempValue f tm) " C" = false ->
  exists reported,
    tempGetter f tm = (zero, Some (formatError (tempName f) reported "celsius")) /\
    reported = match f with
               | TCurrent => SMIGPUTemperature.Current tm
               | _ => SMIGPUTemperature.Limit tm
               end.
Proof.
  intros Hna Hsuf.
  apply String.eqb_neq in Hna.
  destruct f; simpl in *; eexists; (split; [|reflexivity]);
    unfold SMIGPUTemperature.GetCurrentCelsius, SMIGPUTemperature.GetLimitCelsius,
      SMIGPUTemperature.GetShutdownCelsius, SMIGPUTemperature.GetShutdownLimitCelsius,
      SMIGPUTemperature.GetSlowdownCelsius, SMIGPUTemperature.GetSlowdownLimitCelsius;
    rewrite Hna, Hsuf; reflexivity.
Qed.

Lemma powerGetter_absent `{Strconv} (f : powerField) (g : SMIGPUPowerReadings.t) :
  powerValue f g = "N/A" ->
  powerGetter f g = (zero, Some (errors_New "N/A")).
Proof.
  intros Hv.
  destruct f; simpl in *;
    unfold SMIGPUPowerReadings.GetPowerDrawW, SMIGPUPowerReadings.GetCurrentPowerLimitW,
      SMIGPUPowerReadings.GetRequestedPowerLimitW, SMIGPUPowerReadings.GetDefaultPowerLimitW,
      SMIGPUPowerReadings.GetMinPowerLimitW, SMIGPUPowerReadings.GetMaxPowerLimitW;
    rewrite Hv; reflexivity.
Qed.

Lemma powerGetter_malformed `{Strconv} (f : powerField) (g : SMIGPUPowerReadings.t) :
  powerValue f g <> "N/A" ->
  HasSuffix (powerValue f g) " W" = false ->
  powerGetter f g =
    (zero, Some (formatError (match f with PDraw => "power draw"
                                         | _ => "current power limit" end)
                             (powerValue f g) "watts")).
Proof.
  intros Hna Hsuf.
  apply String.eqb_neq in Hna.
  destruct f; simpl in *;
    unfold SMIGPUPowerReadings.GetPowerDrawW, SMIGPUPowerReadings.GetCurrentPowerLimitW,
      SMIGPUPowerReadings.GetRequestedPowerLimitW, SMIGPUPowerReadings.GetDefaultPowerLimitW,
      SMIGPUPowerReadings.GetMinPowerLimitW, SMIGPUPowerReadings.GetMaxPowerLimitW;
    rewrite Hna, Hsuf; reflexivity.
Qed.

(** C1.  For every temperature getter (suffix " C") and every power
    getter (suffix " W"): an input that is exactly "N/A" fails with the
    sentinel absence error, which is not a format error; an input that
    is not "N/A" and does not end with the suffix fails with a format
    error, which is not the absence error. *)
Theorem getters_classify_absent_and_malformed `{Strconv} :
  (forall (f : tempField) (tm : SMIGPUTemperature.t),
      (tempValue f tm = "N/A" ->
       exists e, tempGetter f tm = (zero, Some e) /\
                 e = errors_New "N/A" /\
                 isAbsenceError e = true /\ isFormatError "celsius" e = false) /\
      (tempValue f tm <> "N/A" -> HasSuffix (tempValue f tm) " C" = false ->
       exists e, tempGetter f tm = (zero, Some e) /\
                 isFormatError "celsius" e = true /\ isAbsenceError e = false)) /\
  (forall (f : powerField) (g : SMIGPUPowerReadings.t),
      (powerValue f g = "N/A" ->
       exists e, powerGetter f g = (zero, Some e) /\
                 e = errors_New "N/A" /\
                 isAbsenceError e = true /\ isFormatError "watts" e = false) /\
      (powerValue f g <> "N/A" -> HasSuffix (powerValue f g) " W" = false ->
       exists e, powerGetter f g = (zero, Some e) /\
                 isFormatError "watts" e = true /\ isAbsenceError e = false)).
Proof.
  split.
  - intros f tm. split.
    + intros Hv. exists (errors_New "N/A").
      rewrite (tempGetter_absent f tm Hv). repeat split.
    + intros Hna Hsuf.
      destruct (tempGetter_malformed f tm Hna Hsuf) as [r [Hg _]].
      eexists. split; [exact Hg|]. split.
      * apply formatError_is_format.
      * apply formatError_not_absence.
  - intros f g. split.
    + intros Hv. exists (errors_New "N/A").
      rewrite (powerGetter_absent f g Hv). repeat split.
    + intros Hna Hsuf.
      rewrite (powerGetter_malformed f g Hna Hsuf).
      eexists. split; [reflexivity|]. split.
      * apply formatError_is_format.
      * apply formatError_not_absence.
Qed.

Lemma getters_classify_witness :
  (exists e, tempGetter TCurrent (tempSample "N/A" "N/A" "95 C") = (zero, Some e) /\
             e = errors_New "N/A" /\
             isAbsenceError e = true /\ isFormatError "celsius" e = false) /\
  (exists e, powerGetter PDraw (powerSample "42.31 mW" "N/A") = (zero, Some e) /\
             isFormatError "watts" e = true /\ isAbsenceError e = false).
Proof.
  split.
  - apply (proj1 (proj1 (getters_classify_absent_and_malformed (H := decimalStrconv))
                    TCurrent (tempSample "N/A" "N/A" "95 C"))).
    reflexivity.
  - apply (proj2 (proj2 (getters_classify_absent_and_malformed (H := decimalStrconv))
                    PDraw (powerSample "42.31 mW" "N/A"))).
    + discriminate.
    + reflexivity.
Defined.

(** C4 (evaluation).  The format error of the shutdown getter reports the
    value of the limit field ("N/A" here) instead of the shutdown
    field's own value ("95 F"), and the format error of the
    requested-power-limit getter names the current power limit. *)
Theorem format_error_reports_another_field `{Strconv} :
  tempGetter TShutdown (tempSample "75 C" "N/A" "95 F")
    = (zero, Some (errorString
                     "invalid GPU t.shutdown temperature: N/A (expected celsius)")) /\
  tempGetter TShutdown (tempSample "75 C" "N/A" "95 F")
    <> (zero, Some (formatError (tempName TShutdown)
                      (tempValue TShutdown (tempSample "75 C" "N/A" "95 F")) "celsius")) /\
  powerGetter PRequestedLimit (powerSample "42.31 W" "700 mW")
    = (zero, Some (errorString
                     "invalid current power limit: 700 mW (expected watts)")).
Proof.
  split; [reflexivity|]. split; [|reflexivity].
  intros Heq. discriminate Heq.
Qed.

(** ** Temperature normalisation *)

Lemma parsed_error_zero `{Strconv} (s : string) (v : float64) (e : error) :
  SMIGPUTemperature.parsed s = (v, Some e) -> v = zero.
Proof.
  unfold SMIGPUTemperature.parsed.
  destruct (ParseFloat s) as [p [err|]]; intros Heq; inversion Heq; reflexivity.
Qed.

Lemma tempGetter_error_zero `{Strconv} (f : tempField) (tm : SMIGPUTemperature.t)
      (v : float64) (e : error) :
  tempGetter f tm = (v, Some e) -> v = zero.
Proof.
  destruct f; simpl;
    unfold SMIGPUTemperature.GetCurrentCelsius, SMIGPUTemperature.GetLimitCelsius,
      SMIGPUTemperature.GetShutdownCelsius, SMIGPUTemperature.GetShutdownLimitCelsius,
      SMIGPUTemperature.GetSlowdownCelsius, SMIGPUTemperature.GetSlowdownLimitCelsius;
    (match goal with |- context [String.eqb ?x "N/A"] => destruct (String.eqb x "N/A") end;
     [ intros Heq; inversion Heq; reflexivity | ]);
    (match goal with |- context [HasSuffix ?x ?y] => destruct (HasSuffix x y) end;
     [ apply parsed_error_zero | intros Heq; inversion Heq; reflexivity ]).
Qed.

Lemma gt0_not_eq0 (x : float64) : gt0 x = true -> eq0 x = false.
Proof.
  destruct x as [[|] | [|] | | [|] m e]; simpl; intros Hgt;
    try discriminate Hgt; reflexivity.
Qed.

Lemma Parse_fails_with_current `{Strconv} (tm : SMIGPUTemperature.t) (v : float64) (e : error) :
  SMIGPUTemperature.GetCurrentCelsius tm = (v, Some e) ->
  SMIGPUTemperature.Parse tm = (ParsedTemperature.empty, Some e).
Proof. intros Hc. unfold SMIGPUTemperature.Parse. rewrite Hc. reflexivity. Qed.

(** The fallback of Parse once the explicit limit is unavailable:
      if shutdownLimit > 0 { limit = shutdownLimit }
      if limit == 0 && slowdown > 0 { limit = slowdown }
    starting from limit = 0. *)
Lemma fallback_choice (sd sw : float64) :
  (let limit := if gt0 sd then sd else zero in
   if eq0 limit && gt0 sw then sw else limit)
  = (if gt0 sd then sd else if gt0 sw then sw else zero).
Proof.
  cbv zeta. destruct (gt0 sd) eqn:Hsd.
  - rewrite (gt0_not_eq0 _ Hsd). reflexivity.
  - change (eq0 zero) with true. destruct (gt0 sw); reflexivity.
Qed.

Lemma Parse_used_percent `{Strconv} (tm : SMIGPUTemperature.t) (cur : float64) :
  SMIGPUTemperature.GetCurrentCelsius tm = (cur, None) ->
  exists p, SMIGPUTemperature.Parse tm = (p, None) /\
            ParsedTemperature.UsedPercent p = usedPercentOf cur (resolvedLimit tm).
Proof.
  intros Hc.
  unfold SMIGPUTemperature.Parse, resolvedLimit, shutdownReading, slowdownReading,
    usedPercentOf.
  rewrite Hc.
  pose proof (tempGetter_error_zero TLimit tm) as Hl0.
  pose proof (tempGetter_error_zero TShutdownLimit tm) as Hs0.
  pose proof (tempGetter_error_zero TSlowdownLimit tm) as Hw0.
  simpl in Hl0, Hs0, Hw0.
  destruct (SMIGPUTemperature.GetLimitCelsius tm) as [l [el|]].
  - (* the explicit limit is unavailable *)
    rewrite (Hl0 l el eq_refl).
    destruct (SMIGPUTemperature.GetShutdownCelsius tm) as [sd [esd|]];
      [destruct (SMIGPUTemperature.GetShutdownLimitCelsius tm) as [sdl [esdl|]];
       [rewrite (Hs0 sdl esdl eq_refl)|] |];
    (destruct (SMIGPUTemperature.GetSlowdownCelsius tm) as [sw [esw|]];
      [destruct (SMIGPUTemperature.GetSlowdownLimitCelsius tm) as [swl [eswl|]];
       [rewrite (Hw0 swl eswl eq_refl)|] |]);
    cbv beta iota zeta; cbn [SMIGPUTemperature.isNil];
    (eexists; split; [reflexivity|]);
    cbn [ParsedTemperature.UsedPercent];
    match goal with
    | |- context [if eq0 (if gt0 ?a then ?a else zero) && gt0 ?b then _ else _] =>
        pose proof (fallback_choice a b) as Hf; cbv zeta in Hf; rewrite Hf
    end;
    reflexivity.
  - (* the explicit limit wins *)
    destruct (SMIGPUTemperature.GetShutdownCelsius tm) as [sd [esd|]];
      [destruct (SMIGPUTemperature.GetShutdownLimitCelsius tm) as [sdl [esdl|]] |];
    (destruct (SMIGPUTemperature.GetSlowdownCelsius tm) as [sw [esw|]];
      [destruct (SMIGPUTemperature.GetSlowdownLimitCelsius tm) as [swl [eswl|]] |]);
    cbv beta iota zeta; cbn [SMIGPUTemperature.isNil];
    (eexists; split; [reflexivity|]); reflexivity.
Qed.

(** What "available" means for each candidate, on concrete readings: an
    explicit limit that parses is used even when it is zero; a shutdown
    reading that is not greater than zero is passed over for the
    slowdown reading. *)
Example explicit_zero_limit_is_used :
  ParsedTemperature.UsedPercent
    (fst (SMIGPUTemperature.Parse (H := decimalStrconv) (tempSample "45 C" "0 C" "95 C")))
  = "0.0".
Proof. vm_compute. reflexivity. Qed.

Example zero_shutdown_is_passed_over :
  ParsedTemperature.UsedPercent
    (fst (SMIGPUTemperature.Parse (H := decimalStrconv)
            (SMIGPUTemperature.mk "GPU 00000000:53:00.0" "45 C" "N/A" "0 C" "N/A"
                                  "90 C" "N/A" "N/A" "N/A" "N/A" "N/A")))
  = "50.00".
Proof. vm_compute. reflexivity. Qed.



(** ** The decoder and its fallback *)

Lemma prefix_split (a s : string) :
  String.prefix a s = true -> s = a ++ skip (len a) s.
Proof.
  revert s. induction a as [|x a IH]; intros s Hp; [reflexivity|].
  destruct s as [|y s]; [discriminate Hp|].
  cbn [String.prefix] in Hp.
  destruct (ascii_dec x y) as [->|]; [|discriminate Hp].
  change (String y s = String y (a ++ skip (len a) s)).
  f_equal. apply IH, Hp.
Qed.

Lemma prefix_of_substring (a s : string) (n : nat) :
  String.prefix a (String.substring 0 n s) = true -> String.prefix a s = true.
Proof.
  revert s n. induction a as [|x a IH]; intros s n Hp.
  - now destruct s.
  - destruct s as [|y s]; [now destruct n|].
    destruct n as [|n]; [discriminate Hp|].
    cbn [String.substring String.prefix] in *.
    destruct (ascii_dec x y); [|discriminate Hp].
    eapply IH, Hp.
Qed.

Lemma prefix_empty (a : string) : a <> "" -> String.prefix a "" = false.
Proof. destruct a; [congruence | reflexivity]. Qed.

Lemma Index_some (s sub : string) (i : nat) :
  Index s sub = Some i ->
  s = String.substring 0 i s ++ skip i s /\ String.prefix sub (skip i s) = true.
Proof.
  revert i. induction s as [|c s IH]; intros i.
  - cbn [Index]. destruct (String.prefix sub "") eqn:Hp; [|discriminate].
    intros [= <-]. split; [reflexivity | exact Hp].
  - cbn [Index]. destruct (String.prefix sub (String c s)) eqn:Hp.
    + intros [= <-]. split; [reflexivity | exact Hp].
    + destruct (Index s sub) as [j|]; [|discriminate].
      intros [= <-]. destruct (IH j eq_refl) as [Hs Hq].
      split; [|exact Hq].
      cbn [String.substring skip].
      change (String c s = String c (String.substring 0 j s ++ skip j s)).
      f_equal. exact Hs.
Qed.

Lemma Index_before_first (s sub : string) (i : nat) :
  sub <> "" -> Index s sub = Some i -> Index (String.substring 0 i s) sub = None.
Proof.
  intros Hne. revert i. induction s as [|c s IH]; intros i.
  - cbn [Index]. rewrite (prefix_empty sub Hne). discriminate.
  - cbn [Index]. destruct (String.prefix sub (String c s)) eqn:Hp.
    + intros [= <-]. cbn [String.substring Index].
      now rewrite (prefix_empty sub Hne).
    + destruct (Index s sub) as [j|]; [|discriminate].
      intros [= <-]. cbn [String.substring Index].
      destruct (String.prefix sub (String c (String.substring 0 j s))) eqn:Hq.
      * pose proof (prefix_of_substring sub (String c s) (S j)) as Hps.
        cbn [String.substring] in Hps. rewrite (Hps Hq) in Hp. discriminate Hp.
      * now rewrite (IH j eq_refl).
Qed.

Lemma skip_skip (i n : nat) (s : string) : skip (i + n) s = skip n (skip i s).
Proof.
  revert s. induction i as [|i IH]; intros s; [reflexivity|].
  destruct s as [|c s]; [now destruct n | apply IH].
Qed.

Lemma Cut_some (s sep before after : string) :
  sep <> "" -> Cut s sep = Some (before, after) ->
  s = before ++ sep ++ after /\ Contains before sep = false.
Proof.
  intros Hne. unfold Cut, Contains.
  destruct (Index s sep) as [i|] eqn:Hi; [|discriminate].
  intros [= <- <-]. destruct (Index_some _ _ _ Hi) as [Hs Hp].
  split.
  - rewrite skip_skip, <- (prefix_split _ _ Hp). exact Hs.
  - now rewrite (Index_before_first _ _ _ Hne Hi).
Qed.

Lemma headerText_eq (p : string) :
  headerText p = match Cut p (LF ++ "GPU") with
                 | Some (before, _) => before
                 | None => p
                 end.
Proof.
  unfold headerText, Split.
  destruct (len p) eqn:Hl; cbn [SplitN].
  - destruct p; [reflexivity | discriminate Hl].
  - now destruct (Cut p (LF ++ "GPU")) as [[before after]|].
Qed.

Lemma marker_nonempty : LF ++ "GPU" <> "".
Proof. vm_compute. intros Hx. discriminate Hx. Qed.

(** headerText cuts the text right before the first line that starts
    with "GPU" (the rewritten device-block lines are "GPU<N>:"); a text
    without such a line is kept whole. *)
Lemma headerText_truncates (p : string) :
  Contains (headerText p) (LF ++ "GPU") = false /\
  (headerText p = p \/ exists rest, p = headerText p ++ (LF ++ "GPU") ++ rest).
Proof.
  rewrite headerText_eq.
  destruct (Cut p (LF ++ "GPU")) as [[before after]|] eqn:Hc.
  - destruct (Cut_some _ _ _ _ marker_nonempty Hc) as [Hs Hn].
    split; [exact Hn|]. right. exists after. exact Hs.
  - split; [|now left].
    unfold Cut in Hc. unfold Contains.
    now destruct (Index p (LF ++ "GPU")).
Qed.

(** C3.  When the full-schema decode of the rewritten text fails and the
    reduced-schema decode of its header part succeeds, ParseSMIQueryOutput
    returns a document whose timestamp, driver version, CUDA version and
    attached-device count are the decoded header values, with no device
    records, together with the error of the full decode; the header part
    is the rewritten text cut before the first device-block marker. *)
Theorem fallback_returns_header `{YAML} (b : string)
        (raw : rawSMIQueryOutput.t) (err : error) (fb : smiQueryOutputFallback.t) :
  Unmarshal_raw (processedOutput b) = (raw, Some err) ->
  Unmarshal_fallback (headerText (processedOutput b)) = (fb, None) ->
  (exists doc,
      ParseSMIQueryOutput b = (Some doc, Some err) /\
      SMIOutput.Timestamp doc = smiQueryOutputFallback.Timestamp fb /\
      SMIOutput.DriverVersion doc = smiQueryOutputFallback.DriverVersion fb /\
      SMIOutput.CUDAVersion doc = smiQueryOutputFallback.CUDAVersion fb /\
      SMIOutput.AttachedGPUs doc = smiQueryOutputFallback.AttachedGPUs fb /\
      SMIOutput.GPUs doc = []) /\
  Contains (headerText (processedOutput b)) (LF ++ "GPU") = false /\
  (headerText (processedOutput b) = processedOutput b \/
   exists rest,
     processedOutput b = headerText (processedOutput b) ++ (LF ++ "GPU") ++ rest).
Proof.
  intros Hraw Hfb. split; [|apply headerText_truncates].
  unfold ParseSMIQueryOutput. rewrite Hraw, Hfb.
  eexists. split; [reflexivity|]. repeat split.
Qed.

Lemma fallback_returns_header_witness :
  exists doc,
    ParseSMIQueryOutput sampleQuery
      = (Some doc, Some (libError "yaml" "did not find expected key")) /\
    SMIOutput.Timestamp doc = "Thu Mar 14 09:00:03 2024" /\
    SMIOutput.DriverVersion doc = "535.129.03" /\
    SMIOutput.CUDAVersion doc = "12.2" /\
    SMIOutput.AttachedGPUs doc = 1 /\
    SMIOutput.GPUs doc = [].
Proof.
  refine (proj1 (fallback_returns_header (H := flatYAML) sampleQuery
                   (fst (Unmarshal_raw (processedOutput sampleQuery)))
                   (libError "yaml" "did not find expected key")
                   (smiQueryOutputFallback.mk "Thu Mar 14 09:00:03 2024"
                      "535.129.03" "12.2" 1) _ _)).
  - vm_compute. reflexivity.
  - vm_compute. reflexivity.
Defined.

(** C10.  When the full-schema decode fails and the reduced-schema decode
    of the header part fails too, ParseSMIQueryOutput returns no document
    and the error of the second decode. *)
Theorem double_failure_returns_fallback_error `{YAML} (b : string)
        (raw : rawSMIQueryOutput.t) (err : error)
        (fb : smiQueryOutputFallback.t) (rerr : error) :
  Unmarshal_raw (processedOutput b) = (raw, Some err) ->
  Unmarshal_fallback (headerText (processedOutput b)) = (fb, Some rerr) ->
  ParseSMIQueryOutput b = (None, Some rerr).
Proof.
  intros Hraw Hfb. unfold ParseSMIQueryOutput. now rewrite Hraw, Hfb.
Qed.

Lemma double_failure_witness :
  ParseSMIQueryOutput damagedQuery
    = (None, Some (libError "json" "cannot unmarshal string into int")) /\
  snd (Unmarshal_raw (processedOutput damagedQuery))
    = Some (libError "yaml" "did not find expected key").
Proof.
  split.
  - refine (double_failure_returns_fallback_error (H := flatYAML) damagedQuery
              (fst (Unmarshal_raw (processedOutput damagedQuery)))
              (libError "yaml" "did not find expected key")
              (fst (Unmarshal_fallback (headerText (processedOutput damagedQuery))))
              (libError "json" "cannot unmarshal string into int") _ _).
    + vm_compute. reflexivity.
    + vm_compute. reflexivity.
  - vm_compute. reflexivity.
Defined.

(** ** Anomaly scans *)

Lemma nilIfEmpty_shape (s : slice string) : nilOrNonEmpty (nilIfEmpty s).
Proof.
  destruct s as [[|x l]|]; unfold nilOrNonEmpty, nilIfEmpty; cbn.
  - now left.
  - right. now exists x, l.
  - now left.
Qed.

Lemma nilIfEmpty_empty : nilIfEmpty (Some []) = None.
Proof. reflexivity. Qed.

Lemma FindHWSlowdownErrs_inactive (g : NvidiaSMIGPU.t) :
  (forall cer, NvidiaSMIGPU.ClockEventReasons g = Some cer ->
               SMIClockEventReasons.HWSlowdown cer <> ClockEventsActive) ->
  NvidiaSMIGPU.FindHWSlowdownErrs g = None.
Proof.
  intros Hflag. unfold NvidiaSMIGPU.FindHWSlowdownErrs.
  destruct (NvidiaSMIGPU.ClockEventReasons g) as [cer|]; [|reflexivity].
  specialize (Hflag cer eq_refl). apply String.eqb_neq in Hflag.
  rewrite Hflag. reflexivity.
Qed.

(** C5.  If the top-level HW Slowdown flag of a GPU record is not
    "Active", FindHWSlowdownErrs returns no anomaly, whatever the
    thermal-slowdown and power-brake-slowdown flags are; in particular
    for a top-level "Not Active". *)
Theorem hw_slowdown_inactive_short_circuits (g : NvidiaSMIGPU.t) :
  ((forall cer, NvidiaSMIGPU.ClockEventReasons g = Some cer ->
                SMIClockEventReasons.HWSlowdown cer <> ClockEventsActive) ->
   NvidiaSMIGPU.FindHWSlowdownErrs g = None) /\
  (forall cer, NvidiaSMIGPU.ClockEventReasons g = Some cer ->
               SMIClockEventReasons.HWSlowdown cer = ClockEventsNotActive ->
               NvidiaSMIGPU.FindHWSlowdownErrs g = None).
Proof.
  split; [apply FindHWSlowdownErrs_inactive|].
  intros cer Hcer Hna. apply FindHWSlowdownErrs_inactive.
  intros cer' Hcer'. rewrite Hcer in Hcer'. injection Hcer' as <-.
  rewrite Hna. discriminate.
Qed.

Lemma hw_slowdown_inactive_witness :
  NvidiaSMIGPU.FindHWSlowdownErrs gpuSlowdownSample = None.
Proof.
  apply (proj2 (hw_slowdown_inactive_short_circuits gpuSlowdownSample)
               (SMIClockEventReasons.mk "Not Active" "Not Active" "Not Active"
                                        "Active" "Active")); reflexivity.
Defined.

(** The document-level scan inherits the short circuit. *)
Lemma collect_none (scan : NvidiaSMIGPU.t -> slice string)
      (gpus : list NvidiaSMIGPU.t) (rs : slice string) :
  (forall g, In g gpus -> scan g = None) -> collect scan gpus rs = rs.
Proof.
  unfold collect. revert rs. induction gpus as [|g gpus IH]; intros rs Hall.
  - reflexivity.
  - cbn [fold_left]. rewrite (Hall g (or_introl eq_refl)). cbn.
    apply IH. intros g' Hin. apply Hall. now right.
Qed.

Lemma document_hw_slowdown_inactive (o : SMIOutput.t) :
  (forall g cer, In g (SMIOutput.GPUs o) ->
                 NvidiaSMIGPU.ClockEventReasons g = Some cer ->
                 SMIClockEventReasons.HWSlowdown cer <> ClockEventsActive) ->
  SMIOutput.FindHWSlowdownErrs o = None.
Proof.
  intros Hall. unfold SMIOutput.FindHWSlowdownErrs.
  rewrite collect_none; [reflexivity|].
  intros g Hin. destruct (NvidiaSMIGPU.ClockEventReasons g) as [cer|] eqn:Hc;
    [|reflexivity].
  apply FindHWSlowdownErrs_inactive.
  intros cer' Hc'. apply (Hall g cer' Hin Hc').
Qed.

Lemma clean_field (v msg : string) (errs : slice string) :
  negb (Contains v "Unknown Error") = true ->
  appendIf (Contains v "Unknown Error") errs msg = errs.
Proof. intros Hc. apply negb_true_iff in Hc. now rewrite Hc. Qed.

Lemma FindErrs_clean (g : NvidiaSMIGPU.t) :
  forallb (fun v => negb (Contains v "Unknown Error")) (scannedFields g) = true ->
  NvidiaSMIGPU.FindErrs g = None.
Proof.
  unfold scannedFields, NvidiaSMIGPU.FindErrs, NvidiaSMIGPU.FindAddressingModeErr.
  destruct (NvidiaSMIGPU.Temperature g) as [tm|];
    cbn [forallb List.app]; intros Hall;
    repeat (apply andb_prop in Hall; destruct Hall as [? Hall]);
    rewrite !clean_field by assumption;
    match goal with
    | Ha : negb (Contains (NvidiaSMIGPU.AddressingMode g) _) = true |- _ =>
        apply negb_true_iff in Ha; rewrite Ha
    end;
    reflexivity.
Qed.

(** The helper FindSummaryErr itself hands back its (possibly empty)
    slice; FindGPUErrs appends it only when it has elements. *)
Example FindSummaryErr_no_marker : FindSummaryErr "No devices were found" = Some [].
Proof. vm_compute. reflexivity. Qed.

(** C6.  Every anomaly scan returns either nil or a list with at least
    one anomaly, never an empty non-nil list; and a device none of whose
    scanned fields shows "Unknown Error" gets nil. *)
Theorem scans_return_nil_without_anomalies :
  (forall g : NvidiaSMIGPU.t, nilOrNonEmpty (NvidiaSMIGPU.FindErrs g)) /\
  (forall o : SMIOutput.t, nilOrNonEmpty (SMIOutput.FindGPUErrs o)) /\
  (forall g : NvidiaSMIGPU.t, nilOrNonEmpty (NvidiaSMIGPU.FindHWSlowdownErrs g)) /\
  (forall o : SMIOutput.t, nilOrNonEmpty (SMIOutput.FindHWSlowdownErrs o)) /\
  (forall e : SMIECCErrors.t, nilOrNonEmpty (SMIECCErrors.FindVolatileUncorrectableErrs e)) /\
  (forall g : NvidiaSMIGPU.t,
      forallb (fun v => negb (Contains v "Unknown Error")) (scannedFields g) = true ->
      NvidiaSMIGPU.FindErrs g = None).
Proof.
  repeat split; intros; try apply nilIfEmpty_shape.
  now apply FindErrs_clean.
Qed.

Lemma scans_return_nil_witness :
  NvidiaSMIGPU.FindErrs gpuSlowdownSample = None.
Proof.
  apply (proj2 (proj2 (proj2 (proj2 (proj2 scans_return_nil_without_anomalies))))
               gpuSlowdownSample).
  reflexivity.
Defined.


(** ** The device monitor *)

Section MonitorProperties.
Context `{nvml.Library}.

Lemma ltb_asym (a b : string) : String.ltb a b = true -> String.ltb b a = false.
Proof.
  unfold String.ltb. rewrite (String.compare_antisym b a).
  destruct (String.compare a b); cbn; congruence.
Qed.

Lemma less_asym (a b : nvml.DeviceInfo) :
  nvml.less a b = true -> nvml.less b a = false.
Proof. apply ltb_asym. Qed.

Lemma insertSorted_HdRel (y x : nvml.DeviceInfo) (l : list nvml.DeviceInfo) :
  HdRel (fun a b => nvml.less b a = false) y l ->
  nvml.less x y = false ->
  HdRel (fun a b => nvml.less b a = false) y (nvml.insertSorted x l).
Proof.
  intros Hhd Hxy. destruct l as [|z l]; cbn [nvml.insertSorted].
  - constructor. exact Hxy.
  - destruct (nvml.less z x); constructor; [|exact Hxy].
    now inversion Hhd.
Qed.

Lemma insertSorted_sorted (x : nvml.DeviceInfo) (l : list nvml.DeviceInfo) :
  nvml.sortedByUUID l -> nvml.sortedByUUID (nvml.insertSorted x l).
Proof.
  unfold nvml.sortedByUUID.
  induction l as [|y l IH]; intros Hs; cbn [nvml.insertSorted].
  - repeat constructor.
  - destruct (nvml.less y x) eqn:Hyx.
    + inversion Hs as [|? ? Hs' Hhd]; subst.
      constructor; [apply IH, Hs'|].
      apply insertSorted_HdRel; [exact Hhd | apply less_asym, Hyx].
    + constructor; [exact Hs|]. constructor. exact Hyx.
Qed.

Lemma sort_Slice_sorted (l : list nvml.DeviceInfo) :
  nvml.sortedByUUID (nvml.sort_Slice l).
Proof.
  unfold nvml.sort_Slice. induction l as [|x l IH]; cbn [fold_right].
  - constructor.
  - apply insertSorted_sorted, IH.
Qed.

Lemma insertSorted_perm (x : nvml.DeviceInfo) (l : list nvml.DeviceInfo) :
  Permutation (nvml.insertSorted x l) (x :: l).
Proof.
  induction l as [|y l IH]; cbn [nvml.insertSorted]; [reflexivity|].
  destruct (nvml.less y x); [|reflexivity].
  rewrite IH. apply perm_swap.
Qed.

Lemma sort_Slice_perm (l : list nvml.DeviceInfo) :
  Permutation (nvml.sort_Slice l) l.
Proof.
  unfold nvml.sort_Slice. induction l as [|x l IH]; cbn [fold_right]; [reflexivity|].
  rewrite insertSorted_perm. now constructor.
Qed.

Lemma queryDevice_UUID (devInfo l : nvml.DeviceInfo) (err : option error) :
  nvml.queryDevice devInfo = (l, err) -> nvml.UUID l = nvml.UUID devInfo.
Proof.
  unfold nvml.queryDevice. cbv zeta.
  repeat match goal with
         | |- context [nvml.GetClockEvents ?u ?d] =>
             destruct (nvml.GetClockEvents u d) as [? [?|]]
         | |- context [nvml.GetClockSpeed ?u ?d] =>
             destruct (nvml.GetClockSpeed u d) as [? [?|]]
         | |- context [nvml.GetMemory ?u ?d] =>
             destruct (nvml.GetMemory u d) as [? [?|]]
         | |- context [nvml.GetNVLink ?u ?d] =>
             destruct (nvml.GetNVLink u d) as [? [?|]]
         | |- context [nvml.GetPower ?u ?d] =>
             destruct (nvml.GetPower u d) as [? [?|]]
         | |- context [nvml.GetTemperature ?u ?d] =>
             destruct (nvml.GetTemperature u d) as [? [?|]]
         | |- context [nvml.GetUtilization ?u ?d] =>
             destruct (nvml.GetUtilization u d) as [? [?|]]
         | |- context [nvml.GetProcesses ?u ?d] =>
             destruct (nvml.GetProcesses u d) as [? [?|]]
         | |- context [nvml.GetECCErrors ?u ?d] =>
             destruct (nvml.GetECCErrors u d) as [? [?|]]
         | |- (_, _) = (_, _) -> _ => intros [= <- _]; reflexivity
         end.
Qed.



(** C8.  An iteration whose wait times out sends nothing; every event the
    loop sends comes from an iteration whose wait did not time out, and
    it is either the failure event of a failed wait (the wait error, no
    fault code) or the decoded event of a successful wait (its fault
    code, no error). *)
Theorem timeout_never_publishes :
  (forall it : nvml.iteration,
      nvml.waitRet it = nvml.ERROR_TIMEOUT ->
      nvml.pollStep it = nvml.Exit \/ nvml.pollStep it = nvml.Continue None) /\
  (forall (run : list nvml.iteration) (ev : nvml.XidEvent),
      In ev (fst (nvml.pollXidEvents run)) ->
      exists it,
        In it run /\ nvml.waitRet it <> nvml.ERROR_TIMEOUT /\
        ((nvml.waitRet it <> nvml.SUCCESS /\
          ev = nvml.failureEvent (nvml.waitRet it) /\
          nvml.Xid ev = 0 /\
          nvml.EventError ev
            = Some (fmt_Errorf ("event set wait failed: "
                                  ++ nvml.ErrorString (nvml.waitRet it))))
         \/
         (nvml.waitRet it = nvml.SUCCESS /\
          ev = nvml.decodeEvent (nvml.waitEvent it) /\
          nvml.Xid ev = nvml.evData (nvml.waitEvent it) /\
          nvml.EventError ev = None))).
Proof.
  split.
  - intros it Hto. unfold nvml.pollStep. rewrite Hto.
    destruct (nvml.doneBeforeWait it); [now left | now right].
  - induction run as [|it run IH]; intros ev Hin; [destruct Hin|].
    cbn [nvml.pollXidEvents] in Hin.
    destruct (nvml.pollStep it) as [|sent] eqn:Hstep; [destruct Hin|].
    destruct (nvml.pollXidEvents run) as [evs exited].
    assert (Hcase : sent = Some ev \/ In ev evs).
    { destruct sent as [ev'|]; cbn in Hin; [|now right].
      destruct Hin as [->|Hin]; [now left | now right]. }
    destruct Hcase as [-> | Hrest].
    + exists it. split; [now left|].
      unfold nvml.pollStep in Hstep.
      destruct (nvml.doneBeforeWait it); [discriminate|].
      destruct (Z.eqb_spec (nvml.waitRet it) nvml.ERROR_TIMEOUT) as [?|Hnt];
        [discriminate|].
      split; [exact Hnt|].
      destruct (Z.eqb_spec (nvml.waitRet it) nvml.SUCCESS) as [Hok|Hfail];
        cbn [negb] in Hstep; destruct (nvml.publish it); try discriminate;
        injection Hstep as <-.
      * right. split; [exact Hok|]. split; [reflexivity|].
        unfold nvml.decodeEvent.
        destruct (0 <? nvml.evData (nvml.waitEvent it));
          [destruct (nvml.GetDetail _) as [d ok]|]; split; reflexivity.
      * left. split; [exact Hfail|]. repeat split.
    + destruct (IH ev Hrest) as [it' [Hin' Hrest']].
      exists it'. split; [now right | exact Hrest'].
Qed.

Lemma Shutdown_success_clears (inst inst' : nvml.instance) (freeRet shutdownRet : Z) :
  nvml.Shutdown inst freeRet shutdownRet = (inst', None) ->
  nvml.nvmlLib inst' = None.
Proof.
  unfold nvml.Shutdown.
  destruct (nvml.nvmlLib inst) as [lib|] eqn:Hlib.
  - cbn [nvml.eventSet nvml.rootCtxDone nvml.nvmlExists nvml.nvmlExistsMsg
         nvml.nvmlLib nvml.devices nvml.eventMask nvml.pollers].
    destruct (nvml.isSet (nvml.eventSet inst) && negb (freeRet =? nvml.SUCCESS));
      [discriminate|].
    destruct (negb (shutdownRet =? nvml.SUCCESS)); [discriminate|].
    intros [= <-]. reflexivity.
  - intros [= <-]. exact Hlib.
Qed.

Lemma perform_after_shutdown (inst : nvml.instance) (c : nvml.call) :
  nvml.nvmlLib inst = None ->
  exists r, nvml.perform inst c = (inst, r) /\ nvml.afterShutdownReply c r.
Proof.
  intros Hnil. destruct c as [gd | f s | order | | |]; cbn [nvml.perform].
  - unfold nvml.Start. rewrite Hnil. cbn. eexists. split; [reflexivity | exact I].
  - unfold nvml.Shutdown. rewrite Hnil. eexists. split; reflexivity.
  - unfold nvml.Get. rewrite Hnil. cbn. eexists. split; reflexivity.
  - eexists. split; [reflexivity | exact I].
  - eexists. split; [reflexivity | exact I].
  - eexists. split; [reflexivity | exact I].
Qed.

(** C9.  After a Shutdown that returned no error, whatever calls follow:
    every Shutdown returns no error and changes nothing, and every Get
    returns no output and the error "nvml not initialized". *)
Theorem calls_after_shutdown (inst inst' : nvml.instance) (freeRet shutdownRet : Z) :
  nvml.Shutdown inst freeRet shutdownRet = (inst', None) ->
  forall cs : list nvml.call,
  exists rs, nvml.performAll inst' cs = (inst', rs) /\
             Forall2 nvml.afterShutdownReply cs rs.
Proof.
  intros Hsd. apply Shutdown_success_clears in Hsd.
  induction cs as [|c cs IH]; cbn [nvml.performAll].
  - exists []. split; [reflexivity | constructor].
  - destruct (perform_after_shutdown inst' c Hsd) as [r [Hp Hr]].
    destruct IH as [rs [Hrun Hall]].
    rewrite Hp, Hrun. exists (r :: rs). split; [reflexivity|].
    now constructor.
Qed.

End MonitorProperties.



Lemma timeout_never_publishes_witness :
  exists it,
    In it sampleRun /\ nvml.waitRet it <> nvml.ERROR_TIMEOUT /\
    ((nvml.waitRet it <> nvml.SUCCESS /\
      nvml.failureEvent 999 = nvml.failureEvent (nvml.waitRet it) /\
      nvml.Xid (nvml.failureEvent 999) = 0 /\
      nvml.EventError (nvml.failureEvent 999)
        = Some (fmt_Errorf ("event set wait failed: "
                              ++ nvml.ErrorString (nvml.waitRet it))))
     \/
     (nvml.waitRet it = nvml.SUCCESS /\
      nvml.failureEvent 999 = nvml.decodeEvent (nvml.waitEvent it) /\
      nvml.Xid (nvml.failureEvent 999) = nvml.evData (nvml.waitEvent it) /\
      nvml.EventError (nvml.failureEvent 999) = None)).
Proof.
  apply (proj2 (timeout_never_publishes (H := monitorLibrary)) sampleRun
               (nvml.failureEvent 999)).
  vm_compute. left. reflexivity.
Defined.

Lemma calls_after_shutdown_witness :
  exists rs,
    nvml.performAll (fst (nvml.Shutdown startedMonitor nvml.SUCCESS nvml.SUCCESS))
                    callsAfterShutdown
      = (fst (nvml.Shutdown startedMonitor nvml.SUCCESS nvml.SUCCESS), rs) /\
    Forall2 nvml.afterShutdownReply callsAfterShutdown rs.
Proof.
  apply (calls_after_shutdown startedMonitor
           (fst (nvml.Shutdown startedMonitor nvml.SUCCESS nvml.SUCCESS))
           nvml.SUCCESS nvml.SUCCESS).
  vm_compute. reflexivity.
Defined.

(* ===================================================================== *)
(** * Further properties of the query package *)
(* ===================================================================== *)

(** ** Getters on well-suffixed input *)

Lemma substring_app (a b : string) : String.substring 0 (len a) (a ++ b) = a.
Proof.
  induction a as [|c a IH]; [now destruct b|].
  change (String c (String.substring 0 (len a) (a ++ b)) = String c a).
  now rewrite IH.
Qed.

Lemma TrimSuffix_app (a b : string) : TrimSuffix (a ++ b) b = a.
Proof.
  unfold TrimSuffix. rewrite HasSuffix_app, len_app.
  replace (len a + len b - len b)%nat with (len a) by lia.
  apply substring_app.
Qed.

Lemma suffixed_not_NA (s suffix : string) :
  HasSuffix "N/A" suffix = false -> String.eqb (s ++ suffix) "N/A" = false.
Proof.
  intros Hn. apply String.eqb_neq. intros Heq.
  pose proof (HasSuffix_app s suffix) as Hs. rewrite Heq in Hs. congruence.
Qed.

(** X1.  A value that ends with the unit suffix is never taken for the
    absence sentinel: every getter hands the text before the suffix to
    strconv.ParseFloat and returns its number, or 0 with its error. *)
Theorem getters_parse_text_before_suffix `{Strconv} :
  (forall (f : tempField) (tm : SMIGPUTemperature.t) (s : string),
      tempValue f tm = s ++ " C" ->
      tempGetter f tm = match ParseFloat s with
                        | (_, Some err) => (zero, Some err)
                        | (v, None) => (v, None)
                        end) /\
  (forall (f : powerField) (g : SMIGPUPowerReadings.t) (s : string),
      powerValue f g = s ++ " W" ->
      powerGetter f g = match ParseFloat s with
                        | (_, Some err) => (zero, Some err)
                        | (v, None) => (v, None)
                        end).
Proof.
  split.
  - intros f tm s Hv.
    destruct f; simpl in *;
      unfold SMIGPUTemperature.GetCurrentCelsius, SMIGPUTemperature.GetLimitCelsius,
        SMIGPUTemperature.GetShutdownCelsius, SMIGPUTemperature.GetShutdownLimitCelsius,
        SMIGPUTemperature.GetSlowdownCelsius, SMIGPUTemperature.GetSlowdownLimitCelsius;
      cbv zeta; rewrite Hv, (suffixed_not_NA s " C" eq_refl), HasSuffix_app, TrimSuffix_app;
      reflexivity.
  - intros f g s Hv.
    destruct f; simpl in *;
      unfold SMIGPUPowerReadings.GetPowerDrawW, SMIGPUPowerReadings.GetCurrentPowerLimitW,
        SMIGPUPowerReadings.GetRequestedPowerLimitW, SMIGPUPowerReadings.GetDefaultPowerLimitW,
        SMIGPUPowerReadings.GetMinPowerLimitW, SMIGPUPowerReadings.GetMaxPowerLimitW;
      cbv zeta; rewrite Hv, (suffixed_not_NA s " W" eq_refl), HasSuffix_app, TrimSuffix_app;
      reflexivity.
Qed.

Lemma getters_parse_text_witness :
  tempGetter (H := decimalStrconv) TShutdown (tempSample "75 C" "N/A" "95 C")
    = (ofZ 95, None) /\
  powerGetter (H := decimalStrconv) PDraw (powerSample "42.31 W" "700.00 W")
    = (fst (decimalParseFloat "42.31"), None).
Proof.
  split.
  - exact (proj1 (getters_parse_text_before_suffix (H := decimalStrconv))
                 TShutdown (tempSample "75 C" "N/A" "95 C") "95" eq_refl).
  - exact (proj2 (getters_parse_text_before_suffix (H := decimalStrconv))
                 PDraw (powerSample "42.31 W" "700.00 W") "42.31" eq_refl).
Defined.

(** ** Normalisation: which fields are mandatory *)

(** X2.  Of the temperature fields only the current reading is
    mandatory: Parse fails exactly when GetCurrentCelsius fails, with
    that very error and the empty record; the other five readings never
    make it fail. *)
Theorem temperature_parse_fails_only_on_current `{Strconv} (tm : SMIGPUTemperature.t) :
  snd (SMIGPUTemperature.Parse tm) = snd (SMIGPUTemperature.GetCurrentCelsius tm) /\
  (snd (SMIGPUTemperature.GetCurrentCelsius tm) <> None ->
   fst (SMIGPUTemperature.Parse tm) = ParsedTemperature.empty) /\
  (snd (SMIGPUTemperature.GetCurrentCelsius tm) = None ->
   ParsedTemperature.ID (fst (SMIGPUTemperature.Parse tm)) = SMIGPUTemperature.ID tm /\
   ParsedTemperature.CurrentCelsius (fst (SMIGPUTemperature.Parse tm))
     = Sprintf_2f (fst (SMIGPUTemperature.GetCurrentCelsius tm))).
Proof.
  destruct (SMIGPUTemperature.GetCurrentCelsius tm) as [cur [e|]] eqn:Hc.
  - rewrite (Parse_fails_with_current tm cur e Hc). cbn. repeat split; congruence.
  - split; [|split; [cbn; congruence|]].
    + destruct (Parse_used_percent tm cur Hc) as [p [Hp _]]. now rewrite Hp.
    + intros _. unfold SMIGPUTemperature.Parse. rewrite Hc.
      destruct (SMIGPUTemperature.GetShutdownCelsius tm) as [sd [esd|]];
      destruct (SMIGPUTemperature.GetShutdownLimitCelsius tm) as [sdl [esdl|]];
      destruct (SMIGPUTemperature.GetSlowdownCelsius tm) as [sw [esw|]];
      destruct (SMIGPUTemperature.GetSlowdownLimitCelsius tm) as [swl [eswl|]];
      destruct (SMIGPUTemperature.GetLimitCelsius tm) as [l [el|]];
      split; reflexivity.
Qed.

Lemma temperature_parse_fails_only_on_current_witness :
  fst (SMIGPUTemperature.Parse (H := decimalStrconv) (tempSample "N/A" "90 C" "95 C"))
    = ParsedTemperature.empty /\
  ParsedTemperature.CurrentCelsius
    (fst (SMIGPUTemperature.Parse (H := decimalStrconv) (tempSample "75 C" "hot" "95 F")))
    = "75.00".
Proof.
  split.
  - apply (proj1 (proj2 (temperature_parse_fails_only_on_current (H := decimalStrconv)
                           (tempSample "N/A" "90 C" "95 C")))).
    discriminate.
  - apply (proj2 (proj2 (proj2 (temperature_parse_fails_only_on_current
                                  (H := decimalStrconv)
                                  (tempSample "75 C" "hot" "95 F"))) eq_refl)).
Defined.

Lemma firstPowerError_cons `{Strconv} (f : powerField) (fs : list powerField)
      (g : SMIGPUPowerReadings.t) :
  firstPowerError (f :: fs) g
  = match snd (powerGetter f g) with
    | Some e => Some e
    | None => firstPowerError fs g
    end.
Proof. reflexivity. Qed.

Lemma power_parse_error `{Strconv} (g : SMIGPUPowerReadings.t) :
  snd (SMIGPUPowerReadings_Parse g) = firstPowerError powerFields g /\
  (firstPowerError powerFields g <> None ->
   fst (SMIGPUPowerReadings_Parse g) = ParsedSMIPowerReading.empty).
Proof.
  unfold SMIGPUPowerReadings_Parse, powerFields.
  rewrite !firstPowerError_cons. cbn [powerGetter firstPowerError].
  destruct (SMIGPUPowerReadings.GetPowerDrawW g) as [v1 [e1|]]; [now split|].
  destruct (SMIGPUPowerReadings.GetCurrentPowerLimitW g) as [v2 [e2|]]; [now split|].
  destruct (SMIGPUPowerReadings.GetRequestedPowerLimitW g) as [v3 [e3|]]; [now split|].
  destruct (SMIGPUPowerReadings.GetDefaultPowerLimitW g) as [v4 [e4|]]; [now split|].
  destruct (SMIGPUPowerReadings.GetMinPowerLimitW g) as [v5 [e5|]]; [now split|].
  destruct (SMIGPUPowerReadings.GetMaxPowerLimitW g) as [v6 [e6|]]; [now split|].
  cbn. split; [reflexivity | congruence].
Qed.

Lemma firstPowerError_some `{Strconv} (fs : list powerField) (f : powerField)
      (g : SMIGPUPowerReadings.t) :
  In f fs -> snd (powerGetter f g) <> None -> firstPowerError fs g <> None.
Proof.
  induction fs as [|f' fs IH]; intros Hin Hf; [destruct Hin|].
  rewrite firstPowerError_cons.
  destruct Hin as [-> | Hin].
  - destruct (snd (powerGetter f g)); congruence.
  - destruct (snd (powerGetter f' g)); [congruence | now apply IH].
Qed.

Lemma power_parse_success `{Strconv} (g : SMIGPUPowerReadings.t)
        (draw limit req def min max : float64) :
  SMIGPUPowerReadings.GetPowerDrawW g = (draw, None) ->
  SMIGPUPowerReadings.GetCurrentPowerLimitW g = (limit, None) ->
  SMIGPUPowerReadings.GetRequestedPowerLimitW g = (req, None) ->
  SMIGPUPowerReadings.GetDefaultPowerLimitW g = (def, None) ->
  SMIGPUPowerReadings.GetMinPowerLimitW g = (min, None) ->
  SMIGPUPowerReadings.GetMaxPowerLimitW g = (max, None) ->
  exists p,
    SMIGPUPowerReadings_Parse g = (p, None) /\
    ParsedSMIPowerReading.UsedPercent p = usedPercentOf draw limit /\
    ParsedSMIPowerReading.PowerDrawW p = Sprintf_2f draw /\
    ParsedSMIPowerReading.CurrentPowerLimitW p = Sprintf_2f limit /\
    ParsedSMIPowerReading.RequestedPowerLimitW p = Sprintf_2f req /\
    ParsedSMIPowerReading.DefaultPowerLimitW p = Sprintf_2f def /\
    ParsedSMIPowerReading.MinPowerLimitW p = Sprintf_2f min /\
    ParsedSMIPowerReading.MaxPowerLimitW p = Sprintf_2f max /\
    ParsedSMIPowerReading.ID p = SMIGPUPowerReadings.ID g.
Proof.
  intros H1 H2 H3 H4 H5 H6.
  unfold SMIGPUPowerReadings_Parse. rewrite H1, H2, H3, H4, H5, H6.
  eexists. split; [reflexivity|]. repeat split.
Qed.

(** X3.  All six power fields are mandatory: Parse returns the error of
    the first getter that fails, in the order draw, current limit,
    requested, default, min, max limit, with the empty record; so a
    single "N/A" or malformed field loses the whole reading.  When all
    six parse, the used-percent is draw / current limit x 100 with two
    decimals, "0.0" when the current limit is not greater than zero. *)
Theorem power_parse_all_fields_mandatory `{Strconv} (g : SMIGPUPowerReadings.t) :
  snd (SMIGPUPowerReadings_Parse g) = firstPowerError powerFields g /\
  (forall f : powerField,
      snd (powerGetter f g) <> None ->
      snd (SMIGPUPowerReadings_Parse g) <> None /\
      fst (SMIGPUPowerReadings_Parse g) = ParsedSMIPowerReading.empty) /\
  (firstPowerError powerFields g = None ->
   ParsedSMIPowerReading.UsedPercent (fst (SMIGPUPowerReadings_Parse g))
     = usedPercentOf (fst (SMIGPUPowerReadings.GetPowerDrawW g))
                     (fst (SMIGPUPowerReadings.GetCurrentPowerLimitW g)) /\
   ParsedSMIPowerReading.PowerDrawW (fst (SMIGPUPowerReadings_Parse g))
     = Sprintf_2f (fst (SMIGPUPowerReadings.GetPowerDrawW g)) /\
   ParsedSMIPowerReading.ID (fst (SMIGPUPowerReadings_Parse g))
     = SMIGPUPowerReadings.ID g).
Proof.
  destruct (power_parse_error g) as [Herr Hempty].
  split; [exact Herr|]. split.
  - intros f Hf.
    assert (Hfirst : firstPowerError powerFields g <> None).
    { apply (firstPowerError_some powerFields f g); [|exact Hf].
      unfold powerFields. destruct f; cbn; tauto. }
    split; [now rewrite Herr | now apply Hempty].
  - unfold powerFields. rewrite !firstPowerError_cons. cbn [powerGetter firstPowerError].
    destruct (SMIGPUPowerReadings.GetPowerDrawW g) as [v1 [e1|]] eqn:H1; [discriminate|].
    destruct (SMIGPUPowerReadings.GetCurrentPowerLimitW g) as [v2 [e2|]] eqn:H2;
      [discriminate|].
    destruct (SMIGPUPowerReadings.GetRequestedPowerLimitW g) as [v3 [e3|]] eqn:H3;
      [discriminate|].
    destruct (SMIGPUPowerReadings.GetDefaultPowerLimitW g) as [v4 [e4|]] eqn:H4;
      [discriminate|].
    destruct (SMIGPUPowerReadings.GetMinPowerLimitW g) as [v5 [e5|]] eqn:H5;
      [discriminate|].
    destruct (SMIGPUPowerReadings.GetMaxPowerLimitW g) as [v6 [e6|]] eqn:H6;
      [discriminate|].
    intros _. cbn [fst snd].
    destruct (power_parse_success g v1 v2 v3 v4 v5 v6 H1 H2 H3 H4 H5 H6)
      as [p [Hp [Hu [Hd [_ [_ [_ [_ [_ Hid]]]]]]]]].
    rewrite Hp. cbn [fst]. now repeat split.
Qed.

Lemma power_parse_all_fields_mandatory_witness :
  (snd (SMIGPUPowerReadings_Parse (H := decimalStrconv) (powerSample "42.31 W" "N/A"))
     <> None /\
   fst (SMIGPUPowerReadings_Parse (H := decimalStrconv) (powerSample "42.31 W" "N/A"))
     = ParsedSMIPowerReading.empty) /\
  ParsedSMIPowerReading.UsedPercent
    (fst (SMIGPUPowerReadings_Parse (H := decimalStrconv)
            (powerSample "42.31 W" "700.00 W")))
  = "6.04".
Proof.
  split.
  - apply (proj1 (proj2 (power_parse_all_fields_mandatory (H := decimalStrconv)
                           (powerSample "42.31 W" "N/A"))) PRequestedLimit).
    discriminate.
  - rewrite (proj1 (proj2 (proj2 (power_parse_all_fields_mandatory (H := decimalStrconv)
                                    (powerSample "42.31 W" "700.00 W"))) eq_refl)).
    vm_compute. reflexivity.
Defined.

(** X4.  All four memory fields are mandatory byte sizes: Parse returns
    the error of the first of total, reserved, used, free that does not
    parse; when all parse, the record holds the parsed byte counts, the
    humanized strings re-rendered from them (not the input text), and
    the used-percent used / total x 100, "0.0" for a total of zero. *)
Theorem memory_parse_fields `{Humanize} (f : SMIFBMemoryUsage.t) :
  snd (SMIFBMemoryUsage_Parse f)
    = match snd (ParseBytes (SMIFBMemoryUsage.Total f)) with
      | Some e => Some e
      | None =>
          match snd (ParseBytes (SMIFBMemoryUsage.Reserved f)) with
          | Some e => Some e
          | None =>
              match snd (ParseBytes (SMIFBMemoryUsage.Used f)) with
              | Some e => Some e
              | None => snd (ParseBytes (SMIFBMemoryUsage.Free f))
              end
          end
      end /\
  (forall t r u fr,
      ParseBytes (SMIFBMemoryUsage.Total f) = (t, None) ->
      ParseBytes (SMIFBMemoryUsage.Reserved f) = (r, None) ->
      ParseBytes (SMIFBMemoryUsage.Used f) = (u, None) ->
      ParseBytes (SMIFBMemoryUsage.Free f) = (fr, None) ->
      SMIFBMemoryUsage_Parse f
        = (ParsedMemoryUsage.mk (SMIFBMemoryUsage.ID f)
             t (Bytes t) r (Bytes r) u (Bytes u)
             (if 0 <? t then Sprintf_2f (mul (div (ofZ u) (ofZ t)) (ofZ 100)) else "0.0")
             fr (Bytes fr),
           None)).
Proof.
  unfold SMIFBMemoryUsage_Parse. split.
  - destruct (ParseBytes (SMIFBMemoryUsage.Total f)) as [t [e|]]; [reflexivity|].
    destruct (ParseBytes (SMIFBMemoryUsage.Reserved f)) as [r [e|]]; [reflexivity|].
    destruct (ParseBytes (SMIFBMemoryUsage.Used f)) as [u [e|]]; [reflexivity|].
    destruct (ParseBytes (SMIFBMemoryUsage.Free f)) as [fr [e|]]; reflexivity.
  - intros t r u fr Ht Hr Hu Hf. now rewrite Ht, Hr, Hu, Hf.
Qed.

Lemma memory_parse_fields_witness :
  ParsedMemoryUsage.UsedPercent
    (fst (SMIFBMemoryUsage_Parse (H := mibHumanize) (memorySample "80536 MiB" "40268 MiB")))
  = "50.00".
Proof.
  rewrite (proj2 (memory_parse_fields (H := mibHumanize)
                    (memorySample "80536 MiB" "40268 MiB"))
                 (80536 * 2 ^ 20) (551 * 2 ^ 20) (40268 * 2 ^ 20) (39717 * 2 ^ 20)
                 eq_refl eq_refl eq_refl eq_refl).
  vm_compute. reflexivity.
Defined.

(** ** Anomaly scans, exactly *)

Lemma slice_len_nilIfEmpty (s : slice string) :
  slice_len (nilIfEmpty s) = slice_len s.
Proof. now destruct s as [[|x l]|]. Qed.

Lemma nilIfEmpty_none (s : slice string) :
  nilIfEmpty s = None <-> slice_len s = O.
Proof.
  destruct s as [[|x l]|]; cbn; split; intros Hx; try reflexivity; discriminate Hx.
Qed.

Lemma elems_nilIfEmpty (s : slice string) : elems (nilIfEmpty s) = elems s.
Proof. now destruct s as [[|x l]|]. Qed.

Lemma elems_append (a b : slice string) : elems (append a b) = (elems a ++ elems b)%list.
Proof.
  destruct a as [la|], b as [[|x lb]|]; cbn; rewrite ?app_nil_r; reflexivity.
Qed.

Lemma elems_append1 (a : slice string) (x : string) :
  elems (append1 a x) = (elems a ++ [x])%list.
Proof. now destruct a. Qed.

Lemma elems_appendIf (c : bool) (a : slice string) (x : string) :
  elems (appendIf c a x) = (elems a ++ if c then [x] else [])%list.
Proof. destruct c; cbn; [apply elems_append1 | now rewrite app_nil_r]. Qed.

Lemma slice_len_elems (s : slice string) : slice_len s = List.length (elems s).
Proof. now destruct s. Qed.

(** X5.  The ECC scan reports one anomaly per volatile uncorrectable
    counter (DRAM, SRAM, SRAM parity, SRAM SEC-DED) that is present and
    not "0"; it returns nil exactly when the volatile block is absent or
    all four counters are empty or "0". *)
Theorem ecc_scan_counts_nonzero_counters (e : SMIECCErrors.t) :
  slice_len (SMIECCErrors.FindVolatileUncorrectableErrs e)
    = match SMIECCErrors.Volatile e with
      | None => O
      | Some v => List.length (List.filter SMIECCErrors.nonZero (volatileCounters v))
      end /\
  (SMIECCErrors.FindVolatileUncorrectableErrs e = None <->
   match SMIECCErrors.Volatile e with
   | None => True
   | Some v => forallb (fun c => negb (SMIECCErrors.nonZero c)) (volatileCounters v) = true
   end).
Proof.
  unfold SMIECCErrors.FindVolatileUncorrectableErrs, volatileCounters.
  rewrite slice_len_nilIfEmpty, nilIfEmpty_none.
  destruct (SMIECCErrors.Volatile e) as [v|]; [|cbn; tauto].
  cbn [List.filter forallb].
  destruct (SMIECCErrors.nonZero (SMIECCErrorVolatile.DRAMUncorrectable v));
  destruct (SMIECCErrors.nonZero (SMIECCErrorVolatile.SRAMUncorrectable v));
  destruct (SMIECCErrors.nonZero (SMIECCErrorVolatile.SRAMUncorrectableParity v));
  destruct (SMIECCErrors.nonZero (SMIECCErrorVolatile.SRAMUncorrectableSECDED v));
  cbn; (split; [reflexivity|]); split; intros Hx; try reflexivity; discriminate Hx.
Qed.

Lemma FindErrs_elems (g : NvidiaSMIGPU.t) :
  elems (NvidiaSMIGPU.FindErrs g)
  = List.concat
      [ match NvidiaSMIGPU.Temperature g with
        | Some tm =>
            List.concat
              [ report (unknownError (SMIGPUTemperature.Current tm))
                  (NvidiaSMIGPU.ID g ++ ": Temperature.Current Unknown Error");
                report (unknownError (SMIGPUTemperature.Limit tm))
                  (NvidiaSMIGPU.ID g ++ ": Temperature.Limit Unknown Error");
                report (unknownError (SMIGPUTemperature.ShutdownLimit tm))
                  (NvidiaSMIGPU.ID g ++ ": Temperature.ShutdownLimit Unknown Error");
                report (unknownError (SMIGPUTemperature.SlowdownLimit tm))
                  (NvidiaSMIGPU.ID g ++ ": Temperature.SlowdownLimit Unknown Error");
                report (unknownError (SMIGPUTemperature.MaxOperatingLimit tm))
                  (NvidiaSMIGPU.ID g ++ ": Temperature.MaxOperatingLimit Unknown Error");
                report (unknownError (SMIGPUTemperature.Target tm))
                  (NvidiaSMIGPU.ID g ++ ": Temperature.Target Unknown Error");
                report (unknownError (SMIGPUTemperature.MemoryCurrent tm))
                  (NvidiaSMIGPU.ID g ++ ": Temperature.MemoryCurrent Unknown Error");
                report (unknownError (SMIGPUTemperature.MemoryMaxOperatingLimit tm))
                  (NvidiaSMIGPU.ID g ++ ": Temperature.MemoryMaxOperatingLimit Unknown Error") ]
        | None => []
        end;
        report (unknownError (NvidiaSMIGPU.AddressingMode g))
          (NvidiaSMIGPU.ID g ++ ": AddressingMode " ++ NvidiaSMIGPU.AddressingMode g);
        report (unknownError (NvidiaSMIGPU.FanSpeed g))
          (NvidiaSMIGPU.ID g ++ ": FanSpeed Unknown Error") ].
Proof.
  unfold NvidiaSMIGPU.FindErrs, NvidiaSMIGPU.FindAddressingModeErr, unknownError, report.
  rewrite elems_nilIfEmpty, elems_appendIf.
  destruct (NvidiaSMIGPU.Temperature g) as [tm|].
  - destruct (Contains (NvidiaSMIGPU.AddressingMode g) "Unknown Error");
      rewrite ?elems_append1, !elems_appendIf; cbn [elems Error fmt_Errorf List.concat];
      rewrite ?app_nil_r, <- ?app_assoc; reflexivity.
  - destruct (Contains (NvidiaSMIGPU.AddressingMode g) "Unknown Error");
      rewrite ?elems_append1; cbn [elems Error fmt_Errorf List.concat];
      rewrite ?app_nil_r, <- ?app_assoc; reflexivity.
Qed.

Lemma FindErrs_shape (g : NvidiaSMIGPU.t) : nilOrNonEmpty (NvidiaSMIGPU.FindErrs g).
Proof. apply nilIfEmpty_shape. Qed.

Lemma length_report (c : bool) (x : string) :
  List.length (report c x) = if c then 1%nat else 0%nat.
Proof. now destruct c. Qed.

Lemma length_filter_cons (f : string -> bool) (v : string) (vs : list string) :
  List.length (List.filter f (v :: vs))
  = ((if f v then 1 else 0) + List.length (List.filter f vs))%nat.
Proof. cbn. now destruct (f v). Qed.

(** X6.  The per-device scan reports exactly one anomaly per scanned
    field (eight temperature fields when the temperature block is
    present, addressing mode, fan speed) that contains "Unknown Error",
    and returns nil exactly when none does. *)
Theorem device_scan_counts_unknown_errors (g : NvidiaSMIGPU.t) :
  slice_len (NvidiaSMIGPU.FindErrs g)
    = List.length (List.filter unknownError (scannedFields g)) /\
  (NvidiaSMIGPU.FindErrs g = None <->
   forallb (fun v => negb (unknownError v)) (scannedFields g) = true).
Proof.
  assert (Hlen : slice_len (NvidiaSMIGPU.FindErrs g)
                 = List.length (List.filter unknownError (scannedFields g))).
  { rewrite slice_len_elems, FindErrs_elems. unfold scannedFields.
    destruct (NvidiaSMIGPU.Temperature g) as [tm|];
      cbn [List.app List.concat];
      rewrite ?length_app, ?length_report, ?length_filter_cons; cbn [List.filter List.length];
      lia. }
  split; [exact Hlen|].
  destruct (FindErrs_shape g) as [Hnone | [x [l Hsome]]].
  - rewrite Hnone in *. cbn in Hlen. split; [intros _ | reflexivity].
    symmetry in Hlen. apply length_zero_iff_nil in Hlen.
    induction (scannedFields g) as [|v vs IH]; [reflexivity|].
    cbn in *. destruct (unknownError v); [discriminate Hlen|]. now apply IH.
  - rewrite Hsome in *. cbn in Hlen. split; [discriminate|].
    intros Hall. exfalso.
    induction (scannedFields g) as [|v vs IH]; [discriminate Hlen|].
    cbn in *. destruct (unknownError v); [discriminate Hall|]. now apply IH.
Qed.

(** X7.  The separately callable addressing-mode check agrees with the
    per-device scan: it returns an error exactly when the addressing mode
    contains "Unknown Error", and the message of that error is one of the
    anomalies FindErrs reports. *)
Theorem addressing_mode_error_is_reported (g : NvidiaSMIGPU.t) :
  (NvidiaSMIGPU.FindAddressingModeErr g = None <->
   unknownError (NvidiaSMIGPU.AddressingMode g) = false) /\
  (forall e, NvidiaSMIGPU.FindAddressingModeErr g = Some e ->
             Error e = NvidiaSMIGPU.ID g ++ ": AddressingMode "
                         ++ NvidiaSMIGPU.AddressingMode g /\
             In (Error e) (elems (NvidiaSMIGPU.FindErrs g))).
Proof.
  split.
  - unfold NvidiaSMIGPU.FindAddressingModeErr, unknownError.
    destruct (Contains (NvidiaSMIGPU.AddressingMode g) "Unknown Error");
      split; intros Hx; try reflexivity; discriminate Hx.
  - intros e He. rewrite FindErrs_elems.
    unfold NvidiaSMIGPU.FindAddressingModeErr in He. unfold unknownError at 1.
    assert (Hu : unknownError (NvidiaSMIGPU.AddressingMode g) = true).
    { unfold unknownError.
      destruct (Contains (NvidiaSMIGPU.AddressingMode g) "Unknown Error");
        [reflexivity | discriminate He]. }
    unfold unknownError in Hu. rewrite Hu in He. injection He as <-.
    split; [reflexivity|].
    apply in_concat. eexists. split; [right; left; reflexivity|].
    unfold unknownError. rewrite Hu. now left.
Qed.

Lemma addressing_mode_error_witness :
  In "GPU 00000000:53:00.0: AddressingMode Unknown Error"
     (elems (NvidiaSMIGPU.FindErrs gpuFaultySample)).
Proof.
  apply (proj2 (proj2 (addressing_mode_error_is_reported gpuFaultySample)
                      (errorString "GPU 00000000:53:00.0: AddressingMode Unknown Error")
                      eq_refl)).
Defined.

(** X8.  The hardware-slowdown scan of a device reports something only
    when the top-level flag is "Active" and at least one of the thermal
    and power-brake sub-flags is "Active": an active top-level flag on its
    own gives nil; with the top-level flag active it reports the thermal
    anomaly first, then the power-brake one. *)
Theorem hw_slowdown_reports_only_active_subflags (g : NvidiaSMIGPU.t) :
  (NvidiaSMIGPU.FindHWSlowdownErrs g <> None <->
   exists cer, NvidiaSMIGPU.ClockEventReasons g = Some cer /\
               SMIClockEventReasons.HWSlowdown cer = "Active" /\
               (SMIClockEventReasons.HWThermalSlowdown cer = "Active" \/
                SMIClockEventReasons.HWPowerBrakeSlowdown cer = "Active")) /\
  (forall cer, NvidiaSMIGPU.ClockEventReasons g = Some cer ->
               SMIClockEventReasons.HWSlowdown cer = "Active" ->
               elems (NvidiaSMIGPU.FindHWSlowdownErrs g)
               = List.app
                   (report (String.eqb (SMIClockEventReasons.HWThermalSlowdown cer) "Active")
                      (NvidiaSMIGPU.ID g
                         ++ ": ClockEventReasons.HWSlowdown.ThermalSlowdown Active"))
                   (report (String.eqb (SMIClockEventReasons.HWPowerBrakeSlowdown cer) "Active")
                      (NvidiaSMIGPU.ID g
                         ++ ": ClockEventReasons.HWSlowdown.PowerBrakeSlowdown Active"))).
Proof.
  unfold NvidiaSMIGPU.FindHWSlowdownErrs, ClockEventsActive. split.
  - destruct (NvidiaSMIGPU.ClockEventReasons g) as [cer|].
    + destruct (String.eqb_spec (SMIClockEventReasons.HWSlowdown cer) "Active") as [Hhw|Hhw];
      [ destruct (String.eqb_spec (SMIClockEventReasons.HWThermalSlowdown cer) "Active")
          as [Hth|Hth];
        destruct (String.eqb_spec (SMIClockEventReasons.HWPowerBrakeSlowdown cer) "Active")
          as [Hpb|Hpb] | ];
      cbn; split;
        try (intros _; exists cer; split; [reflexivity|]; split; [assumption|]; tauto);
        try discriminate;
        try (intros Hx; now elim Hx);
        intros [cer' [[= <-] [Hx [Hy|Hy]]]]; congruence.
    + cbn. split; [intros Hx; now elim Hx|]. intros [cer [Hx _]]. discriminate Hx.
  - intros cer Hc Hhw. rewrite Hc. apply String.eqb_eq in Hhw. rewrite Hhw.
    rewrite elems_nilIfEmpty, !elems_appendIf. reflexivity.
Qed.

Lemma hw_slowdown_reports_witness :
  elems (NvidiaSMIGPU.FindHWSlowdownErrs gpuBrakeSample)
  = ["GPU 00000000:53:00.0: ClockEventReasons.HWSlowdown.PowerBrakeSlowdown Active"].
Proof.
  apply (proj2 (hw_slowdown_reports_only_active_subflags gpuBrakeSample)
               (SMIClockEventReasons.mk "Not Active" "Not Active" "Active"
                                        "Not Active" "Active"));
    reflexivity.
Defined.

Lemma collect_elems (scan : NvidiaSMIGPU.t -> slice string)
      (gpus : list NvidiaSMIGPU.t) (rs : slice string) :
  elems (collect scan gpus rs)
  = List.app (elems rs) (flat_map (fun g => elems (scan g)) gpus).
Proof.
  unfold collect. revert rs. induction gpus as [|g gpus IH]; intros rs; cbn [fold_left flat_map].
  - now rewrite app_nil_r.
  - rewrite IH. destruct (slice_len (scan g) =? 0)%nat eqn:Hl.
    + apply Nat.eqb_eq in Hl. rewrite slice_len_elems in Hl.
      apply length_zero_iff_nil in Hl. now rewrite Hl.
    + now rewrite elems_append, app_assoc.
Qed.

(** X9.  The document-level hardware-slowdown scan is the concatenation,
    in device order, of the per-device scans. *)
Theorem document_hw_slowdown_concatenates (o : SMIOutput.t) :
  elems (SMIOutput.FindHWSlowdownErrs o)
  = flat_map (fun g => elems (NvidiaSMIGPU.FindHWSlowdownErrs g)) (SMIOutput.GPUs o).
Proof.
  unfold SMIOutput.FindHWSlowdownErrs.
  rewrite elems_nilIfEmpty, collect_elems. cbn [elems List.app].
  induction (SMIOutput.GPUs o) as [|g gpus IH]; [reflexivity|].
  cbn [flat_map]. rewrite IH. f_equal.
  unfold NvidiaSMIGPU.FindHWSlowdownErrs.
  now destruct (NvidiaSMIGPU.ClockEventReasons g).
Qed.

Lemma FindGPUErrs_elems (o : SMIOutput.t) :
  elems (SMIOutput.FindGPUErrs o)
  = List.concat
      [ flat_map (fun g => elems (NvidiaSMIGPU.FindErrs g)) (SMIOutput.GPUs o);
        match SMIOutput.SummaryFailure o with
        | Some failure => [Error failure]
        | None => elems (FindSummaryErr (SMIOutput.Summary o))
        end;
        countMismatch o ].
Proof.
  unfold SMIOutput.FindGPUErrs, countMismatch.
  rewrite elems_nilIfEmpty, elems_appendIf. cbn [List.concat]. rewrite app_nil_r, app_assoc.
  f_equal.
  - destruct (SMIOutput.SummaryFailure o) as [failure|].
    + now rewrite elems_append1, collect_elems.
    + destruct (0 <? slice_len (FindSummaryErr (SMIOutput.Summary o)))%nat eqn:Hl.
      * now rewrite elems_append, collect_elems.
      * apply Nat.ltb_ge in Hl. rewrite slice_len_elems in Hl.
        assert (Hnil : elems (FindSummaryErr (SMIOutput.Summary o)) = []).
        { destruct (elems (FindSummaryErr (SMIOutput.Summary o))); [reflexivity|].
          cbn in Hl. lia. }
        now rewrite Hnil, app_nil_r, collect_elems.
  - now destruct (SMIOutput.AttachedGPUs o =? Z.of_nat (List.length (SMIOutput.GPUs o))).
Qed.

(** X10.  The document-level scan returns, in this order: the anomalies
    of every device in device order; then the summary failure if the
    summary could not be acquired, otherwise the matches in the summary
    text (never both); then the device-count mismatch if the declared
    count differs from the number of device records. *)
Theorem document_scan_composition (o : SMIOutput.t) :
  elems (SMIOutput.FindGPUErrs o)
  = List.concat
      [ flat_map (fun g => elems (NvidiaSMIGPU.FindErrs g)) (SMIOutput.GPUs o);
        match SMIOutput.SummaryFailure o with
        | Some failure => [Error failure]
        | None => elems (FindSummaryErr (SMIOutput.Summary o))
        end;
        countMismatch o ].
Proof. apply FindGPUErrs_elems. Qed.


(** ** The summary scan *)






(** ** Shapes of the decoder's result *)

Lemma length_omap_le {A B} (f : A -> option B) (l : list A) :
  (List.length (omap f l) <= List.length l)%nat.
Proof.
  induction l as [|x l IH]; cbn; [lia|].
  destruct (f x); cbn; lia.
Qed.

Lemma ParseSMIQueryOutput_shapes `{YAML} (b : string) :
  match ParseSMIQueryOutput b with
  | (None, None) => False
  | (None, Some _) => True
  | (Some doc, Some _) => SMIOutput.GPUs doc = [] /\ SMIOutput.Raw doc = ""
  | (Some doc, None) =>
      SMIOutput.Raw doc = b /\ (List.length (SMIOutput.GPUs doc) <= 8)%nat /\
      SMIOutput.Summary doc = "" /\ SMIOutput.SummaryFailure doc = None
  end.
Proof.
  unfold ParseSMIQueryOutput.
  destruct (Unmarshal_raw (processedOutput b)) as [raw [err|]].
  - destruct (Unmarshal_fallback (headerText (processedOutput b))) as [fb [rerr|]];
      [exact I | now split].
  - cbn [SMIOutput.Raw SMIOutput.GPUs SMIOutput.Summary SMIOutput.SummaryFailure].
    split; [reflexivity|]. split; [|now split].
    rewrite length_map. unfold flattenSlots.
    etransitivity; [apply length_omap_le | cbn; lia].
Qed.

(** X12.  ParseSMIQueryOutput never returns neither a document nor an
    error.  A document that comes with an error is the header-only
    fallback (no device records, no raw text); a document without error
    carries the input as raw text and at most eight device records. *)
Theorem decoder_result_shapes `{YAML} (b : string) :
  match ParseSMIQueryOutput b with
  | (None, None) => False
  | (None, Some _) => True
  | (Some doc, Some _) => SMIOutput.GPUs doc = [] /\ SMIOutput.Raw doc = ""
  | (Some doc, None) =>
      SMIOutput.Raw doc = b /\ (List.length (SMIOutput.GPUs doc) <= 8)%nat /\
      SMIOutput.Summary doc = "" /\ SMIOutput.SummaryFailure doc = None
  end.
Proof. apply ParseSMIQueryOutput_shapes. Qed.




(** X14.  The header-only fallback document and the document-level scan:
    since the fallback keeps the declared device count but no device
    record, the scan reports exactly the count mismatch when the header
    declares at least one device, and nothing when it declares none; the
    slowdown scan reports nothing. *)
Theorem fallback_document_reports_count_mismatch `{YAML} (b : string)
        (raw : rawSMIQueryOutput.t) (err : error) (fb : smiQueryOutputFallback.t) :
  Unmarshal_raw (processedOutput b) = (raw, Some err) ->
  Unmarshal_fallback (headerText (processedOutput b)) = (fb, None) ->
  exists doc,
    ParseSMIQueryOutput b = (Some doc, Some err) /\
    elems (SMIOutput.FindGPUErrs doc)
      = (if smiQueryOutputFallback.AttachedGPUs fb =? 0 then []
         else ["AttachedGPUs " ++ Itoa (smiQueryOutputFallback.AttachedGPUs fb)
                 ++ " != GPUs 0"]) /\
    SMIOutput.FindHWSlowdownErrs doc = None.
Proof.
  intros Hraw Hfb. unfold ParseSMIQueryOutput. rewrite Hraw, Hfb.
  eexists. split; [reflexivity|]. split; [|reflexivity].
  rewrite FindGPUErrs_elems. unfold countMismatch.
  cbn [SMIOutput.GPUs SMIOutput.SummaryFailure SMIOutput.Summary SMIOutput.AttachedGPUs
       flat_map List.concat List.length Z.of_nat List.app].
  change (elems (FindSummaryErr "")) with (@nil string). cbn [List.app].
  rewrite app_nil_r. reflexivity.
Qed.

Lemma fallback_document_reports_witness :
  exists doc,
    ParseSMIQueryOutput (H := flatYAML) sampleQuery
      = (Some doc, Some (libError "yaml" "did not find expected key")) /\
    elems (SMIOutput.FindGPUErrs doc) = ["AttachedGPUs 1 != GPUs 0"] /\
    SMIOutput.FindHWSlowdownErrs doc = None.
Proof.
  refine (fallback_document_reports_count_mismatch (H := flatYAML) sampleQuery
            (fst (Unmarshal_raw (processedOutput sampleQuery)))
            (libError "yaml" "did not find expected key")
            (smiQueryOutputFallback.mk "Thu Mar 14 09:00:03 2024"
               "535.129.03" "12.2" 1) _ _).
  - vm_compute. reflexivity.
  - vm_compute. reflexivity.
Defined.

(** ** The line-rewriting pass *)

Lemma Contains_colon (s : string) : Contains s ":" = hasByte ":" s.
Proof.
  unfold Contains. induction s as [|x s IH]; [reflexivity|].
  cbn [Index hasByte String.prefix].
  destruct (ascii_dec ":" x) as [<-|Hne].
  - now destruct s.
  - assert (Hx : Ascii.eqb x ":" = false).
    { apply Ascii.eqb_neq. congruence. }
    rewrite Hx. cbn [orb]. rewrite <- IH. now destruct (Index s ":").
Qed.

Lemma hasByte_app (c : ascii) (a b : string) :
  hasByte c (a ++ b) = hasByte c a || hasByte c b.
Proof.
  induction a as [|x a IH]; [reflexivity|].
  change (String x a ++ b) with (String x (a ++ b)). cbn [hasByte].
  now rewrite IH, orb_assoc.
Qed.

Lemma hasByte_TrimLeft (s : string) : hasByte ":" (TrimLeft s) = hasByte ":" s.
Proof.
  induction s as [|x s IH]; [reflexivity|]. cbn [TrimLeft].
  destruct (isSpace x) eqn:Hsp; [|reflexivity].
  rewrite IH. cbn [hasByte].
  destruct (Ascii.eqb_spec x ":") as [->|]; [discriminate Hsp | reflexivity].
Qed.

Lemma hasByte_TrimRight (s : string) : hasByte ":" (TrimRight s) = hasByte ":" s.
Proof.
  induction s as [|x s IH]; [reflexivity|]. cbn [TrimRight hasByte].
  rewrite <- IH. destruct (TrimRight s) as [|y t].
  - destruct (isSpace x) eqn:Hsp; cbn [hasByte]; [|now rewrite orb_false_r].
    destruct (Ascii.eqb_spec x ":") as [->|]; [discriminate Hsp | reflexivity].
  - reflexivity.
Qed.

Lemma hasByte_TrimSpace (s : string) : hasByte ":" (TrimSpace s) = hasByte ":" s.
Proof. unfold TrimSpace. now rewrite hasByte_TrimRight, hasByte_TrimLeft. Qed.

Lemma hasByte_Repeat_space (n : nat) : hasByte ":" (Repeat " " n) = false.
Proof.
  induction n as [|n IH]; [reflexivity|].
  cbn [Repeat]. now rewrite hasByte_app, IH.
Qed.

Lemma substring_skip (n : nat) (s : string) :
  s = String.substring 0 n s ++ skip n s.
Proof.
  revert s. induction n as [|n IH]; intros s; [now destruct s|].
  destruct s as [|x s]; [reflexivity|].
  cbn [String.substring skip].
  change (String x s = String x (String.substring 0 n s ++ skip n s)).
  f_equal. apply IH.
Qed.

Lemma HasSuffix_colon (s : string) : HasSuffix s ":" = true -> hasByte ":" s = true.
Proof.
  unfold HasSuffix. intros Hs. apply andb_prop in Hs. destruct Hs as [_ Hs].
  apply String.eqb_eq in Hs.
  rewrite (substring_skip (len s - len ":") s), hasByte_app, Hs.
  apply orb_true_r.
Qed.

Lemma hasByte_Replace1 (s : string) :
  hasByte ":" (Replace1 s "None" "null") = hasByte ":" s.
Proof.
  unfold Replace1. destruct (Cut s "None") as [[before after]|] eqn:Hc; [|reflexivity].
  destruct (Cut_some s "None" before after ltac:(discriminate) Hc) as [Hs _].
  rewrite Hs, !hasByte_app. reflexivity.
Qed.

Lemma idLine_colon (n : nat) (prev : string) :
  hasByte ":" (Repeat " " n ++ "ID: " ++ prev) = true.
Proof. rewrite !hasByte_app, hasByte_Repeat_space. reflexivity. Qed.

Lemma idLine_nonempty (n : nat) (prev : string) :
  String.eqb (Repeat " " n ++ "ID: " ++ prev) "" = false.
Proof.
  apply String.eqb_neq. intros Heq.
  pose proof (idLine_colon n prev) as Hc. rewrite Heq in Hc. discriminate Hc.
Qed.

(** What one kept line adds to the rewritten text: the pending
    identifier line, if any, and the rewritten line. *)
Lemma rewriteLine_kept (st : rewriteState) (line : string) :
  kept line = true ->
  exists line',
    processedLines (rewriteLine st line)
      = List.app (processedLines st)
          (List.app (if String.eqb (prevGPUID st) "" then []
                     else [Repeat " " (indentOf line) ++ "ID: " ++ prevGPUID st])
                    [line']) /\
    (hasByte ":" line' = true) /\
    (HasPrefix line "GPU 00000" = true ->
     line' = "GPU" ++ Itoa (gpuCursor st) ++ ":" /\
     prevGPUID (rewriteLine st line) = line /\
     gpuCursor (rewriteLine st line) = gpuCursor st + 1) /\
    (HasPrefix line "GPU 00000" = false ->
     prevGPUID (rewriteLine st line) = "" /\
     gpuCursor (rewriteLine st line) = gpuCursor st).
Proof.
  unfold kept. intros Hk. apply andb_prop in Hk. destruct Hk as [Hlen Hban].
  apply negb_true_iff in Hlen. apply negb_true_iff in Hban.
  unfold rewriteLine. rewrite Hlen, Hban.
  assert (Hid : (if negb (String.eqb
                     (if negb (String.eqb (prevGPUID st) "")
                      then Repeat " " (indentOf line) ++ "ID: " ++ prevGPUID st
                      else "") "")
                 then List.app (processedLines st)
                        [if negb (String.eqb (prevGPUID st) "")
                         then Repeat " " (indentOf line) ++ "ID: " ++ prevGPUID st
                         else ""]
                 else processedLines st)
                = List.app (processedLines st)
                    (if String.eqb (prevGPUID st) "" then []
                     else [Repeat " " (indentOf line) ++ "ID: " ++ prevGPUID st])).
  { destruct (String.eqb (prevGPUID st) ""); cbn [negb].
    - now rewrite app_nil_r.
    - now rewrite idLine_nonempty. }
  destruct (HasPrefix line "GPU 00000") eqn:Hgpu.
  - eexists. cbn [processedLines prevGPUID gpuCursor]. rewrite Hid, <- app_assoc.
    split; [reflexivity|]. split.
    + rewrite !hasByte_app. cbn. now rewrite orb_true_r.
    + split; [now intros _ | discriminate].
  - destruct (negb (HasSuffix line ":") && negb (Contains line ":")) eqn:Hc2.
    + eexists. cbn [processedLines prevGPUID gpuCursor]. rewrite Hid, <- app_assoc.
      split; [reflexivity|]. split.
      * rewrite hasByte_app. cbn. apply orb_true_r.
      * split; [discriminate | now intros _].
    + assert (Hcolon : hasByte ":" line = true).
      { apply andb_false_iff in Hc2. destruct Hc2 as [Hc2|Hc2];
          apply negb_false_iff in Hc2.
        - now apply HasSuffix_colon.
        - now rewrite <- Contains_colon. }
      destruct (HasSuffix (TrimSpace line) "None").
      * eexists. cbn [processedLines prevGPUID gpuCursor]. rewrite Hid, <- app_assoc.
        split; [reflexivity|]. split.
        -- now rewrite hasByte_Replace1.
        -- split; [discriminate | now intros _].
      * destruct (HasPrefix (getKey (List.last (processedLines st) "")) "HW Slowdown"
                  || HasPrefix (getKey (List.last (processedLines st) ""))
                       "HW Thermal Slowdown"
                  || isProcessKey (getKey (List.last (processedLines st) ""))).
        -- eexists. cbn [processedLines prevGPUID gpuCursor]. rewrite Hid, <- app_assoc.
           split; [reflexivity|]. split.
           ++ rewrite hasByte_app, hasByte_TrimSpace, Hcolon. apply orb_true_r.
           ++ split; [discriminate | now intros _].
        -- eexists. cbn [processedLines prevGPUID gpuCursor]. rewrite Hid, <- app_assoc.
           split; [reflexivity|]. split; [exact Hcolon|].
           split; [discriminate | now intros _].
Qed.

Lemma rewriteLine_dropped (st : rewriteState) (line : string) :
  kept line = false -> rewriteLine st line = st.
Proof.
  unfold kept, rewriteLine. intros Hk.
  destruct (len line =? 0)%nat; [reflexivity|].
  destruct (Contains line "===" || Contains line "NVSMI LOG"); [reflexivity|].
  discriminate Hk.
Qed.

Lemma rewrite_colons (lines : list string) (st : rewriteState) :
  Forall (fun l => Contains l ":" = true) (processedLines st) ->
  Forall (fun l => Contains l ":" = true)
         (processedLines (fold_left rewriteLine lines st)).
Proof.
  revert st. induction lines as [|line lines IH]; intros st Hst; [exact Hst|].
  cbn [fold_left]. apply IH.
  destruct (kept line) eqn:Hk; [|now rewrite rewriteLine_dropped].
  destruct (rewriteLine_kept st line Hk) as [line' [Heq [Hc _]]].
  rewrite Heq. apply Forall_app. split; [exact Hst|].
  apply Forall_app. split.
  - destruct (String.eqb (prevGPUID st) ""); constructor; [|constructor].
    rewrite Contains_colon. apply idLine_colon.
  - constructor; [|constructor]. now rewrite Contains_colon.
Qed.

(** X15.  Whatever the input, every line of the rewritten text holds a
    colon: section headers get one appended, device lines become
    "GPU<N>:", and the other rewrites keep the colon of the line. *)
Theorem rewritten_lines_are_keyed (b : string) :
  Forall (fun l => Contains l ":" = true)
         (processedLines (fold_left rewriteLine (Split b LF) rewriteStart)).
Proof. apply rewrite_colons. constructor. Qed.

Lemma fold_left_snoc {A B} (f : A -> B -> A) (l : list B) (x : B) (a : A) :
  fold_left f (List.app l [x]) a = f (fold_left f l a) x.
Proof. now rewrite fold_left_app. Qed.

Lemma gpuCursor_counts (lines : list string) (st : rewriteState) :
  gpuCursor (fold_left rewriteLine lines st)
  = gpuCursor st + Z.of_nat (List.length (List.filter deviceLine lines)).
Proof.
  revert st. induction lines as [|line lines IH]; intros st; cbn [fold_left List.filter].
  - cbn. lia.
  - rewrite IH. unfold deviceLine at 2.
    destruct (kept line) eqn:Hk.
    + destruct (rewriteLine_kept st line Hk) as [line' [_ [_ [Hdev Hother]]]].
      destruct (HasPrefix line "GPU 00000").
      * destruct (Hdev eq_refl) as [_ [_ ->]]. cbn [andb List.length]. lia.
      * destruct (Hother eq_refl) as [_ ->]. cbn [andb]. lia.
    + rewrite (rewriteLine_dropped st line Hk). cbn [andb]. lia.
Qed.

(** X16.  The synthetic device keys are numbered by device-block lines
    only: a device-block line ("GPU 00000...") that has k device-block
    lines before it is rewritten to "GPU<k>:", whatever other lines lie
    in between, and the counter ends at the number of device-block
    lines. *)
Theorem device_keys_count_device_lines (pre : list string) (line : string) :
  deviceLine line = true ->
  List.last (processedLines (fold_left rewriteLine (List.app pre [line]) rewriteStart)) ""
    = "GPU" ++ Itoa (Z.of_nat (List.length (List.filter deviceLine pre))) ++ ":" /\
  gpuCursor (fold_left rewriteLine (List.app pre [line]) rewriteStart)
    = Z.of_nat (List.length (List.filter deviceLine pre)) + 1.
Proof.
  unfold deviceLine. intros Hd. apply andb_prop in Hd. destruct Hd as [Hk Hp].
  rewrite fold_left_snoc.
  destruct (rewriteLine_kept (fold_left rewriteLine pre rewriteStart) line Hk)
    as [line' [Heq [_ [Hdev _]]]].
  destruct (Hdev Hp) as [-> [_ Hcur]].
  rewrite Heq, Hcur, gpuCursor_counts. cbn [gpuCursor rewriteStart].
  split; [|reflexivity].
  rewrite app_assoc, last_last. reflexivity.
Qed.

Lemma device_keys_witness :
  List.last (processedLines
               (fold_left rewriteLine
                  (List.app ["Timestamp : now"; ""; "Attached GPUs : 2";
                             "GPU 00000000:53:00.0"; "    Product Name : H100"]
                            ["GPU 00000000:64:00.0"])
                  rewriteStart)) ""
  = "GPU1:".
Proof.
  apply (proj1 (device_keys_count_device_lines
                  ["Timestamp : now"; ""; "Attached GPUs : 2";
                   "GPU 00000000:53:00.0"; "    Product Name : H100"]
                  "GPU 00000000:64:00.0" eq_refl)).
Defined.




(** ** GetSMIOutput *)

Lemma GetSMIOutput_cases `{YAML} (queryRun summaryRun : string * option error) :
  (exists e, GetSMIOutput queryRun summaryRun = Some (None, Some e)) \/
  (exists doc,
      snd queryRun = None /\
      ParseSMIQueryOutput (fst queryRun) = (Some doc, None) /\
      ((exists e, snd summaryRun = Some e /\
                  Contains (Error e) "Unknown Error" = true /\
                  GetSMIOutput queryRun summaryRun
                    = Some (Some (withSummary doc "" (Some e)), None)) \/
       (snd summaryRun = None /\
        Contains (fst summaryRun) "Unknown Error" = true /\
        GetSMIOutput queryRun summaryRun
          = Some (Some (withSummary doc "" (Some (errors_New (fst summaryRun)))), None)) \/
       (snd summaryRun = None /\
        Contains (fst summaryRun) "Unknown Error" = false /\
        GetSMIOutput queryRun summaryRun
          = Some (Some (withSummary doc (fst summaryRun) None), None)))).
Proof.
  destruct queryRun as [qb [qe|]]; [left; now exists qe|].
  destruct summaryRun as [sb se]. unfold GetSMIOutput. cbn [fst snd].
  pose proof (ParseSMIQueryOutput_shapes qb) as Hshape.
  destruct (ParseSMIQueryOutput qb) as [[doc|] [e|]];
    [left; now exists e | | left; now exists e | destruct Hshape].
  destruct Hshape as [_ [_ [Hsum Hfail]]].
  destruct se as [e|].
  - destruct (Contains (Error e) "Unknown Error") eqn:Hc; [|left; now exists e].
    right. exists doc. split; [reflexivity|]. split; [reflexivity|].
    left. exists e. rewrite Hsum. now repeat split.
  - right. exists doc. split; [reflexivity|]. split; [reflexivity|]. right.
    destruct (Contains sb "Unknown Error") eqn:Hc; [left | right];
      rewrite ?Hsum, ?Hfail; now repeat split.
Qed.

(** X18.  GetSMIOutput never dereferences a nil document, and returns
    either a document or an error, never both and never neither.  In
    particular a decode error drops the header-only fallback document:
    the caller gets the error alone.  In a returned document the summary
    text and the summary failure are never both set. *)
Theorem smi_output_is_document_or_error `{YAML} (queryRun summaryRun : string * option error) :
  (exists r, GetSMIOutput queryRun summaryRun = Some r /\
             match r with
             | (Some o, None) =>
                 SMIOutput.Summary o = "" \/ SMIOutput.SummaryFailure o = None
             | (None, Some _) => True
             | _ => False
             end) /\
  (forall e, snd queryRun = None ->
             snd (ParseSMIQueryOutput (fst queryRun)) = Some e ->
             GetSMIOutput queryRun summaryRun = Some (None, Some e)).
Proof.
  split.
  - destruct (GetSMIOutput_cases queryRun summaryRun)
      as [[e He] | [doc [_ [_ [[e [_ [_ He]]] | [[_ [_ He]] | [_ [_ He]]]]]]]];
      rewrite He; eexists; (split; [reflexivity|]); cbn; tauto.
  - intros e Hq Hp. destruct queryRun as [qb qe]. cbn in Hq, Hp. subst qe.
    unfold GetSMIOutput.
    destruct (ParseSMIQueryOutput qb) as [o [e'|]]; cbn in Hp; [|discriminate].
    now injection Hp as ->.
Qed.

Lemma smi_output_witness :
  GetSMIOutput (H := flatYAML) (sampleQuery, None) ("No devices were found", None)
  = Some (None, Some (libError "yaml" "did not find expected key")).
Proof.
  apply (proj2 (smi_output_is_document_or_error (H := flatYAML)
                  (sampleQuery, None) ("No devices were found", None))).
  - reflexivity.
  - vm_compute. reflexivity.
Defined.

(** X19.  GetSMIOutput followed by the document-level scan: when the
    summary run fails with, or prints, "Unknown Error", the returned
    document makes FindGPUErrs report that failure text; otherwise the
    summary text is scanned for "ERR!" lines. *)
Theorem summary_failure_reaches_the_scan `{YAML}
        (queryRun summaryRun : string * option error) (o : SMIOutput.t) :
  GetSMIOutput queryRun summaryRun = Some (Some o, None) ->
  exists doc,
    ParseSMIQueryOutput (fst queryRun) = (Some doc, None) /\
    elems (SMIOutput.FindGPUErrs o)
    = List.concat
        [ flat_map (fun g => elems (NvidiaSMIGPU.FindErrs g)) (SMIOutput.GPUs doc);
          match snd summaryRun with
          | Some e => [Error e]
          | None =>
              if Contains (fst summaryRun) "Unknown Error" then [fst summaryRun]
              else elems (FindSummaryErr (fst summaryRun))
          end;
          countMismatch doc ].
Proof.
  intros Hget.
  destruct (GetSMIOutput_cases queryRun summaryRun)
    as [[e He] | [doc [_ [Hp [[e [Hs [Hc He]]] | [[Hs [Hc He]] | [Hs [Hc He]]]]]]]];
    rewrite He in Hget; try discriminate; injection Hget as <-;
    exists doc; (split; [exact Hp|]);
    rewrite FindGPUErrs_elems, Hs, ?Hc; reflexivity.
Qed.

Lemma summary_failure_witness :
  exists doc,
    ParseSMIQueryOutput (H := cannedYAML sampleRaw) sampleQuery = (Some doc, None) /\
    elems (SMIOutput.FindGPUErrs
             (withSummary sampleDoc ""
                (Some (errors_New "Unable to determine the device handle: Unknown Error"))))
    = List.concat
        [ flat_map (fun g => elems (NvidiaSMIGPU.FindErrs g)) (SMIOutput.GPUs doc);
          ["Unable to determine the device handle: Unknown Error"];
          countMismatch doc ].
Proof.
  exact (summary_failure_reaches_the_scan (H := cannedYAML sampleRaw)
           (sampleQuery, None)
           ("Unable to determine the device handle: Unknown Error", None)
           (withSummary sampleDoc ""
              (Some (errors_New "Unable to determine the device handle: Unknown Error")))
           eq_refl).
Defined.

(** ** The temperature component *)






(* ===================================================================== *)
(** * Further properties of the device monitor *)
(* ===================================================================== *)

(** ** Order of identifiers *)

Lemma ascii_compare_lt_trans (a b c : ascii) :
  Ascii.compare a b = Lt -> Ascii.compare b c = Lt -> Ascii.compare a c = Lt.
Proof.
  unfold Ascii.compare. rewrite !N.compare_lt_iff. lia.
Qed.

Lemma ascii_compare_refl (a : ascii) : Ascii.compare a a = Eq.
Proof. unfold Ascii.compare. apply N.compare_refl. Qed.

Lemma string_compare_lt_trans (a b c : string) :
  String.compare a b = Lt -> String.compare b c = Lt -> String.compare a c = Lt.
Proof.
  revert b c. induction a as [|x a IH]; intros [|y b] [|z c]; cbn [String.compare];
    try discriminate; try reflexivity.
  destruct (Ascii.compare x y) eqn:Hxy; try discriminate;
    destruct (Ascii.compare y z) eqn:Hyz; try discriminate.
  - apply Ascii.compare_eq_iff in Hxy. apply Ascii.compare_eq_iff in Hyz. subst.
    rewrite ascii_compare_refl. apply IH.
  - apply Ascii.compare_eq_iff in Hxy. subst. now rewrite Hyz.
  - apply Ascii.compare_eq_iff in Hyz. subst. now rewrite Hxy.
  - now rewrite (ascii_compare_lt_trans x y z Hxy Hyz).
Qed.

Lemma string_compare_refl (a : string) : String.compare a a = Eq.
Proof.
  induction a as [|x a IH]; [reflexivity|].
  cbn [String.compare]. now rewrite ascii_compare_refl.
Qed.

(** not (b < a), the order the sorted list keeps between neighbours, is
    transitive, and two identifiers neither of which is below the other
    are equal. *)
Lemma notlt_trans (a b c : string) :
  String.ltb b a = false -> String.ltb c b = false -> String.ltb c a = false.
Proof.
  unfold String.ltb.
  rewrite (String.compare_antisym b a), (String.compare_antisym c b),
    (String.compare_antisym c a).
  destruct (String.compare a b) eqn:Hab; cbn; try discriminate; intros _;
    destruct (String.compare b c) eqn:Hbc; cbn; try discriminate; intros _.
  - apply String.compare_eq_iff in Hab. subst. now rewrite Hbc.
  - apply String.compare_eq_iff in Hab. subst. now rewrite Hbc.
  - apply String.compare_eq_iff in Hbc. subst. now rewrite Hab.
  - now rewrite (string_compare_lt_trans a b c Hab Hbc).
Qed.

Lemma notlt_antisym (a b : string) :
  String.ltb a b = false -> String.ltb b a = false -> a = b.
Proof.
  unfold String.ltb. rewrite (String.compare_antisym b a).
  destruct (String.compare a b) eqn:Hab; cbn; try discriminate.
  intros _ _. now apply String.compare_eq_iff.
Qed.

Section MonitorExtras.
Context `{nvml.Library}.

Lemma ordered_trans (a b c : nvml.DeviceInfo) :
  uuidOrdered a b -> uuidOrdered b c -> uuidOrdered a c.
Proof. unfold uuidOrdered, nvml.less. apply notlt_trans. Qed.

Lemma sorted_strongly (l : list nvml.DeviceInfo) :
  nvml.sortedByUUID l -> StronglySorted uuidOrdered l.
Proof.
  unfold nvml.sortedByUUID. intros Hs.
  apply Sorted_StronglySorted; [|exact Hs].
  intros a b c. apply ordered_trans.
Qed.

Lemma sorted_permutation_unique (l1 l2 : list nvml.DeviceInfo) :
  StronglySorted uuidOrdered l1 -> StronglySorted uuidOrdered l2 ->
  Permutation l1 l2 -> List.NoDup (map nvml.UUID l1) -> l1 = l2.
Proof.
  revert l2. induction l1 as [|x l1 IH]; intros l2 Hs1 Hs2 Hperm Hnd.
  - apply Permutation_nil in Hperm. now subst.
  - destruct l2 as [|y l2].
    { apply Permutation_sym, Permutation_nil in Hperm. discriminate Hperm. }
    inversion Hs1 as [|? ? Hs1' Hx]; subst.
    inversion Hs2 as [|? ? Hs2' Hy]; subst.
    cbn [map] in Hnd. inversion Hnd as [|? ? Hnotin Hnd']; subst.
    assert (Hxy : x = y).
    { assert (Hinx : In x (y :: l2)) by (eapply Permutation_in; [exact Hperm | now left]).
      assert (Hiny : In y (x :: l1))
        by (eapply Permutation_in; [apply Permutation_sym; exact Hperm | now left]).
      destruct Hinx as [Heq | Hinx]; [now symmetry|].
      destruct Hiny as [Heq | Hiny]; [exact Heq|].
      exfalso. apply Hnotin.
      rewrite List.Forall_forall in Hx, Hy.
      pose proof (Hx y Hiny) as Hxley. pose proof (Hy x Hinx) as Hylex.
      unfold uuidOrdered, nvml.less in Hxley, Hylex.
      rewrite (notlt_antisym _ _ Hylex Hxley).
      now apply in_map. }
    subst y. f_equal. apply IH; try assumption.
    now apply Permutation_cons_inv in Hperm.
Qed.

Lemma snapshot_ok (order acc : list nvml.DeviceInfo) :
  Forall (fun d => snd (nvml.queryDevice d) = None) order ->
  nvml.snapshot order acc
  = (List.app acc (map (fun d => fst (nvml.queryDevice d)) order), None).
Proof.
  revert acc. induction order as [|d order IH]; intros acc Hall; cbn [nvml.snapshot map].
  - now rewrite app_nil_r.
  - inversion Hall as [|? ? Hd Hrest]; subst.
    destruct (nvml.queryDevice d) as [l e]. cbn in Hd. subst e.
    rewrite (IH _ Hrest), <- app_assoc. reflexivity.
Qed.

Lemma snapshot_result (order acc infos : list nvml.DeviceInfo) (err : option error) :
  nvml.snapshot order acc = (infos, err) ->
  match err with
  | None =>
      Forall (fun d => snd (nvml.queryDevice d) = None) order /\
      infos = List.app acc (map (fun d => fst (nvml.queryDevice d)) order)
  | Some e =>
      exists pre d post,
        order = List.app pre (d :: post) /\
        Forall (fun d => snd (nvml.queryDevice d) = None) pre /\
        snd (nvml.queryDevice d) = Some e /\
        infos = List.app acc (map (fun d => fst (nvml.queryDevice d)) (List.app pre [d]))
  end.
Proof.
  revert acc. induction order as [|d order IH]; intros acc; cbn [nvml.snapshot].
  - intros [= <- <-]. split; [constructor | now rewrite app_nil_r].
  - destruct (nvml.queryDevice d) as [l [e|]] eqn:Hq.
    + intros [= <- <-]. exists [], d, order. cbn. rewrite Hq. repeat split. constructor.
    + intros Hs. specialize (IH _ Hs). destruct err as [e|].
      * destruct IH as [pre [d' [post [-> [Hpre [Hd' ->]]]]]].
        exists (d :: pre), d', post. split; [reflexivity|]. split.
        -- constructor; [now rewrite Hq | exact Hpre].
        -- split; [exact Hd'|]. cbn [List.app map]. rewrite Hq, <- app_assoc. reflexivity.
      * destruct IH as [Hall ->]. split.
        -- constructor; [now rewrite Hq | exact Hall].
        -- cbn [map]. rewrite Hq, <- app_assoc. reflexivity.
Qed.

(** X21.  When a query fails, Get returns the error of the first failing
    device in iteration order together with exactly the devices visited
    so far: the fully queried ones before it and, last, the failing
    device's partly filled entry; devices after it are neither queried
    nor listed. *)
Theorem Get_partial_result_is_visited_prefix (inst : nvml.instance)
        (order : list nvml.DeviceInfo) (out : nvml.Output) (e : error) :
  nvml.Get inst order = (Some out, Some e) ->
  exists pre d post,
    order = List.app pre (d :: post) /\
    Forall (fun d => snd (nvml.queryDevice d) = None) pre /\
    snd (nvml.queryDevice d) = Some e /\
    nvml.DeviceInfos out = map (fun d => fst (nvml.queryDevice d)) (List.app pre [d]) /\
    map nvml.UUID (nvml.DeviceInfos out) = map nvml.UUID (List.app pre [d]).
Proof.
  unfold nvml.Get.
  destruct (negb (nvml.isSet (nvml.nvmlLib inst))); [discriminate|].
  destruct (nvml.snapshot order []) as [infos [e'|]] eqn:Hs; [|discriminate].
  intros [= <- <-].
  destruct (snapshot_result _ _ _ _ Hs) as [pre [d [post [Ho [Hpre [Hd Hi]]]]]].
  exists pre, d, post. cbn [nvml.DeviceInfos List.app] in *.
  repeat split; try assumption.
  rewrite Hi, map_map. apply map_ext. intros x.
  destruct (nvml.queryDevice x) as [l err] eqn:Hq. cbn [fst].
  apply (queryDevice_UUID _ _ _ Hq).
Qed.

(** X22.  A successful snapshot does not depend on the order in which
    the device map is ranged over: for two orders of the same devices
    (with distinct identifiers, as the keys of one map are), if Get
    succeeds on one it returns the same output on the other. *)
Theorem Get_success_is_order_independent (inst : nvml.instance)
        (order1 order2 : list nvml.DeviceInfo) (out : nvml.Output) :
  List.NoDup (map nvml.UUID order1) ->
  Permutation order1 order2 ->
  nvml.Get inst order1 = (Some out, None) ->
  nvml.Get inst order2 = (Some out, None).
Proof.
  intros Hnd Hperm. unfold nvml.Get.
  destruct (negb (nvml.isSet (nvml.nvmlLib inst))); [discriminate|].
  destruct (nvml.snapshot order1 []) as [infos [e|]] eqn:Hs; [discriminate|].
  intros [= <-].
  destruct (snapshot_result _ _ _ _ Hs) as [Hall ->]. cbn [List.app].
  assert (Hall2 : Forall (fun d => snd (nvml.queryDevice d) = None) order2).
  { rewrite List.Forall_forall in *. intros d Hin. apply Hall.
    eapply Permutation_in; [apply Permutation_sym; exact Hperm | exact Hin]. }
  rewrite (snapshot_ok order2 [] Hall2). cbn [List.app].
  do 3 f_equal. symmetry.
  apply sorted_permutation_unique.
  - apply sorted_strongly, sort_Slice_sorted.
  - apply sorted_strongly, sort_Slice_sorted.
  - rewrite !sort_Slice_perm. now apply Permutation_map.
  - apply (Permutation_NoDup
             (l := map nvml.UUID (map (fun d => fst (nvml.queryDevice d)) order1))).
    + apply Permutation_map, Permutation_sym, sort_Slice_perm.
    + rewrite map_map. erewrite map_ext; [exact Hnd|].
      intros x. destruct (nvml.queryDevice x) as [l err] eqn:Hq. cbn [fst].
      apply (queryDevice_UUID _ _ _ Hq).
Qed.

End MonitorExtras.

Lemma Get_partial_result_witness :
  exists pre d post,
    [infoOf "GPU-b"; infoOf "GPU-a"] = List.app pre (d :: post) /\
    Forall (fun d => snd (nvml.queryDevice d) = None) pre /\
    snd (nvml.queryDevice d)
      = Some (fmt_Errorf "failed to get device memory: Unknown Error") /\
    nvml.DeviceInfos (nvml.mkOutput true "" [infoOf "GPU-b"; infoOf "GPU-a"])
      = map (fun d => fst (nvml.queryDevice d)) (List.app pre [d]) /\
    map nvml.UUID (nvml.DeviceInfos (nvml.mkOutput true "" [infoOf "GPU-b"; infoOf "GPU-a"]))
      = map nvml.UUID (List.app pre [d]).
Proof.
  apply (Get_partial_result_is_visited_prefix (H := monitorLibrary) startedMonitor
           [infoOf "GPU-b"; infoOf "GPU-a"]).
  vm_compute. reflexivity.
Defined.

Lemma Get_order_independent_witness :
  nvml.Get healthyMonitor [infoOf "GPU-b"; infoOf "GPU-c"]
  = (Some (nvml.mkOutput true "" [infoOf "GPU-b"; infoOf "GPU-c"]), None).
Proof.
  apply (Get_success_is_order_independent (H := monitorLibrary) healthyMonitor
           [infoOf "GPU-c"; infoOf "GPU-b"] [infoOf "GPU-b"; infoOf "GPU-c"]).
  - repeat constructor; cbn; intuition discriminate.
  - apply perm_swap.
  - vm_compute. reflexivity.
Defined.

Section LifecycleExtras.
Context `{nvml.Library}.

Lemma probe_ok (inst : nvml.instance) (d : nvml.Device) (v : nvml.DeviceInfo) :
  nvml.probe inst d = inl v ->
  nvml.UUID v = fst (nvml.GetUUID d) /\ nvml.UUID v <> "" /\
  nvml.ErrorSupported v = true /\ nvml.device v = d /\
  snd (nvml.GetUUID d) = nvml.SUCCESS /\
  nvml.RegisterEvents d (Z.land (nvml.eventMask inst)
                                (fst (nvml.GetSupportedEventTypes d))) = nvml.SUCCESS.
Proof.
  unfold nvml.probe.
  destruct (nvml.GetUUID d) as [uuid r1].
  destruct (Z.eqb_spec r1 nvml.SUCCESS) as [Hr1|]; cbn [negb]; [|discriminate].
  destruct (String.eqb_spec uuid "") as [|Hne]; [discriminate|].
  destruct (nvml.GetMinorNumber d) as [minor r2].
  destruct (negb (r2 =? nvml.SUCCESS)); [discriminate|].
  destruct (nvml.GetPciInfo d) as [pci r3].
  destruct (negb (r3 =? nvml.SUCCESS)); [discriminate|].
  destruct (nvml.GetName d) as [name r4].
  destruct (negb (r4 =? nvml.SUCCESS)); [discriminate|].
  destruct (nvml.GetNumGpuCores d) as [cores r5].
  destruct (negb (r5 =? nvml.SUCCESS)); [discriminate|].
  destruct (nvml.GetSupportedEventTypes d) as [events r6].
  destruct (negb (r6 =? nvml.SUCCESS)); [discriminate|].
  cbn [fst].
  destruct (Z.eqb_spec (nvml.RegisterEvents d (Z.land (nvml.eventMask inst) events))
                       nvml.SUCCESS) as [Hreg|]; cbn [negb]; [|discriminate].
  intros [= <-]. cbn. rewrite Hreg. now repeat split.
Qed.

Lemma enumerate_ok (inst : nvml.instance) (ds : list nvml.Device)
      (m m' : gmap string nvml.DeviceInfo) :
  nvml.enumerate inst ds m = (m', None) ->
  (forall k v, m' !! k = Some v ->
               m !! k = Some v \/
               exists d, In d ds /\ nvml.probe inst d = inl v /\ nvml.UUID v = k) /\
  (forall k, is_Some (m !! k) -> is_Some (m' !! k)) /\
  (forall d, In d ds -> is_Some (m' !! fst (nvml.GetUUID d))).
Proof.
  revert m. induction ds as [|d ds IH]; intros m; cbn [nvml.enumerate].
  - intros [= <-]. split; [now left|]. split; [tauto|]. intros d [].
  - destruct (nvml.probe inst d) as [v|e] eqn:Hp; [|discriminate].
    intros He. destruct (IH _ He) as [Hfrom [Hkeep Hall]].
    split; [|split].
    + intros k w Hw. destruct (Hfrom k w Hw) as [Hm | [d' [Hin Hd']]].
      * destruct (decide (nvml.UUID v = k)) as [<-|Hne].
        -- rewrite lookup_insert_eq in Hm. injection Hm as <-.
           right. exists d. split; [now left | now split].
        -- rewrite lookup_insert_ne in Hm by exact Hne. now left.
      * right. exists d'. split; [now right | exact Hd'].
    + intros k Hk. apply Hkeep.
      destruct (decide (nvml.UUID v = k)) as [<-|Hne].
      * rewrite lookup_insert_eq. eauto.
      * now rewrite lookup_insert_ne.
    + intros d' [<- | Hin]; [|now apply Hall].
      apply Hkeep. destruct (probe_ok inst d v Hp) as [<- _].
      rewrite lookup_insert_eq. eauto.
Qed.

(** X23.  Start launches the background loop exactly when it returns no
    error, and then exactly one more loop whatever the state was (there
    is no guard against a second Start); whether it succeeds or fails it
    leaves the library handle, the event set and the cancellation state
    as they were. *)
Theorem Start_launches_loop_only_on_success (inst inst' : nvml.instance)
        (getDevices : list nvml.Device * option error) (err : option error) :
  nvml.Start inst getDevices = (inst', err) ->
  nvml.pollers inst'
    = (match err with None => S (nvml.pollers inst) | Some _ => nvml.pollers inst end) /\
  nvml.nvmlLib inst' = nvml.nvmlLib inst /\
  nvml.eventSet inst' = nvml.eventSet inst /\
  nvml.rootCtxDone inst' = nvml.rootCtxDone inst /\
  nvml.eventMask inst' = nvml.eventMask inst.
Proof.
  unfold nvml.Start.
  destruct (negb (nvml.isSet (nvml.nvmlLib inst))); [intros [= <- <-]; now repeat split|].
  destruct (negb (nvml.nvmlExists inst)); [intros [= <- <-]; now repeat split|].
  destruct getDevices as [ds [e|]]; [intros [= <- <-]; now repeat split|].
  destruct (nvml.enumerate inst ds ∅) as [m [e|]]; intros [= <- <-]; now repeat split.
Qed.

(** X24.  After a successful Start the device map holds exactly the
    enumerated devices: every entry is keyed by its own non-empty
    identifier, wraps one of the enumerated handles, and supports error
    checks (the "not supported" downgrade is unreachable); every
    enumerated device has an entry; the previous map is discarded. *)
Theorem Start_builds_the_device_map (inst inst' : nvml.instance)
        (getDevices : list nvml.Device * option error) :
  nvml.Start inst getDevices = (inst', None) ->
  snd getDevices = None /\
  (forall k v, nvml.devices inst' !! k = Some v ->
               nvml.UUID v = k /\ k <> "" /\ nvml.ErrorSupported v = true /\
               In (nvml.device v) (fst getDevices) /\
               fst (nvml.GetUUID (nvml.device v)) = k) /\
  (forall d, In d (fst getDevices) ->
             is_Some (nvml.devices inst' !! fst (nvml.GetUUID d))).
Proof.
  unfold nvml.Start.
  destruct (negb (nvml.isSet (nvml.nvmlLib inst))); [discriminate|].
  destruct (negb (nvml.nvmlExists inst)); [discriminate|].
  destruct getDevices as [ds [e|]]; [discriminate|].
  destruct (nvml.enumerate inst ds ∅) as [m [e|]] eqn:He; [discriminate|].
  intros [= <-]. cbn [fst snd nvml.devices nvml.withDevices].
  destruct (enumerate_ok inst ds ∅ m He) as [Hfrom [_ Hall]].
  split; [reflexivity|]. split; [|exact Hall].
  intros k v Hv. destruct (Hfrom k v Hv) as [Hempty | [d [Hin [Hp Hk]]]].
  - rewrite lookup_empty in Hempty. discriminate Hempty.
  - destruct (probe_ok inst d v Hp) as [Hu [Hne [Hsup [Hdev _]]]]. subst k.
    repeat split; try assumption; rewrite Hdev; [exact Hin | now symmetry].
Qed.

Lemma Shutdown_cases (inst : nvml.instance) (freeRet shutdownRet : Z) :
  match nvml.nvmlLib inst with
  | None => nvml.Shutdown inst freeRet shutdownRet = (inst, None)
  | Some lib =>
      let cancelled :=
        nvml.mkInstance true (nvml.nvmlExists inst) (nvml.nvmlExistsMsg inst)
                        (Some lib) (nvml.devices inst) (nvml.eventSet inst)
                        (nvml.eventMask inst) (nvml.pollers inst) in
      let freed :=
        nvml.mkInstance true (nvml.nvmlExists inst) (nvml.nvmlExistsMsg inst)
                        (Some lib) (nvml.devices inst) None
                        (nvml.eventMask inst) (nvml.pollers inst) in
      let closed :=
        nvml.mkInstance true (nvml.nvmlExists inst) (nvml.nvmlExistsMsg inst)
                        None (nvml.devices inst) None
                        (nvml.eventMask inst) (nvml.pollers inst) in
      if nvml.isSet (nvml.eventSet inst) && negb (freeRet =? nvml.SUCCESS) then
        nvml.Shutdown inst freeRet shutdownRet
        = (cancelled,
           Some (fmt_Errorf ("failed to free event set: " ++ nvml.ErrorString freeRet)))
      else if negb (shutdownRet =? nvml.SUCCESS) then
        nvml.Shutdown inst freeRet shutdownRet
        = (freed,
           Some (fmt_Errorf ("failed to shutdown NVML: " ++ nvml.ErrorString shutdownRet)))
      else nvml.Shutdown inst freeRet shutdownRet = (closed, None)
  end.
Proof.
  unfold nvml.Shutdown.
  destruct (nvml.nvmlLib inst) as [lib|] eqn:Hlib; [|reflexivity].
  cbn [nvml.eventSet nvml.rootCtxDone nvml.nvmlExists nvml.nvmlExistsMsg
       nvml.nvmlLib nvml.devices nvml.eventMask nvml.pollers].
  destruct (nvml.isSet (nvml.eventSet inst) && negb (freeRet =? nvml.SUCCESS));
    [reflexivity|].
  destruct (negb (shutdownRet =? nvml.SUCCESS)); reflexivity.
Qed.

(** X25.  Shutdown returns no error exactly when it leaves the monitor
    uninitialised.  A Shutdown that fails has still cancelled the
    background loop but leaves the library handle in place, so queries
    keep being served; Shutdown never touches the device map. *)
Theorem Shutdown_outcomes (inst inst' : nvml.instance) (freeRet shutdownRet : Z)
        (err : option error) :
  nvml.Shutdown inst freeRet shutdownRet = (inst', err) ->
  (err = None <-> nvml.nvmlLib inst' = None) /\
  (err <> None ->
   nvml.rootCtxDone inst' = true /\ nvml.nvmlLib inst' = nvml.nvmlLib inst /\
   forall order,
     nvml.Get inst' order <> (None, Some (errors_New "nvml not initialized"))) /\
  nvml.devices inst' = nvml.devices inst /\
  nvml.pollers inst' = nvml.pollers inst.
Proof.
  pose proof (Shutdown_cases inst freeRet shutdownRet) as Hc.
  destruct (nvml.nvmlLib inst) as [lib|] eqn:Hlib.
  - cbv zeta in Hc.
    destruct (nvml.isSet (nvml.eventSet inst) && negb (freeRet =? nvml.SUCCESS));
      [|destruct (negb (shutdownRet =? nvml.SUCCESS))];
      rewrite Hc; intros [= <- <-]; cbn;
      (split; [split; intros Hx; try reflexivity; discriminate Hx|]);
      (split; [|now split]).
    + intros _. split; [reflexivity|]. split; [reflexivity|].
      intros order. unfold nvml.Get. cbn.
      destruct (nvml.snapshot order []) as [infos [e|]]; discriminate.
    + intros _. split; [reflexivity|]. split; [reflexivity|].
      intros order. unfold nvml.Get. cbn.
      destruct (nvml.snapshot order []) as [infos [e|]]; discriminate.
    + intros Hx. now elim Hx.
  - rewrite Hc. intros [= <- <-]. rewrite Hlib.
    split; [tauto|]. split; [intros Hx; now elim Hx | now split].
Qed.

(** X26.  The event set is freed at most once: when a Shutdown got past
    freeing it and failed only on shutting the library down, a later
    Shutdown no longer calls Free (its outcome does not depend on what
    Free would return) and succeeds as soon as the library shuts down. *)
Theorem Shutdown_retry_skips_free (inst inst' : nvml.instance)
        (freeRet shutdownRet : Z) (e : error) :
  nvml.Shutdown inst freeRet shutdownRet = (inst', Some e) ->
  nvml.eventSet inst' = None ->
  forall freeRet1 freeRet2 shutdownRet2,
    nvml.Shutdown inst' freeRet1 shutdownRet2 = nvml.Shutdown inst' freeRet2 shutdownRet2 /\
    (shutdownRet2 = nvml.SUCCESS ->
     snd (nvml.Shutdown inst' freeRet1 shutdownRet2) = None).
Proof.
  intros _ Hset f1 f2 s2.
  unfold nvml.Shutdown.
  destruct (nvml.nvmlLib inst') as [lib|]; [|split; reflexivity].
  cbn [nvml.eventSet nvml.rootCtxDone nvml.nvmlExists nvml.nvmlExistsMsg
       nvml.nvmlLib nvml.devices nvml.eventMask nvml.pollers].
  rewrite Hset. cbn [nvml.isSet andb]. split; [reflexivity|].
  intros ->. reflexivity.
Qed.

Lemma pollXidEvents_app (pre post : list nvml.iteration) :
  nvml.pollXidEvents (List.app pre post)
  = if snd (nvml.pollXidEvents pre) then nvml.pollXidEvents pre
    else (List.app (fst (nvml.pollXidEvents pre)) (fst (nvml.pollXidEvents post)),
          snd (nvml.pollXidEvents post)).
Proof.
  induction pre as [|it pre IH]; cbn [List.app nvml.pollXidEvents].
  - now destruct (nvml.pollXidEvents post).
  - destruct (nvml.pollStep it) as [|sent]; [reflexivity|].
    rewrite IH. destruct (nvml.pollXidEvents pre) as [evs [|]]; cbn [fst snd].
    + reflexivity.
    + destruct (nvml.pollXidEvents post) as [evs' ex']. cbn [fst snd].
      now destruct sent.
Qed.

Lemma pollXidEvents_bound (run : list nvml.iteration) :
  (List.length (fst (nvml.pollXidEvents run))
   <= List.length (List.filter
                     (fun it => negb (Z.eqb (nvml.waitRet it) nvml.ERROR_TIMEOUT)) run))%nat.
Proof.
  induction run as [|it run IH]; cbn [nvml.pollXidEvents List.filter]; [cbn; lia|].
  unfold nvml.pollStep.
  destruct (nvml.doneBeforeWait it); [cbn; lia|].
  destruct (nvml.waitRet it =? nvml.ERROR_TIMEOUT); cbn [negb].
  - destruct (nvml.pollXidEvents run) as [evs ex]. cbn in *. lia.
  - destruct (negb (nvml.waitRet it =? nvml.SUCCESS)); destruct (nvml.publish it);
      try (cbn; lia);
      destruct (nvml.pollXidEvents run) as [evs ex]; cbn in *; lia.
Qed.

(** X27.  The event loop along a run of its environment: once the loop
    has returned (cancellation seen before a wait or while publishing),
    nothing of what follows is waited for or published; until then the
    published events of consecutive stretches of the run simply
    concatenate.  At most one event is published per wait that does not
    time out. *)
Theorem event_loop_stops_at_cancellation (pre post : list nvml.iteration) :
  (snd (nvml.pollXidEvents pre) = true ->
   nvml.pollXidEvents (List.app pre post) = nvml.pollXidEvents pre) /\
  (snd (nvml.pollXidEvents pre) = false ->
   nvml.pollXidEvents (List.app pre post)
   = (List.app (fst (nvml.pollXidEvents pre)) (fst (nvml.pollXidEvents post)),
      snd (nvml.pollXidEvents post))) /\
  (List.length (fst (nvml.pollXidEvents pre))
   <= List.length (List.filter
                     (fun it => negb (Z.eqb (nvml.waitRet it) nvml.ERROR_TIMEOUT)) pre))%nat.
Proof.
  rewrite pollXidEvents_app.
  split; [intros ->; reflexivity|]. split; [intros ->; reflexivity|].
  apply pollXidEvents_bound.
Qed.

(** X28.  StartDefaultInstance creates the default instance at most
    once.  When NewInstance fails nothing is stored and a later call
    tries again; once an instance is stored, also when its Start failed,
    the readiness channel is closed and every later call returns no
    error without creating or starting anything.  Start is never called
    on a nil instance. *)
Theorem default_instance_is_created_once (d : defaults)
        (initRet : Z) (hasNvml : bool * string) (createRet : Z)
        (getDevices : list nvml.Device * option error) :
  exists d' err,
    StartDefaultInstance d initRet hasNvml createRet getDevices = Some (d', err) /\
    (defaultInstance d <> None -> d' = d /\ err = None) /\
    (defaultInstance d = None ->
     (defaultInstance d' = None <->
      initRet <> nvml.SUCCESS \/ createRet <> nvml.SUCCESS) /\
     (defaultInstance d' = None -> err <> None /\ readyClosed d' = readyClosed d) /\
     (defaultInstance d' <> None -> readyClosed d' = true)) /\
    (defaultInstance d' <> None ->
     forall initRet' hasNvml' createRet' getDevices',
       StartDefaultInstance d' initRet' hasNvml' createRet' getDevices'
       = Some (d', None)).
Proof.
  unfold StartDefaultInstance.
  destruct (defaultInstance d) as [inst|] eqn:Hd.
  - exists d, None. split; [reflexivity|]. split; [now intros _|].
    split; [discriminate|]. intros _ i h c g. now rewrite Hd.
  - unfold nvml.NewInstance.
    destruct (Z.eqb_spec initRet nvml.SUCCESS) as [Hi|Hi]; cbn [negb].
    + destruct (Z.eqb_spec createRet nvml.SUCCESS) as [Hc|Hc]; cbn [negb].
      * destruct (nvml.Start _ getDevices) as [inst' err].
        eexists _, err. split; [reflexivity|]. cbn [defaultInstance readyClosed].
        split; [intros Hx; now elim Hx|]. split.
        -- intros _. split; [|split]; [split | discriminate | reflexivity].
           ++ discriminate.
           ++ intros [Hx|Hx]; now elim Hx.
        -- reflexivity.
      * eexists _, _. split; [reflexivity|]. cbn [defaultInstance readyClosed].
        split; [intros Hx; now elim Hx|]. split.
        -- intros _. split; [|split].
           ++ split; [now right | reflexivity].
           ++ intros _. split; [discriminate | reflexivity].
           ++ intros Hx. now elim Hx.
        -- intros Hx. now elim Hx.
    + eexists _, _. split; [reflexivity|]. cbn [defaultInstance readyClosed].
      split; [intros Hx; now elim Hx|]. split.
      * intros _. split; [|split].
        -- split; [now left | reflexivity].
        -- intros _. split; [discriminate | reflexivity].
        -- intros Hx. now elim Hx.
      * intros Hx. now elim Hx.
Qed.

End LifecycleExtras.

Lemma Start_launches_loop_witness :
  nvml.pollers startedMonitor = 1%nat /\
  nvml.nvmlLib startedMonitor = nvml.nvmlLib freshMonitor /\
  nvml.eventSet startedMonitor = nvml.eventSet freshMonitor /\
  nvml.rootCtxDone startedMonitor = nvml.rootCtxDone freshMonitor /\
  nvml.eventMask startedMonitor = nvml.eventMask freshMonitor.
Proof.
  apply (Start_launches_loop_only_on_success (H := monitorLibrary) freshMonitor
           startedMonitor ([sampleDevice "GPU-b"; sampleDevice "GPU-a"], None) None).
  vm_compute. reflexivity.
Defined.

Lemma Start_builds_the_device_map_witness :
  is_Some (nvml.devices startedMonitor !! "GPU-a") /\
  is_Some (nvml.devices startedMonitor !! "GPU-b").
Proof.
  pose proof (Start_builds_the_device_map (H := monitorLibrary) freshMonitor
                startedMonitor ([sampleDevice "GPU-b"; sampleDevice "GPU-a"], None))
    as Hmap.
  destruct Hmap as [_ [_ Hall]]; [vm_compute; reflexivity|].
  split.
  - apply (Hall (sampleDevice "GPU-a")). right. now left.
  - apply (Hall (sampleDevice "GPU-b")). now left.
Defined.

Lemma Shutdown_outcomes_witness :
  nvml.rootCtxDone (fst (nvml.Shutdown startedMonitor 999 nvml.SUCCESS)) = true /\
  nvml.nvmlLib (fst (nvml.Shutdown startedMonitor 999 nvml.SUCCESS))
    = nvml.nvmlLib startedMonitor /\
  forall order,
    nvml.Get (fst (nvml.Shutdown startedMonitor 999 nvml.SUCCESS)) order
    <> (None, Some (errors_New "nvml not initialized")).
Proof.
  apply (proj1 (proj2 (Shutdown_outcomes (H := monitorLibrary) startedMonitor
                         (fst (nvml.Shutdown startedMonitor 999 nvml.SUCCESS))
                         999 nvml.SUCCESS
                         (Some (fmt_Errorf "failed to free event set: error 999"))
                         eq_refl))).
  discriminate.
Defined.

Lemma Shutdown_retry_witness :
  snd (nvml.Shutdown (fst (nvml.Shutdown startedMonitor nvml.SUCCESS 999))
                     999 nvml.SUCCESS) = None.
Proof.
  apply (proj2 (Shutdown_retry_skips_free (H := monitorLibrary) startedMonitor
                  (fst (nvml.Shutdown startedMonitor nvml.SUCCESS 999))
                  nvml.SUCCESS 999
                  (fmt_Errorf "failed to shutdown NVML: error 999")
                  eq_refl eq_refl 999 nvml.SUCCESS nvml.SUCCESS)).
  reflexivity.
Defined.

Lemma event_loop_stops_witness :
  nvml.pollXidEvents (List.app sampleRun sampleRun) = nvml.pollXidEvents sampleRun.
Proof.
  apply (proj1 (event_loop_stops_at_cancellation (H := monitorLibrary)
                  sampleRun sampleRun)).
  vm_compute. reflexivity.
Defined.

Lemma default_instance_witness :
  exists d' err,
    StartDefaultInstance (H := monitorLibrary) (mkDefaults None false)
      nvml.SUCCESS (false, "libnvidia-ml.so not found") nvml.SUCCESS
      ([sampleDevice "GPU-a"], None)
    = Some (d', err) /\
    err = Some (errors_New "nvml not found") /\
    readyClosed d' = true /\
    StartDefaultInstance d' nvml.SUCCESS (true, "") nvml.SUCCESS
      ([sampleDevice "GPU-a"], None)
    = Some (d', None).
Proof.
  destruct (default_instance_is_created_once (H := monitorLibrary)
              (mkDefaults None false)
              nvml.SUCCESS (false, "libnvidia-ml.so not found") nvml.SUCCESS
              ([sampleDevice "GPU-a"], None))
    as [d' [err [Hrun [_ [Hnew Hlater]]]]].
  exists d', err. split; [exact Hrun|].
  assert (Hset : defaultInstance d' <> None).
  { vm_compute in Hrun. injection Hrun as <- _. discriminate. }
  split; [|split].
  - vm_compute in Hrun. now injection Hrun as _ <-.
  - now apply (proj2 (proj2 (Hnew eq_refl))).
  - now apply Hlater.
Defined.

(** ** Keys of rewritten lines *)



